(** * VideoProcessor: frame classification, heat maps, statistics, sampling

    A shallow embedding of the class [VideoProcessor] (utils/VideoProcessor.ts)
    and the properties of its four methods [processFrame], [processVideo],
    [generateHeatmap] and [calculateStats], followed by the components
    that use it.

    Numbers.  The class is embedded twice.

    The first embedding reads the TypeScript type [number] as exact
    rationals [Q] for pixel coordinates, scores and times, as [Z] for
    the counters and heat-map cells, and as [nat] for array lengths and
    frame numbers; the one place where a non-finite value arises from
    finite inputs, the division that ends [calculateStats], is modelled
    by [JsNumber].  It carries the properties that rounding cannot
    touch: the structure of the loops, counting, order, and bounds that
    hold with a margin.

    The second embedding, the module [Double], reads [number] as the
    binary64 format of IEEE 754 with its rounding, NaN and infinities.
    It carries the properties that depend on the value a comparison
    sees: which heat-map cell a center falls in, whether a move of the
    ball exceeds 50, which candidate has the higher score, and when the
    accumulated clock of [processVideo] reaches the duration. *)

From Stdlib Require Import QArith Qabs Qminmax Qround ZArith Lia String.
From Stdlib Require Import Permutation Sorted.
From Stdlib Require Import Reals Qreals Psatz.
From Stdlib Require Import SpecFloat.
From stdpp Require Import base list pretty.

Local Open Scope Q_scope.

(** ** Numbers *)

Definition Qltb (x y : Q) : bool := negb (Qle_bool y x).

(** The result of a JavaScript division of two non-negative counters:
    a finite quotient, [NaN] for 0/0, [Infinity] for n/0 with n > 0. *)
Inductive JsNumber : Type :=
  | JsFinite (q : Q)
  | JsNaN
  | JsInfinity.

Definition js_div (a b : Z) : JsNumber :=
  if (b =? 0)%Z then (if (a =? 0)%Z then JsNaN else JsInfinity)
  else JsFinite (inject_Z a / inject_Z b).

(** ** Data model *)

(** What the detector returns for one object. *)
Record RawBox : Type := { xmin : Q; ymin : Q; xmax : Q; ymax : Q }.

Record RawDetection : Type :=
  { box : RawBox; raw_score : Q; raw_label : string }.

Record DetectionResult : Type :=
  { bbox : Q * Q * Q * Q; score : Q; label : string }.

Record TennisAnalysis : Type :=
  { frame : nat;
    timestamp : Q;
    players : list DetectionResult;
    ball : option DetectionResult;
    court : option DetectionResult }.

(** ** processFrame: classification of the detections of one frame *)

Definition isBallLike (result : DetectionResult) : bool :=
  let '(x1, y1, x2, y2) := bbox result in
  let width := x2 - x1 in
  let height := y2 - y1 in
  let area := width * height in
  Qltb area 2000 && Qltb (Qabs (width - height)) (Qmin width height * (1 # 2)).

Definition isCourtLike (result : DetectionResult) : bool :=
  let '(x1, y1, x2, y2) := bbox result in
  let width := x2 - x1 in
  let height := y2 - y1 in
  let area := width * height in
  Qltb 50000 area && Qltb (height * (3 # 2)) width.

(** The three variables the loop of [processFrame] updates. *)
Record FrameAcc : Type :=
  { acc_players : list DetectionResult;
    acc_ball : option DetectionResult;
    acc_court : option DetectionResult }.

Definition frame_acc0 : FrameAcc :=
  {| acc_players := []; acc_ball := None; acc_court := None |}.

Definition to_result (detection : RawDetection) : DetectionResult :=
  {| bbox := (xmin (box detection), ymin (box detection),
              xmax (box detection), ymax (box detection));
     score := raw_score detection;
     label := raw_label detection |}.

(** [!cand || score > cand.score] *)
Definition replaces (cand : option DetectionResult) (s : Q) : bool :=
  match cand with
  | None => true
  | Some c => Qltb (score c) s
  end.

(** One iteration of [for (const detection of detections)]. *)
Definition classify_step (acc : FrameAcc) (detection : RawDetection) : FrameAcc :=
  if Qltb (raw_score detection) (1 # 2) then acc
  else
    let result := to_result detection in
    if String.eqb (raw_label detection) "person" then
      {| acc_players := acc_players acc ++ [result];
         acc_ball := acc_ball acc; acc_court := acc_court acc |}
    else if String.eqb (raw_label detection) "sports ball" || isBallLike result then
      if replaces (acc_ball acc) (raw_score detection) then
        {| acc_players := acc_players acc;
           acc_ball := Some result; acc_court := acc_court acc |}
      else acc
    else if isCourtLike result then
      if replaces (acc_court acc) (raw_score detection) then
        {| acc_players := acc_players acc;
           acc_ball := acc_ball acc; acc_court := Some result |}
      else acc
    else acc.

Definition classify_loop (detections : list RawDetection) : FrameAcc :=
  fold_left classify_step detections frame_acc0.

(** The object returned after the loop; [players.slice(0, 2)]. *)
Definition classify (detections : list RawDetection)
    (frameNumber : nat) (t : Q) : TennisAnalysis :=
  let acc := classify_loop detections in
  {| frame := frameNumber;
     timestamp := t;
     players := take 2 (acc_players acc);
     ball := acc_ball acc;
     court := acc_court acc |}.

(** ** The processor object, exceptions and observable effects *)

Inductive Exn : Type := Error (message : string).

Inductive outcome (A : Type) : Type :=
  | Returned (a : A)
  | Thrown (e : Exn).
Arguments Returned {A} a.
Arguments Thrown {A} e.

Section Pipeline.

(** The pixels of one video frame, as drawn into the canvas. *)
Context {Image : Type}.

(** [this.objectDetector(canvas)]: resolves to detections or rejects. *)
Definition Detector : Type := Image -> outcome (list RawDetection).

Record VideoProcessor : Type :=
  { objectDetector : option Detector; initialized : bool }.

Definition new_VideoProcessor : VideoProcessor :=
  {| objectDetector := None; initialized := false |}.

Record Video : Type :=
  { duration : Q;
    videoWidth : nat;
    videoHeight : nat;
    frameAt : Q -> Image }.

(** Everything a run does besides returning: console output, seeks,
    drawing, and the calls of the two optional callbacks, which are
    taken to return normally. *)
Inductive Effect : Type :=
  | ConsoleLog (msg : string)
  | ConsoleError (msg : string) (e : Exn)
  | ConsoleFrameError (frameNumber : nat) (e : Exn)
  | SetCanvasSize (w h : nat)
  | Seek (t : Q)
  | DrawImage (t : Q)
  | OnFrame (analysis : TennisAnalysis)
  | OnProgress (progress : Q).

(** [initialize()]; [load] is what the model loader [pipeline(...)] yields. *)
Definition initialize (load : outcome Detector) (vp : VideoProcessor)
  : VideoProcessor * list Effect * outcome unit :=
  if initialized vp then (vp, [], Returned tt)
  else
    match load with
    | Returned d =>
        ({| objectDetector := Some d; initialized := true |},
         [ConsoleLog "Inicializando detector de objetos...";
          ConsoleLog "Detector inicializado com sucesso"],
         Returned tt)
    | Thrown e =>
        (vp,
         [ConsoleLog "Inicializando detector de objetos...";
          ConsoleError "Erro ao inicializar detector:" e],
         Thrown e)
    end.

Definition processFrame (vp : VideoProcessor) (canvas : Image)
    (frameNumber : nat) (t : Q) : list Effect * outcome TennisAnalysis :=
  if negb (initialized vp) then ([], Thrown (Error "Processor not initialized"))
  else
    match objectDetector vp with
    | None =>
        let e := Error "this.objectDetector is not a function" in
        ([ConsoleError "Erro ao processar frame:" e], Thrown e)
    | Some detect =>
        match detect canvas with
        | Returned detections =>
            ([], Returned (classify detections frameNumber t))
        | Thrown e => ([ConsoleError "Erro ao processar frame:" e], Thrown e)
        end
    end.

(** *** processVideo *)

Definition fps : Q := 30.
Definition frameInterval : Q := 1 / fps.

Record LoopState : Type :=
  { currentTime : Q;
    frameNumber : nat;
    results : list TennisAnalysis;
    trace : list Effect }.

Definition loop_state0 (pre : list Effect) : LoopState :=
  {| currentTime := 0; frameNumber := 0; results := []; trace := pre |}.

Section Loop.

Variable vp : VideoProcessor.
Variable video : Video.
Variable onProgress : bool.
Variable onFrame : bool.

(** The body of [while (currentTime < duration)]. *)
Definition loop_body (st : LoopState) : LoopState :=
  let t := currentTime st in
  let n := frameNumber st in
  let seeked := trace st ++ [Seek t; DrawImage t] in
  let '(res, tr) :=
    match processFrame vp (frameAt video t) n t with
    | (eff, Returned analysis) =>
        (results st ++ [analysis],
         seeked ++ eff ++ (if onFrame then [OnFrame analysis] else []))
    | (eff, Thrown e) =>
        (results st, seeked ++ eff ++ [ConsoleFrameError n e])
    end in
  let progress := (t / duration video) * 100 in
  {| currentTime := t + frameInterval * 5;
     frameNumber := S n;
     results := res;
     trace := tr ++ (if onProgress then [OnProgress progress] else []) |}.

Fixpoint sample_loop (fuel : nat) (st : LoopState) : option LoopState :=
  match fuel with
  | O => None
  | S fuel' =>
      if Qltb (currentTime st) (duration video)
      then sample_loop fuel' (loop_body st)
      else Some st
  end.

End Loop.

(** [if (!this.initialized) { await this.initialize(); }] *)
Definition ensure_initialized (load : outcome Detector) (vp : VideoProcessor)
  : VideoProcessor * list Effect * outcome unit :=
  if negb (initialized vp) then initialize load vp else (vp, [], Returned tt).

(** The iterations that remain when the clock shows [t] (the clock
    advances by a sixth of a second); it only serves as fuel. *)
Definition remaining (d t : Q) : nat := Z.to_nat (Qceiling ((d - t) * 6)).

(** [processVideo(video, canvas, onProgress, onFrame)].  [has2d] says
    whether [canvas.getContext('2d')] yields a context.  The result is
    [None] only if the loop were to need more than [remaining] steps. *)
Definition processVideo (load : outcome Detector) (vp : VideoProcessor)
    (video : Video) (has2d : bool) (onProgress onFrame : bool)
  : option (VideoProcessor * list Effect * outcome (list TennisAnalysis)) :=
  let '(vp1, eff, r) := ensure_initialized load vp in
  match r with
  | Thrown e => Some (vp1, eff, Thrown e)
  | Returned _ =>
      if negb has2d then
        Some (vp1, eff, Thrown (Error "Canvas context not available"))
      else
        let pre := eff ++ [SetCanvasSize (videoWidth video) (videoHeight video)] in
        match sample_loop vp1 video onProgress onFrame
                (S (remaining (duration video) 0)) (loop_state0 pre) with
        | None => None
        | Some st => Some (vp1, trace st, Returned (results st))
        end
  end.

End Pipeline.

Arguments VideoProcessor : clear implicits.
Arguments Video : clear implicits.
Arguments Detector : clear implicits.

(** ** generateHeatmap *)

(** ['players' | 'ball'] *)
Inductive HeatmapType : Type := Players | Ball.

(** [Math.floor((x1 + x2) / 2)], [Math.floor((y1 + y2) / 2)] *)
Definition center_cell (d : DetectionResult) : Z * Z :=
  let '(x1, y1, x2, y2) := bbox d in
  (Qfloor ((x1 + x2) / 2), Qfloor ((y1 + y2) / 2)).

Definition in_grid (width height : nat) (c : Z * Z) : bool :=
  let '(centerX, centerY) := c in
  ((0 <=? centerX)%Z && (centerX <? Z.of_nat width)%Z
   && (0 <=? centerY)%Z && (centerY <? Z.of_nat height)%Z)%bool.

(** [Array(height).fill(null).map(() => Array(width).fill(0))]: every
    row is an array of its own. *)
Definition zero_grid (width height : nat) : list (list Z) :=
  replicate height (replicate width 0%Z).

(** The guarded [heatmap[centerY][centerX] += 1]. *)
Definition mark (width height : nat) (heatmap : list (list Z))
    (d : DetectionResult) : list (list Z) :=
  let '(centerX, centerY) := center_cell d in
  if in_grid width height (centerX, centerY)
  then alter (alter (fun v => (v + 1)%Z) (Z.to_nat centerX)) (Z.to_nat centerY) heatmap
  else heatmap.

Definition heatmap_step (width height : nat) (type : HeatmapType)
    (heatmap : list (list Z)) (analysis : TennisAnalysis) : list (list Z) :=
  match type with
  | Players => fold_left (mark width height) (players analysis) heatmap
  | Ball =>
      match ball analysis with
      | Some b => mark width height heatmap b
      | None => heatmap
      end
  end.

Definition generateHeatmap (analyses : list TennisAnalysis)
    (width height : nat) (type : HeatmapType) : list (list Z) :=
  fold_left (heatmap_step width height type) analyses (zero_grid width height).

(** ** calculateStats *)

Record VideoStats : Type :=
  { shots : Z;
    winners : Z;
    errors : Z;
    ballDetections : Z;
    playerMovements : Z;
    averagePlayersPerFrame : JsNumber }.

(** The four variables the loop of [calculateStats] updates. *)
Record StatsAcc : Type :=
  { totalShots : Z;
    nBallDetections : Z;
    nPlayerMovements : Z;
    prevBallPosition : option (Q * Q) }.

Definition stats_acc0 : StatsAcc :=
  {| totalShots := 0; nBallDetections := 0; nPlayerMovements := 0;
     prevBallPosition := None |}.

(** [[(x1 + x2) / 2, (y1 + y2) / 2]] *)
Definition ball_center (d : DetectionResult) : Q * Q :=
  let '(x1, y1, x2, y2) := bbox d in ((x1 + x2) / 2, (y1 + y2) / 2).

(** The argument of [Math.sqrt]. *)
Definition distance_sq (cur prev : Q * Q) : Q :=
  (fst cur - fst prev) ^ 2 + (snd cur - snd prev) ^ 2.

(** [distance > 50], decided on the square: for [d2 >= 0],
    [sqrt d2 > 50] exactly when [d2 > 2500]. *)
Definition moved (cur prev : Q * Q) : bool := Qltb (50 ^ 2) (distance_sq cur prev).

Definition shot_between (prev : option (Q * Q)) (cur : Q * Q) : Z :=
  match prev with
  | Some p => if moved cur p then 1%Z else 0%Z
  | None => 0%Z
  end.

(** One iteration of [for (const analysis of analyses)]. *)
Definition stats_step (acc : StatsAcc) (analysis : TennisAnalysis) : StatsAcc :=
  let acc1 :=
    match ball analysis with
    | Some b =>
        let currentPos := ball_center b in
        {| totalShots := (totalShots acc + shot_between (prevBallPosition acc) currentPos)%Z;
           nBallDetections := (nBallDetections acc + 1)%Z;
           nPlayerMovements := nPlayerMovements acc;
           prevBallPosition := Some currentPos |}
    | None => acc
    end in
  {| totalShots := totalShots acc1;
     nBallDetections := nBallDetections acc1;
     nPlayerMovements := (nPlayerMovements acc1 + Z.of_nat (length (players analysis)))%Z;
     prevBallPosition := prevBallPosition acc1 |}.

Definition stats_loop (analyses : list TennisAnalysis) : StatsAcc :=
  fold_left stats_step analyses stats_acc0.

Definition calculateStats (analyses : list TennisAnalysis) : VideoStats :=
  let acc := stats_loop analyses in
  {| shots := totalShots acc;
     winners := Qfloor (inject_Z (totalShots acc) * (15 # 100));
     errors := Qfloor (inject_Z (totalShots acc) * (12 # 100));
     ballDetections := nBallDetections acc;
     playerMovements := nPlayerMovements acc;
     averagePlayersPerFrame :=
       js_div (nPlayerMovements acc) (Z.of_nat (length analyses)) |}.

(** * Vocabulary of the statements *)

(** ** Classes of detections, as the classifier's branches decide them *)

Definition confident (d : RawDetection) : bool :=
  negb (Qltb (raw_score d) (1 # 2)).

Definition ball_shaped (d : RawDetection) : bool :=
  String.eqb (raw_label d) "sports ball" || isBallLike (to_result d).

Definition is_person (d : RawDetection) : bool :=
  confident d && String.eqb (raw_label d) "person".

Definition is_ball (d : RawDetection) : bool :=
  confident d && negb (String.eqb (raw_label d) "person") && ball_shaped d.

Definition is_court (d : RawDetection) : bool :=
  confident d && negb (String.eqb (raw_label d) "person")
  && negb (ball_shaped d) && isCourtLike (to_result d).

(** The single-pass reduction that keeps a candidate. *)
Definition select (cand : option DetectionResult) (d : RawDetection)
  : option DetectionResult :=
  if replaces cand (raw_score d) then Some (to_result d) else cand.

Definition select_all (l : list RawDetection) (cand : option DetectionResult)
  : option DetectionResult :=
  fold_left select l cand.

(** [d] is the first detection of [l] with the highest score. *)
Definition first_best (l : list RawDetection) (d : RawDetection) : Prop :=
  exists l1 l2,
    l = l1 ++ d :: l2
    /\ Forall (fun x => raw_score x < raw_score d) l1
    /\ Forall (fun x => raw_score x <= raw_score d) l2.

Definition same_score (o o' : option DetectionResult) : Prop :=
  match o, o' with
  | Some a, Some b => score a == score b
  | None, None => True
  | _, _ => False
  end.

(** ** Heat maps *)

(** The detections a heat map of the given kind is built from. *)
Definition contributing (type : HeatmapType) (analyses : list TennisAnalysis)
  : list DetectionResult :=
  flat_map (fun a =>
    match type with
    | Players => players a
    | Ball => match ball a with Some b => [b] | None => [] end
    end) analyses.

Definition in_bounds (width height : nat) (d : DetectionResult) : bool :=
  in_grid width height (center_cell d).

(** The floored center of [d] is column [x] of row [y]. *)
Definition centered_at (x y : nat) (d : DetectionResult) : bool :=
  ((fst (center_cell d) =? Z.of_nat x)%Z
   && (snd (center_cell d) =? Z.of_nat y)%Z)%bool.

(** [heatmap[y][x]] *)
Definition cell (heatmap : list (list Z)) (y x : nat) : option Z :=
  heatmap !! y ≫= (.!! x).

Definition total {A} (h : A -> Z) (l : list A) : Z :=
  foldr (fun a acc => (h a + acc)%Z) 0%Z l.

Definition row_sum (row : list Z) : Z := total (fun v => v) row.

Definition grid_sum (heatmap : list (list Z)) : Z := total row_sum heatmap.

Definition count {A} (f : A -> bool) (l : list A) : Z :=
  Z.of_nat (length (List.filter f l)).

Definition grid_shape (width height : nat) (heatmap : list (list Z)) : Prop :=
  length heatmap = height /\ Forall (fun row => length row = width) heatmap.

Definition grid_nonneg (heatmap : list (list Z)) : Prop :=
  Forall (Forall (fun v => (0 <= v)%Z)) heatmap.

(** ** Statistics *)

(** The centers of the balls seen, in frame order. *)
Definition ball_centers (analyses : list TennisAnalysis) : list (Q * Q) :=
  omap (fun a => ball_center <$> ball a) analyses.

(** The shots along a track of ball centers, starting from a previous
    position that may be unset. *)
Fixpoint shots_along (prev : option (Q * Q)) (track : list (Q * Q)) : Z :=
  match track with
  | [] => 0%Z
  | cur :: rest => (shot_between prev cur + shots_along (Some cur) rest)%Z
  end.

(** The center of [d] is the point [(x, y)]. *)
Definition centered (d : DetectionResult) (x y : Q) : Prop :=
  fst (ball_center d) == x /\ snd (ball_center d) == y.

(** ** Sampling *)

(** The clock after [i] iterations. *)
Fixpoint sample_time (i : nat) : Q :=
  match i with
  | O => 0
  | S j => sample_time j + frameInterval * 5
  end.

Definition sample_count (d : Q) : nat := remaining d 0.

(** The times the video was sought to, in order. *)
Definition seeks (tr : list Effect) : list Q :=
  omap (fun e => match e with Seek t => Some t | _ => None end) tr.

Section RunVocabulary.

Context {Image : Type}.
Variable vp : VideoProcessor Image.
Variable video : Video Image.
Variable onProgress : bool.
Variable onFrame : bool.

(** What [processFrame] yields for the [i]-th sample. *)
Definition frame_call (i : nat) : list Effect * outcome TennisAnalysis :=
  processFrame vp (frameAt video (sample_time i)) i (sample_time i).

Definition frame_result (i : nat) : option TennisAnalysis :=
  match snd (frame_call i) with
  | Returned a => Some a
  | Thrown _ => None
  end.

(** What the [i]-th iteration does, in order. *)
Definition frame_effects (i : nat) : list Effect :=
  [Seek (sample_time i); DrawImage (sample_time i)]
  ++ fst (frame_call i)
  ++ match snd (frame_call i) with
     | Returned a => if onFrame then [OnFrame a] else []
     | Thrown e => [ConsoleFrameError i e]
     end
  ++ (if onProgress
      then [OnProgress (sample_time i / duration video * 100)]
      else []).

End RunVocabulary.

(** ** Sample data *)

Definition person (b : RawBox) (s : Q) : RawDetection :=
  {| box := b; raw_score := s; raw_label := "person" |}.

Definition square_box (side : Q) : RawBox :=
  {| xmin := 0; ymin := 0; xmax := side; ymax := side |}.

Definition ball_a : RawDetection :=
  {| box := square_box 10; raw_score := 7 # 10; raw_label := "sports ball" |}.
Definition ball_b : RawDetection :=
  {| box := square_box 12; raw_score := 8 # 10; raw_label := "sports ball" |}.
Definition ball_c : RawDetection :=
  {| box := square_box 8; raw_score := 7 # 10; raw_label := "sports ball" |}.

Definition boxed (x1 y1 x2 y2 : Q) : DetectionResult :=
  {| bbox := (x1, y1, x2, y2); score := 9 # 10; label := "person" |}.

Definition one_player_frame : TennisAnalysis :=
  {| frame := 0; timestamp := 0;
     players := [boxed 0 0 3 5; boxed 40 40 50 50];
     ball := Some (boxed 1 1 2 2); court := None |}.

Definition ball_frame (n : nat) (x1 y1 x2 y2 : Q) : TennisAnalysis :=
  {| frame := n; timestamp := 0; players := [];
     ball := Some {| bbox := (x1, y1, x2, y2); score := 9 # 10;
                     label := "sports ball" |};
     court := None |}.

Definition empty_frame (n : nat) : TennisAnalysis :=
  {| frame := n; timestamp := 0; players := []; ball := None; court := None |}.

(** A third of a second of video whose frames are told apart by their
    time, and a detector that fails on the very first frame. *)
Definition clip : Video Q :=
  {| duration := 1 # 3; videoWidth := 4; videoHeight := 3; frameAt := fun t => t |}.

Definition still : Video Q :=
  {| duration := 0; videoWidth := 4; videoHeight := 3; frameAt := fun t => t |}.

Definition inference_failed : Exn := Error "inference failed".

Definition flaky : Detector Q :=
  fun img => if Qeq_bool img 0 then Thrown inference_failed else Returned [].

Definition flaky_processor : VideoProcessor Q :=
  {| objectDetector := Some flaky; initialized := true |}.

Definition no_detections (n : nat) (t : Q) : TennisAnalysis :=
  {| frame := n; timestamp := t; players := []; ball := None; court := None |}.

(** ** Further vocabulary *)


Definition box_width (r : DetectionResult) : Q :=
  let '(x1, _, x2, _) := bbox r in x2 - x1.

Definition box_height (r : DetectionResult) : Q :=
  let '(_, y1, _, y2) := bbox r in y2 - y1.

(** The frame numbers logged as failed, the progress values reported
    and the analyses handed to [onFrame], each in order. *)
Definition frame_errors (tr : list Effect) : list nat :=
  omap (fun e => match e with ConsoleFrameError i _ => Some i | _ => None end) tr.

Definition progress_reports (tr : list Effect) : list Q :=
  omap (fun e => match e with OnProgress p => Some p | _ => None end) tr.

Definition frame_callbacks (tr : list Effect) : list TennisAnalysis :=
  omap (fun e => match e with OnFrame a => Some a | _ => None end) tr.

(** Cell-wise sum of two grids. *)
Definition grid_add (g1 g2 : list (list Z)) : list (list Z) :=
  zip_with (zip_with Z.add) g1 g2.

(** The analysis has a ball. *)
Definition has_ball (a : TennisAnalysis) : bool :=
  match ball a with Some _ => true | None => false end.

(** The center lies outside the grid. *)
Definition out_of_bounds (width height : nat) (d : DetectionResult) : bool :=
  negb (in_bounds width height d).

(** ** data/professionalPlayers.ts *)

Record MovementPoint3D : Type :=
  { pt_x : Q; pt_y : Q; pt_z : Q; pt_timestamp : Q; pt_speed : Q }.

Record ProfessionalPlayer : Type :=
  { name : string;
    ranking : Z;
    style : string;
    averageSpeed : Q;
    courtCoverage : Q;
    efficiency : Q;
    strengths : list string;
    movement3D : list MovementPoint3D }.

(** The argument [playerStats] of [compareWithProfessional]. *)
Record PlayerStats : Type :=
  { stats_averageSpeed : Q; stats_courtCoverage : Q; stats_efficiency : Q }.

(** [x.toFixed(1)] for a number below 1e21: the nearest tenth, the
    larger one on a tie, after the sign. *)
Definition toFixed1 (x : Q) : string :=
  let n := Qfloor (Qabs x * 10 + (1 # 2)) in
  ((if Qltb x 0 then "-" else "")
   ++ pretty (n / 10)%Z ++ "." ++ pretty (n mod 10)%Z)%string.

(** [Math.random()] is a stream of draws; [rnd k] is the [k]-th draw. *)
Definition track (rnd : nat -> Q) (base : nat) (xr zr sr s0 : Q)
  : list MovementPoint3D :=
  map (fun i =>
         {| pt_x := (rnd (base + 3 * i)%nat - (1 # 2)) * xr;
            pt_y := 0;
            pt_z := (rnd (base + 3 * i + 1)%nat - (1 # 2)) * zr;
            pt_timestamp := inject_Z (Z.of_nat i) * 100;
            pt_speed := rnd (base + 3 * i + 2)%nat * sr + s0 |})
      (seq 0 50).

Definition professionalPlayers (rnd : nat -> Q) : list ProfessionalPlayer :=
  [ {| name := "Rafael Nadal";
       ranking := 1;
       style := "Baseline Aggressive";
       averageSpeed := 285 # 10;
       courtCoverage := 923 # 10;
       efficiency := 897 # 10;
       strengths := ["Forehand topspin"; "Court coverage"; "Defensive positioning"]%string;
       movement3D := track rnd 0 22 10 10 25 |};
    {| name := "Novak Djokovic";
       ranking := 2;
       style := "All Court";
       averageSpeed := 268 # 10;
       courtCoverage := 889 # 10;
       efficiency := 912 # 10;
       strengths := ["Return game"; "Mental toughness"; "Flexibility"]%string;
       movement3D := track rnd 150 20 8 8 24 |};
    {| name := "Roger Federer";
       ranking := 3;
       style := "Offensive Baseline";
       averageSpeed := 252 # 10;
       courtCoverage := 851 # 10;
       efficiency := 935 # 10;
       strengths := ["Serve"; "Net play"; "Shot variety"]%string;
       movement3D := track rnd 300 18 9 12 20 |} ].

(** [professionalPlayers[Math.floor(Math.random() * professionalPlayers.length)]];
    [r] is the draw, [None] stands for [undefined]. *)
Definition getRandomProfessionalPlayer (table : list ProfessionalPlayer) (r : Q)
  : option ProfessionalPlayer :=
  let i := Qfloor (r * inject_Z (Z.of_nat (length table))) in
  if (i <? 0)%Z then None else table !! Z.to_nat i.

Record Comparison : Type :=
  { professional : ProfessionalPlayer;
    improvements : list string;
    similarityScore : Q }.

Definition compareWithProfessional (playerStats : PlayerStats)
    (pro : ProfessionalPlayer) : Comparison :=
  let speedDiff := averageSpeed pro - stats_averageSpeed playerStats in
  let coverageDiff := courtCoverage pro - stats_courtCoverage playerStats in
  let efficiencyDiff := efficiency pro - stats_efficiency playerStats in
  let improvements0 : list string := [] in
  let improvements1 :=
    if Qltb 2 speedDiff
    then improvements0 ++
         [("Aumente a velocidade de movimento em " ++ toFixed1 speedDiff
           ++ " km/h como " ++ name pro)%string]
    else improvements0 in
  let improvements2 :=
    if Qltb 5 coverageDiff
    then improvements1 ++
         [("Melhore a cobertura da quadra em " ++ toFixed1 coverageDiff
           ++ "% seguindo o estilo " ++ style pro)%string]
    else improvements1 in
  let improvements3 :=
    if Qltb 3 efficiencyDiff
    then improvements2 ++
         [("Aumente a eficiência em " ++ toFixed1 efficiencyDiff
           ++ "% focando em: " ++ String.concat ", " (strengths pro))%string]
    else improvements2 in
  {| professional := pro;
     improvements := improvements3;
     similarityScore :=
       Qmax 0 (100 - Qabs speedDiff - Qabs coverageDiff - Qabs efficiencyDiff) |}.

(** ** components/TennisAnalysis3D.tsx: HeatmapVisualization *)

Definition gridSize : nat := 20.

(** [Math.floor((point.x + 12) * gridSize / 24)],
    [Math.floor((point.z + 6) * gridSize / 12)] *)
Definition grid_cell (point : MovementPoint3D) : Z * Z :=
  (Qfloor ((pt_x point + 12) * inject_Z (Z.of_nat gridSize) / 24),
   Qfloor ((pt_z point + 6) * inject_Z (Z.of_nat gridSize) / 12)).

(** The guarded [grid[gridX][gridZ]++]. *)
Definition plot (grid : list (list Z)) (point : MovementPoint3D) : list (list Z) :=
  let '(gridX, gridZ) := grid_cell point in
  if ((0 <=? gridX)%Z && (gridX <? Z.of_nat gridSize)%Z
      && (0 <=? gridZ)%Z && (gridZ <? Z.of_nat gridSize)%Z)%bool
  then alter (alter (fun v => (v + 1)%Z) (Z.to_nat gridZ)) (Z.to_nat gridX) grid
  else grid.

(** The grid computed by [useMemo] in [HeatmapVisualization]. *)
Definition heatmapData (points : list MovementPoint3D) : list (list Z) :=
  fold_left plot points (zero_grid gridSize gridSize).

(** The point lies in the box the grid covers. *)
Definition on_grid (point : MovementPoint3D) : bool :=
  Qle_bool (-12) (pt_x point) && Qltb (pt_x point) 12
  && Qle_bool (-6) (pt_z point) && Qltb (pt_z point) 6.

(** ** components/TennisAnalyzer.tsx: analyzeVideo *)

(** ['player1' | 'player2' | 'error'] *)
Inductive RallyWinner : Type := player1 | player2 | rally_error.

Record Rally : Type :=
  { rally_duration : Q; rally_shots : Z; rally_winner : RallyWinner }.

Record AnalysisData : Type :=
  { playerHeatmap : list (list Z);
    ballHeatmap : list (list Z);
    data_shots : Z;
    data_winners : Z;
    data_errors : Z;
    rallies : list Rally;
    data_movement3D : list MovementPoint3D;
    ballTrajectory3D : list MovementPoint3D;
    insights3D : PlayerStats;
    professionalComparison : option Comparison }.

(** What the component does that can be seen from outside: state
    setters, toasts, console output, and what the processor did. *)
Inductive UiEvent : Type :=
  | SetIsAnalyzing (b : bool)
  | SetAnalysisProgress (p : Q)
  | SetAnalysisData (d : AnalysisData)
  | ToastShown (title description : string) (destructive : bool)
  | ConsoleInfo (msg : string)
  | ConsoleInfoError (msg : string) (e : Exn)
  | ConsoleFailure (msg : string) (e : Exn)
  | Processor (e : Effect)
  | SetCanvas (w h : nat)
  | SeekVideo (t : Q)
  | DrawFrame (t : Q).

(** The two callbacks handed to [processVideo]:
    [(progress) => setAnalysisProgress(progress)] and
    [(frameAnalysis) => console.log(`Frame ${frameAnalysis.frame} processado`)]. *)
Definition ui_of_effect (e : Effect) : UiEvent :=
  match e with
  | OnProgress p => SetAnalysisProgress p
  | OnFrame a => ConsoleInfo ("Frame " ++ pretty (frame a) ++ " processado")%string
  | _ => Processor e
  end.

(** The 30 points of [ballTrajectory3D]; four draws each. *)
Definition ball_track (rnd : nat -> Q) (base : nat) : list MovementPoint3D :=
  map (fun i =>
         {| pt_x := (rnd (base + 4 * i)%nat - (1 # 2)) * 22;
            pt_y := rnd (base + 4 * i + 1)%nat * 3 + (1 # 2);
            pt_z := (rnd (base + 4 * i + 2)%nat - (1 # 2)) * 10;
            pt_timestamp := inject_Z (Z.of_nat i) * 150;
            pt_speed := rnd (base + 4 * i + 3)%nat * 50 + 30 |})
      (seq 0 30).

(** [Array(n).fill(null).map(...)] for the rallies; three draws each. *)
Definition random_rallies (n : nat) (rnd : nat -> Q) (base : nat) : list Rally :=
  map (fun i =>
         {| rally_duration := rnd (base + 3 * i)%nat * 30 + 5;
            rally_shots := (Qfloor (rnd (base + 3 * i + 1)%nat * 20) + 3)%Z;
            rally_winner :=
              if Qltb (1 # 2) (rnd (base + 3 * i + 2)%nat) then player1 else player2 |})
      (seq 0 n).

Section Analyzer.

Context {Image : Type}.

(** The body of the outer [try] of [analyzeVideo], up to and including
    the construction of [analysisResult].  [load1] and [load2] are what
    the model loader yields in [initialize] and, if it is asked again,
    in [processVideo]; [rnd] are the draws of [Math.random]. *)
Definition analysis (load1 load2 : outcome (Detector Image))
    (vp : VideoProcessor Image) (video : Video Image) (has2d : bool)
    (table : list ProfessionalPlayer) (rnd : nat -> Q)
  : option (VideoProcessor Image * list UiEvent * outcome AnalysisData) :=
  let toast0 :=
    ToastShown "Inicializando IA" "Carregando modelo de detecção YOLO..." false in
  let '(vp1, eff1, r1) := initialize load1 vp in
  let ev1 :=
    toast0 :: map Processor eff1
    ++ match r1 with
       | Thrown e =>
           [ConsoleInfoError
              "Usando análise simulada devido a limitações do modelo:" e]
       | Returned _ => []
       end in
  match processVideo load2 vp1 video has2d true true with
  | None => None
  | Some (vp2, tr, Thrown e) => Some (vp2, ev1 ++ map ui_of_effect tr, Thrown e)
  | Some (vp2, tr, Returned analysisResults) =>
      let ev2 := ev1 ++ map ui_of_effect tr in
      let width := videoWidth video in
      let height := videoHeight video in
      let playerHeatmap := generateHeatmap analysisResults width height Players in
      let ballHeatmap := generateHeatmap analysisResults width height Ball in
      let stats := calculateStats analysisResults in
      let movement := track rnd 0 20 10 30 10 in
      let ballTrajectory := ball_track rnd 150 in
      let insights :=
        {| stats_averageSpeed := rnd 270%nat * 10 + 20;
           stats_courtCoverage := rnd 271%nat * 20 + 70;
           stats_efficiency := rnd 272%nat * 15 + 80 |} in
      match getRandomProfessionalPlayer table (rnd 273%nat) with
      | None =>
          Some (vp2, ev2,
                Thrown (Error "Cannot read properties of undefined (reading 'averageSpeed')"))
      | Some professionalPlayer =>
          let comparison := compareWithProfessional insights professionalPlayer in
          Some (vp2, ev2,
                Returned
                  {| playerHeatmap := playerHeatmap;
                     ballHeatmap := ballHeatmap;
                     data_shots := Z.max (shots stats) 25;
                     data_winners := Z.max (winners stats) 8;
                     data_errors := Z.max (errors stats) 3;
                     rallies := random_rallies 8 rnd 274;
                     data_movement3D := movement;
                     ballTrajectory3D := ballTrajectory;
                     insights3D := insights;
                     professionalComparison := Some comparison |})
      end
  end.

(** [analyzeVideo]; [refs] says whether both the video and the canvas
    element are mounted. *)
Definition analyzeVideo (refs : bool) (load1 load2 : outcome (Detector Image))
    (vp : VideoProcessor Image) (video : Video Image) (has2d : bool)
    (table : list ProfessionalPlayer) (rnd : nat -> Q)
  : option (VideoProcessor Image * list UiEvent) :=
  if negb refs then Some (vp, [])
  else
    match analysis load1 load2 vp video has2d table rnd with
    | None => None
    | Some (vp2, ev, Returned analysisResult) =>
        Some (vp2,
              [SetIsAnalyzing true; SetAnalysisProgress 0] ++ ev
              ++ [SetAnalysisData analysisResult;
                  ToastShown "🎾 Análise completa!"
                    (pretty (data_shots analysisResult) ++ " golpes, "
                     ++ pretty (data_winners analysisResult)
                     ++ " winners. Comparado com "
                     ++ match professionalComparison analysisResult with
                        | Some c => name (professional c)
                        | None => ""
                        end ++ "!")%string
                    false;
                  SetIsAnalyzing false])
    | Some (vp2, ev, Thrown e) =>
        Some (vp2,
              [SetIsAnalyzing true; SetAnalysisProgress 0] ++ ev
              ++ [ConsoleFailure "Erro na análise:" e;
                  ToastShown "Erro na análise" "Falha ao processar o vídeo" true;
                  SetIsAnalyzing false])
    end.

End Analyzer.

(** The analysis data built from the analyses [res], the draws and the
    professional drawn. *)
Definition data_of {Image : Type} (video : Video Image)
    (res : list TennisAnalysis) (rnd : nat -> Q) (pro : ProfessionalPlayer)
  : AnalysisData :=
  {| playerHeatmap :=
       generateHeatmap res (videoWidth video) (videoHeight video) Players;
     ballHeatmap :=
       generateHeatmap res (videoWidth video) (videoHeight video) Ball;
     data_shots := Z.max (shots (calculateStats res)) 25;
     data_winners := Z.max (winners (calculateStats res)) 8;
     data_errors := Z.max (errors (calculateStats res)) 3;
     rallies := random_rallies 8 rnd 274;
     data_movement3D := track rnd 0 20 10 30 10;
     ballTrajectory3D := ball_track rnd 150;
     insights3D :=
       {| stats_averageSpeed := rnd 270%nat * 10 + 20;
          stats_courtCoverage := rnd 271%nat * 20 + 70;
          stats_efficiency := rnd 272%nat * 15 + 80 |};
     professionalComparison :=
       Some (compareWithProfessional
               {| stats_averageSpeed := rnd 270%nat * 10 + 20;
                  stats_courtCoverage := rnd 271%nat * 20 + 70;
                  stats_efficiency := rnd 272%nat * 15 + 80 |}
               pro) |}.

(** The analysis data set, and the toasts shown, in order. *)
Definition shown_data (evs : list UiEvent) : list AnalysisData :=
  omap (fun e => match e with SetAnalysisData d => Some d | _ => None end) evs.

Definition error_toasts (evs : list UiEvent) : list string :=
  omap (fun e => match e with ToastShown t _ true => Some t | _ => None end) evs.

Definition progress_shown (evs : list UiEvent) : list Q :=
  omap (fun e => match e with SetAnalysisProgress p => Some p | _ => None end) evs.

(** ** components/TennisAnalyzer.tsx: handleSubmit *)

(** [s.includes(sub)] *)
Fixpoint includes (s sub : string) : bool :=
  if String.prefix sub s then true
  else
    match s with
    | EmptyString => false
    | String _ rest => includes rest sub
    end.

(** [handleSubmit] up to the point where the download starts; [proceed]
    is what the download and the analysis do afterwards. *)
Definition handleSubmit (youtubeUrl : string) (proceed : list UiEvent) : list UiEvent :=
  if negb (includes youtubeUrl "youtube.com") && negb (includes youtubeUrl "youtu.be")
  then [ToastShown "URL inválida" "Por favor, insira um link válido do YouTube" true]
  else proceed.

(** Draws that are all one quarter. *)
Definition quarter : nat -> Q := fun _ => 1 # 4.

(** A video as long and as large as [clip] that shows one and the same
    frame throughout. *)
Definition still_third : Video Q :=
  {| duration := 1 # 3; videoWidth := 4; videoHeight := 3; frameAt := fun _ => 7 |}.

(** A player and a professional to compare. *)
Definition nadal : ProfessionalPlayer :=
  {| name := "Rafael Nadal";
     ranking := 1;
     style := "Baseline Aggressive";
     averageSpeed := 285 # 10;
     courtCoverage := 923 # 10;
     efficiency := 897 # 10;
     strengths := ["Forehand topspin"; "Court coverage"; "Defensive positioning"]%string;
     movement3D := [] |}.

Definition slow_player : PlayerStats :=
  {| stats_averageSpeed := 20; stats_courtCoverage := 80; stats_efficiency := 85 |}.

Definition nadal_like : PlayerStats :=
  {| stats_averageSpeed := 285 # 10;
     stats_courtCoverage := 923 # 10;
     stats_efficiency := 897 # 10 |}.

(** ** The earlier TennisAnalyzer component: its analyzeVideo, which
    steps through the video without looking at the frames *)

Record SimState : Type := { sim_frame : nat; sim_events : list UiEvent }.

(** The body of [for (let frame = 0; frame < totalFrames; frame += 10)]. *)
Definition sim_body (totalFrames : Q) (st : SimState) : SimState :=
  let frame := sim_frame st in
  let t := inject_Z (Z.of_nat frame) / fps in
  {| sim_frame := frame + 10;
     sim_events :=
       sim_events st
       ++ [SeekVideo t; DrawFrame t;
           SetAnalysisProgress (inject_Z (Z.of_nat frame) / totalFrames * 100)] |}.

Fixpoint sim_loop (totalFrames : Q) (fuel : nat) (st : SimState) : option SimState :=
  match fuel with
  | O => None
  | S fuel' =>
      if Qltb (inject_Z (Z.of_nat (sim_frame st))) totalFrames
      then sim_loop totalFrames fuel' (sim_body totalFrames st)
      else Some st
  end.

(** The number of steps of the loop; it only serves as fuel. *)
Definition sim_steps (totalFrames : Q) : nat := Z.to_nat (Qceiling (totalFrames / 10)).

Definition analyzeVideo_simulated {Image : Type} (refs : bool)
    (video : Video Image) (has2d : bool) (rnd : nat -> Q)
  : option (list UiEvent) :=
  if negb refs then Some []
  else
    let start := [SetIsAnalyzing true; SetAnalysisProgress 0] in
    if negb has2d then
      Some (start
            ++ [ConsoleFailure "Erro na análise:" (Error "Canvas context not available");
                ToastShown "Erro na análise" "Falha ao processar o vídeo" true;
                SetIsAnalyzing false])
    else
      let totalFrames := duration video * fps in
      let playerHeatmap := zero_grid (videoWidth video) (videoHeight video) in
      let ballHeatmap := zero_grid (videoWidth video) (videoHeight video) in
      match sim_loop totalFrames (S (sim_steps totalFrames))
              {| sim_frame := 0;
                 sim_events :=
                   start ++ [SetCanvas (videoWidth video) (videoHeight video)] |} with
      | None => None
      | Some st =>
          let movement := track rnd 0 20 10 30 10 in
          let ballTrajectory := ball_track rnd 150 in
          let analysisResult :=
            {| playerHeatmap := playerHeatmap;
               ballHeatmap := ballHeatmap;
               data_shots := (Qfloor (rnd 270%nat * 100) + 50)%Z;
               data_winners := (Qfloor (rnd 271%nat * 20) + 10)%Z;
               data_errors := (Qfloor (rnd 272%nat * 15) + 5)%Z;
               rallies := random_rallies 10 rnd 273;
               data_movement3D := movement;
               ballTrajectory3D := ballTrajectory;
               insights3D :=
                 {| stats_averageSpeed := 245 # 10;
                    stats_courtCoverage := 783 # 10;
                    stats_efficiency := 857 # 10 |};
               professionalComparison := None |} in
          Some (sim_events st
                ++ [SetAnalysisData analysisResult;
                    ToastShown "Análise completa!"
                      ("Detectados " ++ pretty (data_shots analysisResult)
                       ++ " golpes, " ++ pretty (data_winners analysisResult)
                       ++ " winners")%string
                      false;
                    SetIsAnalyzing false])
      end.

(** The times the component itself sought the video to, in order. *)
Definition video_seeks (evs : list UiEvent) : list Q :=
  omap (fun e => match e with SeekVideo t => Some t | _ => None end) evs.

(** What step [i] of the simulated analysis does. *)
Definition sim_step_events (totalFrames : Q) (i : nat) : list UiEvent :=
  [SeekVideo (inject_Z (Z.of_nat (10 * i)) / fps);
   DrawFrame (inject_Z (Z.of_nat (10 * i)) / fps);
   SetAnalysisProgress (inject_Z (Z.of_nat (10 * i)) / totalFrames * 100)].

(** ** components/TennisAnalysis3D.tsx: BallTrajectory *)

(** The point the ball is moved to in [useFrame] at elapsed time
    [time]: [points[Math.floor(time * 2) % points.length]], guarded by
    [points.length > 0]; [None] stands for no move or [undefined]. *)
Definition ball_point (points : list MovementPoint3D) (time : Q)
  : option MovementPoint3D :=
  if (0 <? length points)%nat then
    let index := Z.rem (Qfloor (time * 2)) (Z.of_nat (length points)) in
    if (index <? 0)%Z then None else points !! Z.to_nat index
  else None.

(** A rally of [k] sightings of the ball, alternately around (0, 0) and
    around (100, 0). *)
Definition rally (k : nat) : list TennisAnalysis :=
  map (fun i => if Nat.even i then ball_frame i (-5) (-5) 5 5
                else ball_frame i 95 (-5) 105 5)
    (seq 0 k).

(** * The same methods over IEEE 754 doubles

    The module [Double] translates [VideoProcessor] once more, with the
    type [number] as the binary64 format of IEEE 754: every sum,
    difference, product, quotient and square root is rounded to the
    nearest double (ties to even), and NaN, the infinities and the two
    zeros are values.  Counters, frame numbers and array lengths stay
    integers.  The two callbacks of [processVideo] are functions that
    may throw. *)

Module Double.

(** ** Numbers *)

Definition number : Type := spec_float.

Definition fadd : number -> number -> number := SFadd 53 1024.
Definition fsub : number -> number -> number := SFsub 53 1024.
Definition fmul : number -> number -> number := SFmul 53 1024.
Definition fdiv : number -> number -> number := SFdiv 53 1024.
Definition Math_sqrt : number -> number := SFsqrt 53 1024.
Definition Math_abs : number -> number := SFabs.

(** [x < y]; [x > y] is [flt y x].  Both are false if one side is NaN. *)
Definition flt (x y : number) : bool := SFltb x y.

(** [x == y] on numbers: NaN equals nothing, the two zeros are equal. *)
Definition feq (x y : number) : bool := SFeqb x y.

Definition is_nan (x : number) : bool :=
  match x with S754_nan => true | _ => false end.

(** An integer literal or counter as a number. *)
Definition of_int (n : Z) : number := binary_normalize 53 1024 n 0 false.

(** A decimal literal [n/d], read as the nearest double. *)
Definition literal (n d : Z) : number := fdiv (of_int n) (of_int d).

(** [Math.pow(x, 2)], taken to be the correctly rounded square. *)
Definition Math_pow2 (x : number) : number := fmul x x.

(** [Math.min(x, y)]: NaN if one argument is, and -0 below +0. *)
Definition Math_min (x y : number) : number :=
  match x, y with
  | S754_nan, _ | _, S754_nan => S754_nan
  | _, _ =>
      if flt y x then y
      else if flt x y then x
      else match x with S754_zero true => x | _ => y end
  end.

(** [Math.floor(x)]: an integer, or [None] for NaN and the infinities,
    for which every comparison that guards an array access fails. *)
Definition Math_floor (x : number) : option Z :=
  match x with
  | S754_zero _ => Some 0%Z
  | S754_finite s m e => Some (Z.shiftl (cond_Zopp s (Zpos m)) e)
  | S754_infinity _ | S754_nan => None
  end.

(** ** Data model *)

Record RawBox : Type :=
  { xmin : number; ymin : number; xmax : number; ymax : number }.

Record RawDetection : Type :=
  { box : RawBox; raw_score : number; raw_label : string }.

Record DetectionResult : Type :=
  { bbox : number * number * number * number; score : number; label : string }.

Record TennisAnalysis : Type :=
  { frame : nat;
    timestamp : number;
    players : list DetectionResult;
    ball : option DetectionResult;
    court : option DetectionResult }.

(** ** processFrame: classification of the detections of one frame *)

Definition isBallLike (result : DetectionResult) : bool :=
  let '(x1, y1, x2, y2) := bbox result in
  let width := fsub x2 x1 in
  let height := fsub y2 y1 in
  let area := fmul width height in
  flt area (of_int 2000)
  && flt (Math_abs (fsub width height)) (fmul (Math_min width height) (literal 5 10)).

Definition isCourtLike (result : DetectionResult) : bool :=
  let '(x1, y1, x2, y2) := bbox result in
  let width := fsub x2 x1 in
  let height := fsub y2 y1 in
  let area := fmul width height in
  flt (of_int 50000) area && flt (fmul height (literal 15 10)) width.

Record FrameAcc : Type :=
  { acc_players : list DetectionResult;
    acc_ball : option DetectionResult;
    acc_court : option DetectionResult }.

Definition frame_acc0 : FrameAcc :=
  {| acc_players := []; acc_ball := None; acc_court := None |}.

Definition to_result (detection : RawDetection) : DetectionResult :=
  {| bbox := (xmin (box detection), ymin (box detection),
              xmax (box detection), ymax (box detection));
     score := raw_score detection;
     label := raw_label detection |}.

(** [!cand || score > cand.score] *)
Definition replaces (cand : option DetectionResult) (s : number) : bool :=
  match cand with
  | None => true
  | Some c => flt (score c) s
  end.

(** One iteration of [for (const detection of detections)]. *)
Definition classify_step (acc : FrameAcc) (detection : RawDetection) : FrameAcc :=
  if flt (raw_score detection) (literal 5 10) then acc
  else
    let result := to_result detection in
    if String.eqb (raw_label detection) "person" then
      {| acc_players := acc_players acc ++ [result];
         acc_ball := acc_ball acc; acc_court := acc_court acc |}
    else if String.eqb (raw_label detection) "sports ball" || isBallLike result then
      if replaces (acc_ball acc) (raw_score detection) then
        {| acc_players := acc_players acc;
           acc_ball := Some result; acc_court := acc_court acc |}
      else acc
    else if isCourtLike result then
      if replaces (acc_court acc) (raw_score detection) then
        {| acc_players := acc_players acc;
           acc_ball := acc_ball acc; acc_court := Some result |}
      else acc
    else acc.

Definition classify_loop (detections : list RawDetection) : FrameAcc :=
  fold_left classify_step detections frame_acc0.

(** The object returned after the loop; [players.slice(0, 2)]. *)
Definition classify (detections : list RawDetection)
    (frameNumber : nat) (t : number) : TennisAnalysis :=
  let acc := classify_loop detections in
  {| frame := frameNumber;
     timestamp := t;
     players := take 2 (acc_players acc);
     ball := acc_ball acc;
     court := acc_court acc |}.
(** ** The processor object and observable effects *)

Section Pipeline.

Context {Image : Type}.

(** [this.objectDetector(canvas)]: resolves to detections or rejects. *)
Definition Detector : Type := Image -> outcome (list RawDetection).

Record VideoProcessor : Type :=
  { objectDetector : option Detector; initialized : bool }.

Record Video : Type :=
  { duration : number;
    videoWidth : nat;
    videoHeight : nat;
    frameAt : number -> Image }.

(** A callback supplied by the caller, known by what a call of it
    throws, if anything. *)
Definition Callback (A : Type) : Type := A -> option Exn.

(** Everything a run does besides returning. *)
Inductive Effect : Type :=
  | ConsoleLog (msg : string)
  | ConsoleError (msg : string) (e : Exn)
  | ConsoleFrameError (frameNumber : nat) (e : Exn)
  | SetCanvasSize (w h : nat)
  | Seek (t : number)
  | DrawImage (t : number)
  | OnFrame (analysis : TennisAnalysis)
  | OnProgress (progress : number).

(** [initialize()]; [load] is what the model loader [pipeline(...)] yields. *)
Definition initialize (load : outcome Detector) (vp : VideoProcessor)
  : VideoProcessor * list Effect * outcome unit :=
  if initialized vp then (vp, [], Returned tt)
  else
    match load with
    | Returned d =>
        ({| objectDetector := Some d; initialized := true |},
         [ConsoleLog "Inicializando detector de objetos...";
          ConsoleLog "Detector inicializado com sucesso"],
         Returned tt)
    | Thrown e =>
        (vp,
         [ConsoleLog "Inicializando detector de objetos...";
          ConsoleError "Erro ao inicializar detector:" e],
         Thrown e)
    end.

Definition processFrame (vp : VideoProcessor) (canvas : Image)
    (frameNumber : nat) (t : number) : list Effect * outcome TennisAnalysis :=
  if negb (initialized vp) then ([], Thrown (Error "Processor not initialized"))
  else
    match objectDetector vp with
    | None =>
        let e := Error "this.objectDetector is not a function" in
        ([ConsoleError "Erro ao processar frame:" e], Thrown e)
    | Some detect =>
        match detect canvas with
        | Returned detections =>
            ([], Returned (classify detections frameNumber t))
        | Thrown e => ([ConsoleError "Erro ao processar frame:" e], Thrown e)
        end
    end.

(** *** processVideo *)

Definition fps : number := of_int 30.
Definition frameInterval : number := fdiv (of_int 1) fps.

Record LoopState : Type :=
  { currentTime : number;
    frameNumber : nat;
    results : list TennisAnalysis;
    trace : list Effect }.

Definition loop_state0 (pre : list Effect) : LoopState :=
  {| currentTime := of_int 0; frameNumber := 0; results := []; trace := pre |}.

Section Loop.

Variable vp : VideoProcessor.
Variable video : Video.
Variable onProgress : option (Callback number).
Variable onFrame : option (Callback TennisAnalysis).

(** The [try] block of the loop body and its [catch]: the analysis is
    pushed before [onFrame] is called, and whatever [processFrame] or
    [onFrame] throws is logged for the frame. *)
Definition try_frame (st : LoopState) : list TennisAnalysis * list Effect :=
  let t := currentTime st in
  let n := frameNumber st in
  match processFrame vp (frameAt video t) n t with
  | (eff, Returned analysis) =>
      (results st ++ [analysis],
       eff ++ match onFrame with
              | Some f =>
                  OnFrame analysis
                  :: match f analysis with
                     | Some e => [ConsoleFrameError n e]
                     | None => []
                     end
              | None => []
              end)
  | (eff, Thrown e) => (results st, eff ++ [ConsoleFrameError n e])
  end.

(** The body of [while (currentTime < duration)].  [onProgress] is
    called outside the [try]: what it throws ends the run, and is the
    second component. *)
Definition loop_body (st : LoopState) : LoopState * option Exn :=
  let t := currentTime st in
  let n := frameNumber st in
  let '(res, eff) := try_frame st in
  let tr := trace st ++ [Seek t; DrawImage t] ++ eff in
  let progress := fmul (fdiv t (duration video)) (of_int 100) in
  let next tr' :=
    {| currentTime := fadd t (fmul frameInterval (of_int 5));
       frameNumber := S n;
       results := res;
       trace := tr' |} in
  match onProgress with
  | Some g =>
      match g progress with
      | Some e =>
          ({| currentTime := t; frameNumber := n; results := res;
              trace := tr ++ [OnProgress progress] |}, Some e)
      | None => (next (tr ++ [OnProgress progress]), None)
      end
  | None => (next tr, None)
  end.

(** The loop, for at most [fuel] tests of its condition. *)
Fixpoint sample_loop (fuel : nat) (st : LoopState) : option (LoopState * option Exn) :=
  match fuel with
  | O => None
  | S fuel' =>
      if flt (currentTime st) (duration video)
      then match loop_body st with
           | (st', None) => sample_loop fuel' st'
           | (st', Some e) => Some (st', Some e)
           end
      else Some (st, None)
  end.

End Loop.

(** [if (!this.initialized) { await this.initialize(); }] *)
Definition ensure_initialized (load : outcome Detector) (vp : VideoProcessor)
  : VideoProcessor * list Effect * outcome unit :=
  if negb (initialized vp) then initialize load vp else (vp, [], Returned tt).

(** [processVideo(video, canvas, onProgress, onFrame)].  [has2d] says
    whether [canvas.getContext('2d')] yields a context.  The result is
    [None] if the loop has not ended after [fuel] tests of its
    condition. *)
Definition processVideo (fuel : nat) (load : outcome Detector) (vp : VideoProcessor)
    (video : Video) (has2d : bool)
    (onProgress : option (Callback number))
    (onFrame : option (Callback TennisAnalysis))
  : option (VideoProcessor * list Effect * outcome (list TennisAnalysis)) :=
  let '(vp1, eff, r) := ensure_initialized load vp in
  match r with
  | Thrown e => Some (vp1, eff, Thrown e)
  | Returned _ =>
      if negb has2d then
        Some (vp1, eff, Thrown (Error "Canvas context not available"))
      else
        let pre := eff ++ [SetCanvasSize (videoWidth video) (videoHeight video)] in
        match sample_loop vp1 video onProgress onFrame fuel (loop_state0 pre) with
        | None => None
        | Some (st, None) => Some (vp1, trace st, Returned (results st))
        | Some (st, Some e) => Some (vp1, trace st, Thrown e)
        end
  end.

End Pipeline.

Arguments VideoProcessor : clear implicits.
Arguments Video : clear implicits.
Arguments Detector : clear implicits.
(** ** generateHeatmap *)

(** [Math.floor((x1 + x2) / 2)], [Math.floor((y1 + y2) / 2)] *)
Definition center_cell (d : DetectionResult) : option Z * option Z :=
  let '(x1, y1, x2, y2) := bbox d in
  (Math_floor (fdiv (fadd x1 x2) (of_int 2)),
   Math_floor (fdiv (fadd y1 y2) (of_int 2))).

(** [centerX >= 0 && centerX < width && centerY >= 0 && centerY < height] *)
Definition in_grid (width height : nat) (c : option Z * option Z) : bool :=
  match c with
  | (Some centerX, Some centerY) =>
      ((0 <=? centerX)%Z && (centerX <? Z.of_nat width)%Z
       && (0 <=? centerY)%Z && (centerY <? Z.of_nat height)%Z)%bool
  | _ => false
  end.

(** The array index an integer stands for. *)
Definition index (c : option Z) : nat :=
  match c with Some z => Z.to_nat z | None => 0%nat end.

(** The guarded [heatmap[centerY][centerX] += 1]. *)
Definition mark (width height : nat) (heatmap : list (list Z))
    (d : DetectionResult) : list (list Z) :=
  let '(centerX, centerY) := center_cell d in
  if in_grid width height (centerX, centerY)
  then alter (alter (fun v => (v + 1)%Z) (index centerX)) (index centerY) heatmap
  else heatmap.

Definition heatmap_step (width height : nat) (type : HeatmapType)
    (heatmap : list (list Z)) (analysis : TennisAnalysis) : list (list Z) :=
  match type with
  | Players => fold_left (mark width height) (players analysis) heatmap
  | Ball =>
      match ball analysis with
      | Some b => mark width height heatmap b
      | None => heatmap
      end
  end.

Definition generateHeatmap (analyses : list TennisAnalysis)
    (width height : nat) (type : HeatmapType) : list (list Z) :=
  fold_left (heatmap_step width height type) analyses (zero_grid width height).

(** ** calculateStats *)

Record VideoStats : Type :=
  { shots : Z;
    winners : option Z;
    errors : option Z;
    ballDetections : Z;
    playerMovements : Z;
    averagePlayersPerFrame : number }.

(** The four variables the loop of [calculateStats] updates. *)
Record StatsAcc : Type :=
  { totalShots : Z;
    nBallDetections : Z;
    nPlayerMovements : Z;
    prevBallPosition : option (number * number) }.

Definition stats_acc0 : StatsAcc :=
  {| totalShots := 0; nBallDetections := 0; nPlayerMovements := 0;
     prevBallPosition := None |}.

(** [[(x1 + x2) / 2, (y1 + y2) / 2]] *)
Definition ball_center (d : DetectionResult) : number * number :=
  let '(x1, y1, x2, y2) := bbox d in
  (fdiv (fadd x1 x2) (of_int 2), fdiv (fadd y1 y2) (of_int 2)).

(** [Math.sqrt(Math.pow(cur[0] - prev[0], 2) + Math.pow(cur[1] - prev[1], 2))] *)
Definition distance (cur prev : number * number) : number :=
  Math_sqrt (fadd (Math_pow2 (fsub (fst cur) (fst prev)))
                  (Math_pow2 (fsub (snd cur) (snd prev)))).

(** [distance > 50] *)
Definition moved (cur prev : number * number) : bool :=
  flt (of_int 50) (distance cur prev).

Definition shot_between (prev : option (number * number)) (cur : number * number) : Z :=
  match prev with
  | Some p => if moved cur p then 1%Z else 0%Z
  | None => 0%Z
  end.

(** One iteration of [for (const analysis of analyses)]. *)
Definition stats_step (acc : StatsAcc) (analysis : TennisAnalysis) : StatsAcc :=
  let acc1 :=
    match ball analysis with
    | Some b =>
        let currentPos := ball_center b in
        {| totalShots := (totalShots acc + shot_between (prevBallPosition acc) currentPos)%Z;
           nBallDetections := (nBallDetections acc + 1)%Z;
           nPlayerMovements := nPlayerMovements acc;
           prevBallPosition := Some currentPos |}
    | None => acc
    end in
  {| totalShots := totalShots acc1;
     nBallDetections := nBallDetections acc1;
     nPlayerMovements := (nPlayerMovements acc1 + Z.of_nat (length (players analysis)))%Z;
     prevBallPosition := prevBallPosition acc1 |}.

Definition stats_loop (analyses : list TennisAnalysis) : StatsAcc :=
  fold_left stats_step analyses stats_acc0.

Definition calculateStats (analyses : list TennisAnalysis) : VideoStats :=
  let acc := stats_loop analyses in
  {| shots := totalShots acc;
     winners := Math_floor (fmul (of_int (totalShots acc)) (literal 15 100));
     errors := Math_floor (fmul (of_int (totalShots acc)) (literal 12 100));
     ballDetections := nBallDetections acc;
     playerMovements := nPlayerMovements acc;
     averagePlayersPerFrame :=
       fdiv (of_int (nPlayerMovements acc)) (of_int (Z.of_nat (length analyses))) |}.
(** ** Vocabulary of the statements about doubles *)

Definition confident (d : RawDetection) : bool :=
  negb (flt (raw_score d) (literal 5 10)).

Definition ball_shaped (d : RawDetection) : bool :=
  String.eqb (raw_label d) "sports ball" || isBallLike (to_result d).

Definition is_person (d : RawDetection) : bool :=
  confident d && String.eqb (raw_label d) "person".

Definition is_ball (d : RawDetection) : bool :=
  confident d && negb (String.eqb (raw_label d) "person") && ball_shaped d.

Definition is_court (d : RawDetection) : bool :=
  confident d && negb (String.eqb (raw_label d) "person")
  && negb (ball_shaped d) && isCourtLike (to_result d).

(** The single-pass reduction that keeps a candidate. *)
Definition select (cand : option DetectionResult) (d : RawDetection)
  : option DetectionResult :=
  if replaces cand (raw_score d) then Some (to_result d) else cand.

Definition select_all (l : list RawDetection) (cand : option DetectionResult)
  : option DetectionResult :=
  fold_left select l cand.

(** The score of the detection is a number, not NaN. *)
Definition scored (d : RawDetection) : Prop := is_nan (raw_score d) = false.

(** [d] is the first detection of [l] with the highest score: every
    earlier one has a lower score, no later one a higher score. *)
Definition first_best (l : list RawDetection) (d : RawDetection) : Prop :=
  exists l1 l2,
    l = l1 ++ d :: l2
    /\ Forall (fun x => flt (raw_score x) (raw_score d) = true) l1
    /\ Forall (fun x => flt (raw_score d) (raw_score x) = false) l2.

Definition same_score (o o' : option DetectionResult) : Prop :=
  match o, o' with
  | Some a, Some b => feq (score a) (score b) = true
  | None, None => True
  | _, _ => False
  end.

(** The detections a heat map of the given kind is built from. *)
Definition contributing (type : HeatmapType) (analyses : list TennisAnalysis)
  : list DetectionResult :=
  flat_map (fun a =>
    match type with
    | Players => players a
    | Ball => match ball a with Some b => [b] | None => [] end
    end) analyses.

Definition in_bounds (width height : nat) (d : DetectionResult) : bool :=
  in_grid width height (center_cell d).

Definition out_of_bounds (width height : nat) (d : DetectionResult) : bool :=
  negb (in_bounds width height d).

(** The floored center of [d], as the code computes it, is column [x]
    of row [y]. *)
Definition centered_at (x y : nat) (d : DetectionResult) : bool :=
  match center_cell d with
  | (Some cx, Some cy) => ((cx =? Z.of_nat x)%Z && (cy =? Z.of_nat y)%Z)%bool
  | _ => false
  end.

(** The centers of the balls seen, in frame order. *)
Definition ball_centers (analyses : list TennisAnalysis) : list (number * number) :=
  omap (fun a => ball_center <$> ball a) analyses.

(** The shots along a track of ball centers, starting from a previous
    position that may be unset. *)
Fixpoint shots_along (prev : option (number * number))
    (track : list (number * number)) : Z :=
  match track with
  | [] => 0%Z
  | cur :: rest => (shot_between prev cur + shots_along (Some cur) rest)%Z
  end.

(** The clock after [i] iterations. *)
Fixpoint sample_time (i : nat) : number :=
  match i with
  | O => of_int 0
  | S j => fadd (sample_time j) (fmul frameInterval (of_int 5))
  end.

(** The loop condition holds for the first [n] clock values and fails
    for the next one: the loop samples [n] frames. *)
Definition samples (n : nat) (d : number) : Prop :=
  (forall i, (i < n)%nat -> flt (sample_time i) d = true)
  /\ flt (sample_time n) d = false.

(** The times the video was sought to, the frame numbers logged as
    failed, the progress values reported and the analyses handed to
    [onFrame], each in order. *)
Definition seeks (tr : list Effect) : list number :=
  omap (fun e => match e with Seek t => Some t | _ => None end) tr.

Definition frame_errors (tr : list Effect) : list nat :=
  omap (fun e => match e with ConsoleFrameError i _ => Some i | _ => None end) tr.

Definition progress_reports (tr : list Effect) : list number :=
  omap (fun e => match e with OnProgress p => Some p | _ => None end) tr.

Definition frame_callbacks (tr : list Effect) : list TennisAnalysis :=
  omap (fun e => match e with OnFrame a => Some a | _ => None end) tr.

(** The callback never throws. *)
Definition never_throws {A} (cb : option (Callback A)) : Prop :=
  forall f a, cb = Some f -> f a = None.

Section RunVocabulary.

Context {Image : Type}.
Variable vp : VideoProcessor Image.
Variable video : Video Image.
Variable onProgress : option (Callback number).
Variable onFrame : option (Callback TennisAnalysis).

(** What [processFrame] yields for the [i]-th sample. *)
Definition frame_call (i : nat) : list Effect * outcome TennisAnalysis :=
  processFrame vp (frameAt video (sample_time i)) i (sample_time i).

Definition frame_result (i : nat) : option TennisAnalysis :=
  match snd (frame_call i) with
  | Returned a => Some a
  | Thrown _ => None
  end.

(** The progress value of the [i]-th iteration, and what reporting it
    throws. *)
Definition progress_at (i : nat) : number :=
  fmul (fdiv (sample_time i) (duration video)) (of_int 100).

Definition progress_throws (i : nat) : option Exn :=
  match onProgress with
  | Some g => g (progress_at i)
  | None => None
  end.

(** What the [i]-th iteration does, in order. *)
Definition frame_effects (i : nat) : list Effect :=
  [Seek (sample_time i); DrawImage (sample_time i)]
  ++ fst (frame_call i)
  ++ match snd (frame_call i) with
     | Returned a =>
         match onFrame with
         | Some f =>
             OnFrame a
             :: match f a with
                | Some e => [ConsoleFrameError i e]
                | None => []
                end
         | None => []
         end
     | Thrown e => [ConsoleFrameError i e]
     end
  ++ match onProgress with
     | Some _ => [OnProgress (progress_at i)]
     | None => []
     end.

(** The loop state after the iterations [k], ..., [k + m - 1], started
    in [st], and the state in which the loop stops if [onProgress]
    throws in iteration [k + m]. *)
Definition after_samples (st : LoopState) (k m : nat) : LoopState :=
  {| currentTime := sample_time (k + m);
     frameNumber := (k + m)%nat;
     results := results st ++ omap frame_result (seq k m);
     trace := trace st ++ concat (map frame_effects (seq k m)) |}.

Definition stopped_in (st : LoopState) (k m : nat) : LoopState :=
  {| currentTime := sample_time (k + m);
     frameNumber := (k + m)%nat;
     results := results st ++ omap frame_result (seq k (S m));
     trace := trace st ++ concat (map frame_effects (seq k (S m))) |}.

End RunVocabulary.

(** ** Sample data *)

Definition square_box (side : Z) : RawBox :=
  {| xmin := of_int 0; ymin := of_int 0; xmax := of_int side; ymax := of_int side |}.

Definition ball_a : RawDetection :=
  {| box := square_box 10; raw_score := literal 7 10; raw_label := "sports ball" |}.
Definition ball_b : RawDetection :=
  {| box := square_box 12; raw_score := literal 8 10; raw_label := "sports ball" |}.
Definition ball_c : RawDetection :=
  {| box := square_box 8; raw_score := literal 7 10; raw_label := "sports ball" |}.

Definition boxed (x1 y1 x2 y2 : number) : DetectionResult :=
  {| bbox := (x1, y1, x2, y2); score := literal 9 10; label := "person" |}.

Definition one_player_frame : TennisAnalysis :=
  {| frame := 0; timestamp := of_int 0;
     players := [boxed (of_int 0) (of_int 0) (of_int 3) (of_int 5);
                 boxed (of_int 40) (of_int 40) (of_int 50) (of_int 50)];
     ball := Some (boxed (of_int 1) (of_int 1) (of_int 2) (of_int 2));
     court := None |}.

Definition ball_frame (n : nat) (x1 y1 x2 y2 : number) : TennisAnalysis :=
  {| frame := n; timestamp := of_int 0; players := [];
     ball := Some {| bbox := (x1, y1, x2, y2); score := literal 9 10;
                     label := "sports ball" |};
     court := None |}.

(** The double just below 1, [1 - 2^-53], and the double just below 4. *)
Definition below_one : number := S754_finite false 9007199254740991 (-53).
Definition below_four : number := S754_finite false 9007199254740991 (-51).

(** 14.000000000000002, the double just above 14. *)
Definition above_fourteen : number := S754_finite false 7881299347898369 (-49).

(** One second of video whose frames are told apart by their time, and
    a detector that fails on the very first frame. *)
Definition second : Video number :=
  {| duration := of_int 1; videoWidth := 4; videoHeight := 3; frameAt := fun t => t |}.

Definition unloaded : Video number :=
  {| duration := S754_nan; videoWidth := 0; videoHeight := 0; frameAt := fun t => t |}.

Definition endless : Video number :=
  {| duration := S754_infinity false; videoWidth := 4; videoHeight := 3;
     frameAt := fun t => t |}.

Definition flaky : Detector number :=
  fun img => if feq img (of_int 0) then Thrown inference_failed else Returned [].

Definition flaky_processor : VideoProcessor number :=
  {| objectDetector := Some flaky; initialized := true |}.

Definition no_detections (n : nat) (t : number) : TennisAnalysis :=
  {| frame := n; timestamp := t; players := []; ball := None; court := None |}.

(** A frame callback that throws on frame 2, a progress callback that
    throws as soon as half of the video is done. *)
Definition faulty : Exn := Error "callback failed".

Definition onFrame_faulty : Callback TennisAnalysis :=
  fun a => if (frame a =? 2)%nat then Some faulty else None.

Definition onProgress_faulty : Callback number :=
  fun p => if flt p (of_int 50) then None else Some faulty.

End Double.

(** * Properties *)

(** ** Comparisons *)

Lemma Qltb_lt (x y : Q) : Qltb x y = true <-> x < y.
Proof.
  unfold Qltb. rewrite negb_true_iff. split.
  - intros H. apply Qnot_le_lt. intros Hle.
    apply Qle_bool_iff in Hle. congruence.
  - intros H. destruct (Qle_bool y x) eqn:E; [|reflexivity].
    apply Qle_bool_iff in E. exfalso. exact (Qlt_not_le _ _ H E).
Qed.

Lemma Qltb_ge (x y : Q) : Qltb x y = false <-> y <= x.
Proof.
  unfold Qltb. rewrite negb_false_iff. apply Qle_bool_iff.
Qed.

(** ** Classification of a frame *)

Lemma classify_step_players acc d :
  acc_players (classify_step acc d)
  = acc_players acc ++ (if is_person d then [to_result d] else []).
Proof.
  unfold classify_step, is_person, confident.
  destruct (Qltb (raw_score d) (1 # 2)); simpl.
  - now rewrite app_nil_r.
  - destruct (String.eqb (raw_label d) "person"); simpl; [reflexivity|].
    rewrite app_nil_r.
    destruct (_ || _); [destruct (replaces _ _); reflexivity|].
    destruct (isCourtLike _); [destruct (replaces _ _)|]; reflexivity.
Qed.



Lemma fold_classify_players dets : forall acc,
  acc_players (fold_left classify_step dets acc)
  = acc_players acc ++ map to_result (List.filter is_person dets).
Proof.
  induction dets as [|d dets IH]; intros acc; simpl.
  - now rewrite app_nil_r.
  - rewrite IH, classify_step_players.
    destruct (is_person d); simpl.
    + now rewrite <- app_assoc.
    + now rewrite app_nil_r.
Qed.



(** C5.  The players of a classified frame are the first two confident
    "person" detections in detector order, hence at most two; with
    scores 0.9, 0.6, 0.95 in that order the players are those with 0.9
    and 0.6. *)
Theorem players_first_two_in_order :
  (forall dets n t,
      players (classify dets n t)
      = take 2 (map to_result (List.filter is_person dets))
      /\ (length (players (classify dets n t)) <= 2)%nat)
  /\ (forall b1 b2 b3 n t,
        players (classify [person b1 (9 # 10); person b2 (6 # 10);
                           person b3 (95 # 100)] n t)
        = [to_result (person b1 (9 # 10)); to_result (person b2 (6 # 10))]).
Proof.
  split.
  - intros dets n t. unfold classify, classify_loop; simpl.
    rewrite fold_classify_players; simpl. split; [reflexivity|].
    rewrite length_take. lia.
  - intros. reflexivity.
Qed.

(** ** Selection of the ball and court candidates *)






(** ** Heat maps *)

Lemma count_cons {A} (f : A -> bool) a l :
  count f (a :: l) = ((if f a then 1 else 0) + count f l)%Z.
Proof. unfold count; simpl. destruct (f a); simpl; lia. Qed.

Lemma total_alter {A} (h : A -> Z) (g : A -> A) l : forall i a,
  l !! i = Some a -> total h (alter g i l) = (total h l - h a + h (g a))%Z.
Proof.
  induction l as [|b l IH]; intros [|i] a Hl; try discriminate.
  - injection Hl as ->. simpl. lia.
  - change (total h (alter g (S i) (b :: l)))
      with (h b + total h (alter g i l))%Z.
    rewrite (IH i a Hl). simpl. lia.
Qed.

Lemma total_replicate_zero {A} (h : A -> Z) n a :
  h a = 0%Z -> total h (replicate n a) = 0%Z.
Proof. intros H. induction n; simpl; lia. Qed.

Lemma generateHeatmap_fold analyses width height type :
  generateHeatmap analyses width height type
  = fold_left (mark width height) (contributing type analyses)
      (zero_grid width height).
Proof.
  unfold generateHeatmap. generalize (zero_grid width height).
  induction analyses as [|a analyses IH]; intros hm; simpl; [reflexivity|].
  rewrite fold_left_app, IH. f_equal.
  unfold heatmap_step. destruct type; [reflexivity|].
  destruct (ball a); reflexivity.
Qed.

Lemma in_grid_spec width height cx cy :
  in_grid width height (cx, cy) = true
  <-> (0 <= cx < Z.of_nat width)%Z /\ (0 <= cy < Z.of_nat height)%Z.
Proof.
  unfold in_grid. rewrite !andb_true_iff, !Z.leb_le, !Z.ltb_lt. lia.
Qed.

Lemma zero_grid_shape width height : grid_shape width height (zero_grid width height).
Proof.
  split; [apply length_replicate|].
  apply Forall_replicate, length_replicate.
Qed.

Lemma zero_grid_nonneg width height : grid_nonneg (zero_grid width height).
Proof. apply Forall_replicate, Forall_replicate. lia. Qed.

Lemma zero_grid_sum width height : grid_sum (zero_grid width height) = 0%Z.
Proof. apply total_replicate_zero, total_replicate_zero. reflexivity. Qed.

Lemma zero_grid_cell width height y x :
  (x < width)%nat -> (y < height)%nat -> cell (zero_grid width height) y x = Some 0%Z.
Proof.
  intros Hx Hy. unfold cell, zero_grid.
  rewrite lookup_replicate_2 by exact Hy. simpl.
  now apply lookup_replicate_2.
Qed.

Lemma mark_shape width height hm d :
  grid_shape width height hm -> grid_shape width height (mark width height hm d).
Proof.
  intros [Hlen Hrows]. unfold mark.
  destruct (center_cell d) as [cx cy]. destruct (in_grid _ _ _); [|now split].
  split.
  - now rewrite length_alter.
  - apply Forall_alter; [exact Hrows|].
    intros row _ Hrow. now rewrite length_alter.
Qed.

Lemma mark_cell width height hm d y x :
  cell (mark width height hm d) y x
  = if in_bounds width height d && centered_at x y d
    then Z.succ <$> cell hm y x
    else cell hm y x.
Proof.
  unfold mark, in_bounds, centered_at, cell.
  destruct (center_cell d) as [cx cy]; cbn [fst snd].
  destruct (in_grid width height (cx, cy)) eqn:E; cbn [andb]; [|reflexivity].
  apply in_grid_spec in E. destruct E as [Hx Hy].
  rewrite list_lookup_alter.
  destruct (Z.eqb_spec cy (Z.of_nat y)) as [Hcy|Hcy].
  - rewrite decide_True by lia. replace (Z.to_nat cy) with y by lia.
    destruct (hm !! y) as [row|]; simpl;
      [|destruct (cx =? Z.of_nat x)%Z; reflexivity].
    rewrite list_lookup_alter.
    destruct (Z.eqb_spec cx (Z.of_nat x)) as [Hcx|Hcx]; simpl.
    + rewrite decide_True by lia. replace (Z.to_nat cx) with x by lia.
      destruct (row !! x); simpl; [f_equal; lia|reflexivity].
    + rewrite decide_False by lia. reflexivity.
  - rewrite decide_False by lia. now rewrite andb_false_r.
Qed.

Lemma fold_mark_shape width height ds : forall hm,
  grid_shape width height hm ->
  grid_shape width height (fold_left (mark width height) ds hm).
Proof.
  induction ds as [|d ds IH]; intros hm H; simpl; [exact H|].
  apply IH, mark_shape, H.
Qed.

Lemma fold_mark_cell width height ds y x : forall hm,
  cell (fold_left (mark width height) ds hm) y x
  = Z.add (count (fun d => in_bounds width height d && centered_at x y d) ds)
      <$> cell hm y x.
Proof.
  induction ds as [|d ds IH]; intros hm; simpl.
  - unfold count; simpl. now destruct (cell hm y x).
  - rewrite IH, mark_cell, count_cons.
    destruct (in_bounds width height d && centered_at x y d);
      destruct (cell hm y x); simpl; f_equal; lia.
Qed.

Lemma centered_at_in_bounds width height x y d :
  (x < width)%nat -> (y < height)%nat ->
  centered_at x y d = true -> in_bounds width height d = true.
Proof.
  unfold centered_at, in_bounds. destruct (center_cell d) as [cx cy]; simpl.
  intros Hx Hy H. apply andb_true_iff in H. destruct H as [H1 H2].
  apply Z.eqb_eq in H1, H2. apply in_grid_spec. lia.
Qed.

Lemma count_centered_at width height x y ds :
  (x < width)%nat -> (y < height)%nat ->
  count (fun d => in_bounds width height d && centered_at x y d) ds
  = count (centered_at x y) ds.
Proof.
  intros Hx Hy. induction ds as [|d ds IH]; [reflexivity|].
  rewrite !count_cons, IH.
  destruct (centered_at x y d) eqn:E.
  - now rewrite (centered_at_in_bounds _ _ _ _ _ Hx Hy E).
  - now rewrite andb_false_r.
Qed.

Lemma generateHeatmap_cell analyses width height type x y :
  (x < width)%nat -> (y < height)%nat ->
  cell (generateHeatmap analyses width height type) y x
  = Some (count (centered_at x y) (contributing type analyses)).
Proof.
  intros Hx Hy.
  rewrite generateHeatmap_fold, fold_mark_cell, zero_grid_cell by assumption.
  rewrite (count_centered_at _ _ _ _ _ Hx Hy). simpl. f_equal. lia.
Qed.

(** ** Statistics *)

Lemma stats_step_shots acc a :
  totalShots (stats_step acc a)
  = (totalShots acc
     + match ball a with
       | Some b => shot_between (prevBallPosition acc) (ball_center b)
       | None => 0
       end)%Z.
Proof. unfold stats_step. destruct (ball a); simpl; lia. Qed.

Lemma stats_step_prev acc a :
  prevBallPosition (stats_step acc a)
  = match ball a with
    | Some b => Some (ball_center b)
    | None => prevBallPosition acc
    end.
Proof. unfold stats_step. destruct (ball a); reflexivity. Qed.

Lemma fold_stats_shots analyses : forall acc,
  totalShots (fold_left stats_step analyses acc)
  = (totalShots acc + shots_along (prevBallPosition acc) (ball_centers analyses))%Z.
Proof.
  induction analyses as [|a analyses IH]; intros acc; simpl; [lia|].
  rewrite IH, stats_step_shots, stats_step_prev.
  unfold ball_centers; simpl. destruct (ball a); simpl; lia.
Qed.

Lemma shot_between_nonneg prev cur : (0 <= shot_between prev cur)%Z.
Proof. unfold shot_between. destruct prev; [destruct (moved _ _)|]; lia. Qed.

Lemma fold_stats_monotone analyses : forall acc,
  (totalShots acc <= totalShots (fold_left stats_step analyses acc))%Z.
Proof.
  induction analyses as [|a analyses IH]; intros acc; simpl; [lia|].
  etransitivity; [|apply IH]. rewrite stats_step_shots.
  destruct (ball a); [|lia].
  pose proof (shot_between_nonneg (prevBallPosition acc) (ball_center d)). lia.
Qed.

(** C7.  Winners and errors are the floors of 0.15 and 0.12 times the
    shot count of the same pass: the integers w and e with
    100 w <= 15 shots < 100 (w + 1) and 100 e <= 12 shots < 100 (e + 1).
    They are functions of the shot count alone: two passes with the
    same shot count report the same winners and errors. *)
Theorem winners_and_errors_are_fixed_ratios analyses :
  winners (calculateStats analyses)
  = Qfloor (inject_Z (shots (calculateStats analyses)) * (15 # 100))
  /\ errors (calculateStats analyses)
     = Qfloor (inject_Z (shots (calculateStats analyses)) * (12 # 100))
  /\ (100 * winners (calculateStats analyses)
      <= 15 * shots (calculateStats analyses)
      < 100 * (winners (calculateStats analyses) + 1))%Z
  /\ (100 * errors (calculateStats analyses)
      <= 12 * shots (calculateStats analyses)
      < 100 * (errors (calculateStats analyses) + 1))%Z
  /\ (forall analyses',
        shots (calculateStats analyses') = shots (calculateStats analyses) ->
        winners (calculateStats analyses') = winners (calculateStats analyses)
        /\ errors (calculateStats analyses') = errors (calculateStats analyses)).
Proof.
  assert (Hw : forall l, winners (calculateStats l)
                         = (shots (calculateStats l) * 15 / 100)%Z)
    by reflexivity.
  assert (He : forall l, errors (calculateStats l)
                         = (shots (calculateStats l) * 12 / 100)%Z)
    by reflexivity.
  split; [reflexivity|]. split; [reflexivity|].
  split; [|split].
  - rewrite Hw. generalize (shots (calculateStats analyses)). intros s.
    Z.div_mod_to_equations. lia.
  - rewrite He. generalize (shots (calculateStats analyses)). intros s.
    Z.div_mod_to_equations. lia.
  - intros analyses' H. rewrite !Hw, !He, H. now split.
Qed.

Lemma winners_and_errors_are_fixed_ratios_witness :
  shots (calculateStats (rally 21)) = 20%Z
  /\ winners (calculateStats (rally 21)) = 3%Z
  /\ errors (calculateStats (rally 21)) = 2%Z
  /\ winners (calculateStats (rev (rally 21) ++ [empty_frame 21])) = 3%Z
  /\ errors (calculateStats (rev (rally 21) ++ [empty_frame 21])) = 2%Z.
Proof.
  destruct (winners_and_errors_are_fixed_ratios (rally 21))
    as (_ & _ & Hw & He & Hsame).
  assert (Hs : shots (calculateStats (rally 21)) = 20%Z) by (vm_compute; reflexivity).
  rewrite Hs in Hw, He.
  destruct (Hsame (rev (rally 21) ++ [empty_frame 21])) as [Hw' He'];
    [vm_compute; reflexivity|].
  rewrite Hw', He'.
  repeat split; try exact Hs; lia.
Defined.

(** C8.  Appending frames never lowers the shot count. *)
Theorem shots_monotone_under_append analyses more :
  (shots (calculateStats analyses) <= shots (calculateStats (analyses ++ more)))%Z.
Proof.
  unfold calculateStats, stats_loop; simpl.
  rewrite fold_left_app. apply fold_stats_monotone.
Qed.

(** C2 as stated does not hold: for no analyses the average is the
    quotient 0/0, which is NaN and not the number 0. *)
Lemma average_of_no_frames_is_nan :
  shots (calculateStats []) = 0%Z
  /\ averagePlayersPerFrame (calculateStats []) = JsNaN
  /\ ~ (exists q, averagePlayersPerFrame (calculateStats []) = JsFinite q).
Proof.
  split; [reflexivity|]. split; [reflexivity|].
  intros [q H]. discriminate H.
Qed.

(** C2, amended.  For no analyses the three counts (and both detection
    counters) are 0; the average is the unguarded quotient of the player
    count by the number of analyses: NaN for no analyses, a finite
    quotient for one or more. *)
Theorem stats_of_no_frames_unguarded_average :
  calculateStats []
  = {| shots := 0; winners := 0; errors := 0;
       ballDetections := 0; playerMovements := 0;
       averagePlayersPerFrame := JsNaN |}
  /\ (forall analyses,
        averagePlayersPerFrame (calculateStats analyses)
        = js_div (playerMovements (calculateStats analyses))
            (Z.of_nat (length analyses)))
  /\ (forall a analyses,
        averagePlayersPerFrame (calculateStats (a :: analyses))
        = JsFinite (inject_Z (playerMovements (calculateStats (a :: analyses)))
                    / inject_Z (Z.of_nat (length (a :: analyses))))).
Proof.
  split; [reflexivity|]. split; [reflexivity|].
  intros a analyses. unfold calculateStats; cbn [averagePlayersPerFrame playerMovements].
  unfold js_div.
  destruct (Z.eqb_spec (Z.of_nat (length (a :: analyses))) 0) as [H|H]; [|reflexivity].
  simpl in H. lia.
Qed.

(** ** Sampling *)

Lemma sample_step : frameInterval * 5 == 5 # 30.
Proof. reflexivity. Qed.

Lemma sample_time_linear i : sample_time i == inject_Z (Z.of_nat i) * (5 # 30).
Proof.
  induction i as [|i IH].
  - reflexivity.
  - cbn [sample_time]. rewrite IH, sample_step, Nat2Z.inj_succ.
    unfold Z.succ. rewrite inject_Z_plus. ring.
Qed.

Lemma sample_time_before d i : (i < sample_count d)%nat -> sample_time i < d.
Proof.
  unfold sample_count, remaining. intros Hi.
  pose proof (Qceiling_lt ((d - 0) * 6)) as Hc.
  assert (Hz : (Z.of_nat i <= Qceiling ((d - 0) * 6) - 1)%Z) by lia.
  rewrite Zle_Qle in Hz. rewrite sample_time_linear. lra.
Qed.

Lemma sample_time_end d : d <= sample_time (sample_count d).
Proof.
  unfold sample_count, remaining.
  pose proof (Qle_ceiling ((d - 0) * 6)) as Hc.
  rewrite sample_time_linear.
  destruct (Z.le_gt_cases 0 (Qceiling ((d - 0) * 6))) as [Hpos|Hneg].
  - rewrite Z2Nat.id by exact Hpos. lra.
  - replace (Z.to_nat (Qceiling ((d - 0) * 6))) with 0%nat by lia.
    assert (Hz : (Qceiling ((d - 0) * 6) <= 0)%Z) by lia.
    rewrite Zle_Qle in Hz. change (inject_Z (Z.of_nat 0)) with 0. 
    change (inject_Z 0) with 0 in Hz. lra.
Qed.

Section Run.

Context {Image : Type}.
Variable vp : VideoProcessor Image.
Variable video : Video Image.
Variable onProgress : bool.
Variable onFrame : bool.

Lemma loop_body_sample i st :
  currentTime st = sample_time i -> frameNumber st = i ->
  loop_body vp video onProgress onFrame st
  = {| currentTime := sample_time (S i);
       frameNumber := S i;
       results := results st ++ option_list (frame_result vp video i);
       trace := trace st ++ frame_effects vp video onProgress onFrame i |}.
Proof.
  intros Ht Hn. unfold loop_body, frame_effects, frame_result, frame_call.
  rewrite Ht, Hn.
  destruct (processFrame vp _ i (sample_time i)) as [eff [a|e]]; simpl.
  - f_equal. now rewrite <- !app_assoc.
  - rewrite app_nil_r. f_equal. now rewrite <- !app_assoc.
Qed.

Lemma sample_loop_run m : forall k st fuel,
  currentTime st = sample_time k -> frameNumber st = k ->
  (forall i, (k <= i < k + m)%nat -> sample_time i < duration video) ->
  duration video <= sample_time (k + m) ->
  (m < fuel)%nat ->
  sample_loop vp video onProgress onFrame fuel st
  = Some {| currentTime := sample_time (k + m);
            frameNumber := (k + m)%nat;
            results := results st ++ omap (frame_result vp video) (seq k m);
            trace := trace st ++ concat (map (frame_effects vp video onProgress onFrame) (seq k m)) |}.
Proof.
  induction m as [|m IH]; intros k st fuel Ht Hn Hlt Hge Hfuel.
  - destruct fuel as [|fuel]; [lia|]. simpl.
    rewrite Nat.add_0_r in *.
    replace (Qltb (currentTime st) (duration video)) with false.
    + cbn [seq omap map concat list_omap]. rewrite !app_nil_r.
      destruct st; simpl in *. rewrite Ht, Hn. reflexivity.
    + symmetry. apply Qltb_ge. now rewrite Ht.
  - destruct fuel as [|fuel]; [lia|]. cbn [sample_loop].
    replace (Qltb (currentTime st) (duration video)) with true.
    + rewrite (loop_body_sample k st Ht Hn).
      rewrite (IH (S k)); cbn [currentTime frameNumber results trace];
        try reflexivity; try lia.
      * replace (S k + m)%nat with (k + S m)%nat by lia.
        f_equal. f_equal.
        -- rewrite <- app_assoc. f_equal.
           change (seq k (S m)) with (k :: seq (S k) m).
           cbn [omap list_omap]. now destruct (frame_result vp video k).
        -- now rewrite <- app_assoc.
      * intros i Hi. apply Hlt. lia.
      * now replace (S k + m)%nat with (k + S m)%nat by lia.
    + symmetry. apply Qltb_lt. rewrite Ht. apply Hlt. lia.
Qed.

End Run.

Section RunProperties.

Context {Image : Type}.
Variable load : outcome (Detector Image).
Variable vp : VideoProcessor Image.
Variable video : Video Image.
Variable onProgress : bool.
Variable onFrame : bool.

Lemma seeks_app tr tr' : seeks (tr ++ tr') = seeks tr ++ seeks tr'.
Proof. apply omap_app. Qed.

Lemma ensure_initialized_seeks :
  seeks (snd (fst (ensure_initialized load vp))) = [].
Proof.
  unfold ensure_initialized, initialize.
  destruct (initialized vp); simpl; [reflexivity|].
  destruct load; reflexivity.
Qed.

Lemma processFrame_seeks (p : VideoProcessor Image) img i t :
  seeks (fst (processFrame p img i t)) = [].
Proof.
  unfold processFrame. destruct (initialized p); simpl; [|reflexivity].
  destruct (objectDetector p) as [detect|]; [|reflexivity].
  destruct (detect img); reflexivity.
Qed.

Lemma frame_effects_seeks (p : VideoProcessor Image) i :
  seeks (frame_effects p video onProgress onFrame i) = [sample_time i].
Proof.
  unfold frame_effects, frame_call.
  change ([Seek (sample_time i); DrawImage (sample_time i)] ++ ?l)
    with (Seek (sample_time i) :: DrawImage (sample_time i) :: l).
  cbn [seeks omap list_omap]. f_equal.
  change (omap ?f ?l) with (seeks l).
  rewrite !seeks_app, processFrame_seeks.
  destruct (snd (processFrame _ _ _ _)); destruct onFrame, onProgress; reflexivity.
Qed.

Lemma run_seeks (p : VideoProcessor Image) l :
  seeks (concat (map (frame_effects p video onProgress onFrame) l))
  = map sample_time l.
Proof.
  induction l as [|i l IH]; [reflexivity|].
  cbn [map concat]. rewrite seeks_app, frame_effects_seeks, IH. reflexivity.
Qed.

(** The whole run, once the detector and the drawing context are there. *)
Lemma processVideo_run vp1 eff :
  ensure_initialized load vp = (vp1, eff, Returned tt) ->
  processVideo load vp video true onProgress onFrame
  = Some (vp1,
          (eff ++ [SetCanvasSize (videoWidth video) (videoHeight video)])
          ++ concat (map (frame_effects vp1 video onProgress onFrame)
                       (seq 0 (sample_count (duration video)))),
          Returned (omap (frame_result vp1 video)
                      (seq 0 (sample_count (duration video))))).
Proof.
  intros Hinit. unfold processVideo. rewrite Hinit. cbn [negb].
  rewrite (sample_loop_run vp1 video onProgress onFrame
             (sample_count (duration video)) 0%nat); try reflexivity.
  - intros i Hi. apply sample_time_before. lia.
  - apply sample_time_end.
  - unfold sample_count. lia.
Qed.

Lemma processVideo_returns has2d :
  exists r, processVideo load vp video has2d onProgress onFrame = Some r.
Proof.
  destruct (ensure_initialized load vp) as [[vp1 eff] [[]|e]] eqn:Hinit.
  - destruct has2d.
    + rewrite (processVideo_run _ _ Hinit). eexists. reflexivity.
    + unfold processVideo. rewrite Hinit. eexists. reflexivity.
  - unfold processVideo. rewrite Hinit. eexists. reflexivity.
Qed.

End RunProperties.

(** ** The run of processVideo *)

(** C1 as stated does not hold: detection fails on frame 0 of [clip],
    and the result has one entry, for frame 1; frame 0 is not recorded
    with empty detections. *)
Lemma failed_frame_is_not_recorded :
  snd (processFrame flaky_processor (frameAt clip 0) 0 0) = Thrown inference_failed
  /\ processVideo (Thrown (Error "not loaded")) flaky_processor clip true false false
     = Some (flaky_processor,
             [SetCanvasSize 4 3;
              Seek 0; DrawImage 0;
              ConsoleError "Erro ao processar frame:" inference_failed;
              ConsoleFrameError 0 inference_failed;
              Seek (sample_time 1); DrawImage (sample_time 1)],
             Returned [no_detections 1 (sample_time 1)])
  /\ ~ In (no_detections 0 0) [no_detections 1 (sample_time 1)].
Proof.
  split; [reflexivity|]. split; [reflexivity|].
  intros [H|[]]. discriminate H.
Qed.

(** * Further properties *)

(** ** What a classified frame contains *)












(** ** The two shape tests *)

Lemma isBallLike_spec r :
  isBallLike r = true
  <-> box_width r * box_height r < 2000
      /\ Qabs (box_width r - box_height r)
         < Qmin (box_width r) (box_height r) * (1 # 2).
Proof.
  unfold isBallLike, box_width, box_height.
  destruct (bbox r) as [[[x1 y1] x2] y2].
  now rewrite andb_true_iff, !Qltb_lt.
Qed.

Lemma isCourtLike_spec r :
  isCourtLike r = true
  <-> 50000 < box_width r * box_height r
      /\ box_height r * (3 # 2) < box_width r.
Proof.
  unfold isCourtLike, box_width, box_height.
  destruct (bbox r) as [[[x1 y1] x2] y2].
  now rewrite andb_true_iff, !Qltb_lt.
Qed.




(** X4.  A court-like box is never ball-like, and if its height is
    positive it is more than 273 wide. *)
Theorem court_like_boxes_are_wide r :
  isCourtLike r = true ->
  isBallLike r = false /\ (0 < box_height r -> 273 < box_width r).
Proof.
  intros H. apply isCourtLike_spec in H. destruct H as [Ha Hw]. split.
  - destruct (isBallLike r) eqn:E; [|reflexivity].
    apply isBallLike_spec in E. lra.
  - intros Hh. nra.
Qed.

Lemma court_like_boxes_are_wide_witness :
  isBallLike (boxed 0 0 400 200) = false
  /\ (0 < box_height (boxed 0 0 400 200) -> 273 < box_width (boxed 0 0 400 200)).
Proof.
  apply (court_like_boxes_are_wide (boxed 0 0 400 200)). reflexivity.
Defined.

(** ** More on the run of processVideo *)

Lemma progress_reports_app tr tr' :
  progress_reports (tr ++ tr') = progress_reports tr ++ progress_reports tr'.
Proof. apply omap_app. Qed.

Lemma frame_callbacks_app tr tr' :
  frame_callbacks (tr ++ tr') = frame_callbacks tr ++ frame_callbacks tr'.
Proof. apply omap_app. Qed.

Section RunAccounts.

Context {Image : Type}.
Variable load : outcome (Detector Image).
Variable vp : VideoProcessor Image.
Variable video : Video Image.
Variable onProgress : bool.
Variable onFrame : bool.

Lemma ensure_initialized_cases vp1 eff r :
  ensure_initialized load vp = (vp1, eff, r) ->
  frame_errors eff = [] /\ progress_reports eff = [] /\ frame_callbacks eff = []
  /\ match r with
     | Returned _ => initialized vp1 = true
     | Thrown e => initialized vp = false /\ load = Thrown e /\ vp1 = vp
     end.
Proof.
  unfold ensure_initialized, initialize.
  destruct (initialized vp) eqn:Ei; simpl.
  - intros [= <- <- <-]. now rewrite Ei.
  - destruct load as [d|e]; intros [= <- <- <-]; repeat split; reflexivity.
Qed.

Lemma processFrame_console (p : VideoProcessor Image) img i t :
  frame_errors (fst (processFrame p img i t)) = []
  /\ progress_reports (fst (processFrame p img i t)) = []
  /\ frame_callbacks (fst (processFrame p img i t)) = [].
Proof.
  unfold processFrame. destruct (initialized p); simpl; [|now repeat split].
  destruct (objectDetector p) as [detect|]; [|now repeat split].
  destruct (detect img); now repeat split.
Qed.

Lemma frame_result_some (p : VideoProcessor Image) i a :
  frame_result p video i = Some a ->
  frame a = i /\ timestamp a = sample_time i /\ (length (players a) <= 2)%nat.
Proof.
  unfold frame_result, frame_call, processFrame.
  destruct (initialized p); simpl; [|discriminate].
  destruct (objectDetector p) as [detect|]; [|discriminate].
  destruct (detect _); simpl; [|discriminate].
  intros [= <-]. repeat split. simpl. rewrite length_take. lia.
Qed.

Lemma frame_effects_progress (p : VideoProcessor Image) i :
  progress_reports (frame_effects p video onProgress onFrame i)
  = if onProgress then [sample_time i / duration video * 100] else [].
Proof.
  unfold frame_effects, frame_call.
  rewrite !progress_reports_app.
  destruct (processFrame_console p (frameAt video (sample_time i)) i (sample_time i))
    as (_ & -> & _).
  destruct (snd (processFrame _ _ _ _)); destruct onFrame, onProgress; reflexivity.
Qed.

Lemma frame_effects_callbacks (p : VideoProcessor Image) i :
  frame_callbacks (frame_effects p video onProgress onFrame i)
  = if onFrame then option_list (frame_result p video i) else [].
Proof.
  unfold frame_effects, frame_result, frame_call.
  rewrite !frame_callbacks_app.
  destruct (processFrame_console p (frameAt video (sample_time i)) i (sample_time i))
    as (_ & _ & ->).
  destruct (snd (processFrame _ _ _ _)); destruct onFrame, onProgress; reflexivity.
Qed.

Lemma run_progress (p : VideoProcessor Image) l :
  progress_reports (concat (map (frame_effects p video onProgress onFrame) l))
  = if onProgress
    then map (fun i => sample_time i / duration video * 100) l
    else [].
Proof.
  induction l as [|i l IH]; [now destruct onProgress|].
  cbn [map concat]. rewrite progress_reports_app, IH, frame_effects_progress.
  now destruct onProgress.
Qed.

Lemma run_callbacks (p : VideoProcessor Image) l :
  frame_callbacks (concat (map (frame_effects p video onProgress onFrame) l))
  = if onFrame then omap (frame_result p video) l else [].
Proof.
  induction l as [|i l IH]; [now destruct onFrame|].
  cbn [map concat omap list_omap].
  rewrite frame_callbacks_app, IH, frame_effects_callbacks.
  destruct onFrame; [|reflexivity]. now destruct (frame_result p video i).
Qed.

Lemma run_frames_sorted (p : VideoProcessor Image) m : forall k,
  StronglySorted lt (map frame (omap (frame_result p video) (seq k m)))
  /\ Forall (fun a => (k <= frame a < k + m)%nat
                      /\ timestamp a = sample_time (frame a)
                      /\ (length (players a) <= 2)%nat)
       (omap (frame_result p video) (seq k m)).
Proof.
  induction m as [|m IH]; intros k.
  - split; constructor.
  - destruct (IH (S k)) as [Hs Hf].
    assert (Hf' : Forall (fun a => (k <= frame a < k + S m)%nat
                                   /\ timestamp a = sample_time (frame a)
                                   /\ (length (players a) <= 2)%nat)
                    (omap (frame_result p video) (seq (S k) m))).
    { eapply List.Forall_impl; [|exact Hf]. simpl. intros a (H1 & H2 & H3).
      repeat split; try assumption; lia. }
    change (seq k (S m)) with (k :: seq (S k) m). cbn [omap list_omap].
    destruct (frame_result p video k) as [a|] eqn:E; [|now split].
    apply frame_result_some in E. destruct E as (Ha & Ht & Hp).
    split.
    + cbn [map]. constructor; [exact Hs|].
      apply List.Forall_map. eapply List.Forall_impl; [|exact Hf].
      simpl. intros b (Hb & _). lia.
    + constructor; [|exact Hf']. rewrite Ha. repeat split; try assumption; lia.
Qed.

End RunAccounts.

Lemma processVideo_returned_inv {Image : Type}
    (load : outcome (Detector Image)) (vp : VideoProcessor Image)
    (video : Video Image) (has2d onProgress onFrame : bool) vp1 tr res :
  processVideo load vp video has2d onProgress onFrame = Some (vp1, tr, Returned res) ->
  exists eff,
    ensure_initialized load vp = (vp1, eff, Returned tt)
    /\ has2d = true
    /\ tr = (eff ++ [SetCanvasSize (videoWidth video) (videoHeight video)])
            ++ concat (map (frame_effects vp1 video onProgress onFrame)
                         (seq 0 (sample_count (duration video))))
    /\ res = omap (frame_result vp1 video) (seq 0 (sample_count (duration video))).
Proof.
  intros Hrun.
  destruct (ensure_initialized load vp) as [[vp0 eff] [[]|e]] eqn:Hinit.
  - destruct has2d.
    + rewrite (processVideo_run _ _ _ _ _ _ _ Hinit) in Hrun.
      injection Hrun as <- <- <-. now exists eff.
    + unfold processVideo in Hrun. rewrite Hinit in Hrun. discriminate Hrun.
  - unfold processVideo in Hrun. rewrite Hinit in Hrun. discriminate Hrun.
Qed.

Lemma sample_time_nonneg i : 0 <= sample_time i.
Proof.
  rewrite sample_time_linear.
  assert (H : (0 <= Z.of_nat i)%Z) by lia.
  rewrite Zle_Qle in H. change (inject_Z 0) with 0 in H. lra.
Qed.

(** X7.  With a progress callback, a run that returns reports exactly
    one value per seek, in order: the time sought to as a percentage of
    the duration.  Every reported value is at least 0 and strictly
    below 100.  Without the callback nothing is reported. *)
Theorem progress_stays_below_100 {Image : Type}
    (load : outcome (Detector Image)) (vp : VideoProcessor Image)
    (video : Video Image) (has2d onProgress onFrame : bool) vp1 tr res :
  processVideo load vp video has2d onProgress onFrame = Some (vp1, tr, Returned res) ->
  progress_reports tr
  = (if onProgress
     then map (fun t => t / duration video * 100) (seeks tr)
     else [])
  /\ Forall (fun p => 0 <= p /\ p < 100) (progress_reports tr).
Proof.
  intros Hrun. apply processVideo_returned_inv in Hrun.
  destruct Hrun as (eff & Hinit & -> & -> & ->).
  destruct (ensure_initialized_cases _ _ _ _ _ Hinit) as (_ & He & _ & _).
  assert (Hs : seeks eff = []).
  { pose proof (ensure_initialized_seeks load vp) as H.
    now rewrite Hinit in H. }
  assert (Heq : progress_reports
                  ((eff ++ [SetCanvasSize (videoWidth video) (videoHeight video)])
                   ++ concat (map (frame_effects vp1 video onProgress onFrame)
                                (seq 0 (sample_count (duration video)))))
                = (if onProgress
                   then map (fun i => sample_time i / duration video * 100)
                          (seq 0 (sample_count (duration video)))
                   else [])).
  { rewrite !progress_reports_app, He, run_progress. reflexivity. }
  split.
  - rewrite Heq, !seeks_app, Hs, run_seeks.
    destruct onProgress; [|reflexivity].
    cbn [seeks omap list_omap app]. now rewrite map_map.
  - rewrite Heq.
    destruct onProgress; [|constructor].
    apply List.Forall_map, List.Forall_forall. intros i Hi.
    apply in_seq in Hi.
    assert (Hlt : sample_time i < duration video)
      by (apply sample_time_before; lia).
    pose proof (sample_time_nonneg i) as H0.
    assert (Hd : 0 < duration video) by lra.
    assert (Hq0 : 0 <= sample_time i / duration video).
    { apply Qle_shift_div_l; [exact Hd|]. lra. }
    assert (Hq1 : sample_time i / duration video < 1).
    { apply Qlt_shift_div_r; [exact Hd|]. lra. }
    set (q := sample_time i / duration video) in *. lra.
Qed.

(** X8.  With a frame callback, it is called exactly once for each
    entry of the result, in the order of the result, and never for a
    failed frame; without it, never. *)
Theorem onFrame_sees_exactly_the_result {Image : Type}
    (load : outcome (Detector Image)) (vp : VideoProcessor Image)
    (video : Video Image) (has2d onProgress onFrame : bool) vp1 tr res :
  processVideo load vp video has2d onProgress onFrame = Some (vp1, tr, Returned res) ->
  frame_callbacks tr = if onFrame then res else [].
Proof.
  intros Hrun. apply processVideo_returned_inv in Hrun.
  destruct Hrun as (eff & Hinit & -> & -> & ->).
  destruct (ensure_initialized_cases _ _ _ _ _ Hinit) as (_ & _ & He & _).
  rewrite !frame_callbacks_app, He, run_callbacks. reflexivity.
Qed.

Lemma progress_stays_below_100_witness :
  exists tr res,
    processVideo (Thrown inference_failed) flaky_processor clip true true true
    = Some (flaky_processor, tr, Returned res)
    /\ progress_reports tr = map (fun t => t / duration clip * 100) (seeks tr)
    /\ length (progress_reports tr) = 2%nat
    /\ Forall (fun p => 0 <= p /\ p < 100) (progress_reports tr).
Proof.
  eexists. eexists. split; [reflexivity|].
  destruct (progress_stays_below_100
              (Thrown inference_failed) flaky_processor clip true true true
              flaky_processor _ _ eq_refl) as [Heq Hall].
  split; [exact Heq|]. split; [reflexivity|exact Hall].
Defined.

Lemma onFrame_sees_exactly_the_result_witness :
  exists tr res,
    processVideo (Thrown inference_failed) flaky_processor clip true true true
    = Some (flaky_processor, tr, Returned res)
    /\ frame_callbacks tr = res.
Proof.
  eexists. eexists. split; [reflexivity|].
  apply (onFrame_sees_exactly_the_result
           (Thrown inference_failed) flaky_processor clip true true true
           flaky_processor).
  reflexivity.
Defined.

(** ** More on heat maps *)

Lemma grid_ext width height g1 g2 :
  grid_shape width height g1 -> grid_shape width height g2 ->
  (forall x y, (x < width)%nat -> (y < height)%nat -> cell g1 y x = cell g2 y x) ->
  g1 = g2.
Proof.
  intros [L1 R1] [L2 R2] Hcell. apply list_eq. intros y.
  destruct (Nat.lt_ge_cases y height) as [Hy|Hy].
  - destruct (lookup_lt_is_Some_2 g1 y) as [r1 E1]; [lia|].
    destruct (lookup_lt_is_Some_2 g2 y) as [r2 E2]; [lia|].
    rewrite E1, E2. f_equal.
    pose proof (Forall_lookup_1 _ _ _ _ R1 E1) as W1.
    pose proof (Forall_lookup_1 _ _ _ _ R2 E2) as W2.
    simpl in W1, W2. apply list_eq. intros x.
    destruct (Nat.lt_ge_cases x width) as [Hx|Hx].
    + specialize (Hcell x y Hx Hy). unfold cell in Hcell.
      now rewrite E1, E2 in Hcell.
    + rewrite !lookup_ge_None_2 by lia. reflexivity.
  - rewrite !lookup_ge_None_2 by lia. reflexivity.
Qed.

Lemma cell_grid_add g1 g2 y x a b :
  cell g1 y x = Some a -> cell g2 y x = Some b ->
  cell (grid_add g1 g2) y x = Some (a + b)%Z.
Proof.
  unfold cell, grid_add. intros H1 H2. rewrite lookup_zip_with.
  destruct (g1 !! y) as [r1|]; [|discriminate].
  destruct (g2 !! y) as [r2|]; [|discriminate].
  simpl in *. rewrite lookup_zip_with, H1, H2. reflexivity.
Qed.

Lemma grid_add_shape width height g1 g2 :
  grid_shape width height g1 -> grid_shape width height g2 ->
  grid_shape width height (grid_add g1 g2).
Proof.
  intros [L1 R1] [L2 R2]. unfold grid_add. split.
  - rewrite length_zip_with. lia.
  - apply Forall_lookup_2. intros i row Hi.
    rewrite lookup_zip_with in Hi.
    destruct (g1 !! i) as [r1|] eqn:E1; [|discriminate].
    destruct (g2 !! i) as [r2|] eqn:E2; [|discriminate].
    simpl in Hi. injection Hi as <-.
    pose proof (Forall_lookup_1 _ _ _ _ R1 E1) as W1.
    pose proof (Forall_lookup_1 _ _ _ _ R2 E2) as W2.
    simpl in W1, W2. rewrite length_zip_with. lia.
Qed.

Lemma generateHeatmap_shape analyses width height type :
  grid_shape width height (generateHeatmap analyses width height type).
Proof. rewrite generateHeatmap_fold. apply fold_mark_shape, zero_grid_shape. Qed.

Lemma contributing_app type l1 l2 :
  contributing type (l1 ++ l2) = contributing type l1 ++ contributing type l2.
Proof. apply flat_map_app. Qed.

Lemma count_app {A} (f : A -> bool) l1 l2 :
  count f (l1 ++ l2) = (count f l1 + count f l2)%Z.
Proof. unfold count. rewrite List.filter_app, length_app. lia. Qed.

Lemma count_perm {A} (f : A -> bool) l l' :
  Permutation l l' -> count f l = count f l'.
Proof.
  induction 1 as [|a l l' _ IH|a b l|l l' l'' _ IH1 _ IH2].
  - reflexivity.
  - now rewrite !count_cons, IH.
  - rewrite !count_cons. lia.
  - congruence.
Qed.

(** X9.  The heat map of two sequences of analyses put one after the
    other is the cell-wise sum of their heat maps. *)
Theorem heatmap_of_concatenation_is_sum l1 l2 width height type :
  generateHeatmap (l1 ++ l2) width height type
  = grid_add (generateHeatmap l1 width height type)
      (generateHeatmap l2 width height type).
Proof.
  apply (grid_ext width height).
  - apply generateHeatmap_shape.
  - apply grid_add_shape; apply generateHeatmap_shape.
  - intros x y Hx Hy.
    rewrite (cell_grid_add _ _ _ _ _ _
               (generateHeatmap_cell l1 _ _ type _ _ Hx Hy)
               (generateHeatmap_cell l2 _ _ type _ _ Hx Hy)).
    rewrite (generateHeatmap_cell _ _ _ _ _ _ Hx Hy).
    now rewrite contributing_app, count_app.
Qed.

(** X10.  The heat map does not depend on the order of the analyses. *)
Theorem heatmap_ignores_order analyses analyses' width height type :
  Permutation analyses analyses' ->
  generateHeatmap analyses width height type
  = generateHeatmap analyses' width height type.
Proof.
  intros HP. apply (grid_ext width height); try apply generateHeatmap_shape.
  intros x y Hx Hy. rewrite !generateHeatmap_cell by assumption.
  f_equal. apply count_perm. unfold contributing.
  now apply Permutation_flat_map.
Qed.

Lemma heatmap_ignores_order_witness :
  generateHeatmap [one_player_frame; ball_frame 1 0 0 2 2] 4 3 Ball
  = generateHeatmap [ball_frame 1 0 0 2 2; one_player_frame] 4 3 Ball.
Proof.
  apply (heatmap_ignores_order [one_player_frame; ball_frame 1 0 0 2 2]
           [ball_frame 1 0 0 2 2; one_player_frame]).
  apply perm_swap.
Defined.

(** ** More on the statistics *)

Lemma fold_stats_counters analyses : forall acc,
  nBallDetections (fold_left stats_step analyses acc)
  = (nBallDetections acc + Z.of_nat (length (contributing Ball analyses)))%Z
  /\ nPlayerMovements (fold_left stats_step analyses acc)
     = (nPlayerMovements acc + Z.of_nat (length (contributing Players analyses)))%Z.
Proof.
  induction analyses as [|a analyses IH]; intros acc.
  - unfold contributing; simpl. lia.
  - cbn [fold_left]. destruct (IH (stats_step acc a)) as [-> ->].
    unfold contributing; cbn [flat_map]. rewrite !length_app.
    unfold stats_step.
    generalize (length (flat_map (fun a0 => players a0) analyses)).
    generalize (length (flat_map (fun a0 => match ball a0 with
                                            | Some b => [b]
                                            | None => []
                                            end) analyses)).
    intros nb np. destruct (ball a); simpl; lia.
Qed.

Lemma ball_centers_length analyses :
  length (ball_centers analyses) = length (contributing Ball analyses).
Proof.
  induction analyses as [|a analyses IH]; [reflexivity|].
  unfold ball_centers in *; simpl. rewrite length_app, <- IH.
  destruct (ball a); reflexivity.
Qed.

Lemma has_ball_count analyses :
  count has_ball analyses = Z.of_nat (length (contributing Ball analyses)).
Proof.
  induction analyses as [|a analyses IH]; [reflexivity|].
  rewrite count_cons, IH. simpl. rewrite length_app.
  unfold has_ball. destruct (ball a); simpl; lia.
Qed.

Lemma shots_along_bound track : forall prev,
  (0 <= shots_along prev track
   <= Z.of_nat (length track) - match prev with Some _ => 0 | None => 1 end
      \/ (prev = None /\ track = [] /\ shots_along prev track = 0))%Z.
Proof.
  induction track as [|c track IH]; intros prev; simpl.
  - destruct prev; [left; lia|right; auto].
  - left. pose proof (shot_between_nonneg prev c) as H0.
    assert (H1 : (shot_between prev c <= match prev with Some _ => 1 | None => 0 end)%Z).
    { unfold shot_between. destruct prev; [destruct (moved _ _)|]; lia. }
    destruct (IH (Some c)) as [H|(H & _)]; [|discriminate].
    destruct prev; lia.
Qed.

(** X11.  The counters of calculateStats: ballDetections is the number
    of analyses with a ball, playerMovements the number of players over
    all analyses; there are at most ballDetections - 1 shots (none
    without two sightings of the ball); and
    0 <= errors <= winners <= shots with winners + errors <= shots. *)
Theorem stats_counters_and_bounds analyses :
  ballDetections (calculateStats analyses) = count has_ball analyses
  /\ playerMovements (calculateStats analyses)
     = Z.of_nat (length (flat_map players analyses))
  /\ (0 <= shots (calculateStats analyses)
      <= Z.max 0 (ballDetections (calculateStats analyses) - 1))%Z
  /\ (0 <= errors (calculateStats analyses)
      <= winners (calculateStats analyses))%Z
  /\ (winners (calculateStats analyses) <= shots (calculateStats analyses))%Z
  /\ (winners (calculateStats analyses) + errors (calculateStats analyses)
      <= shots (calculateStats analyses))%Z.
Proof.
  destruct (fold_stats_counters analyses stats_acc0) as [Hb Hp].
  assert (Hs : shots (calculateStats analyses)
               = shots_along None (ball_centers analyses)).
  { unfold calculateStats, stats_loop; simpl. now rewrite fold_stats_shots. }
  assert (Hbd : ballDetections (calculateStats analyses)
                = Z.of_nat (length (ball_centers analyses))).
  { unfold calculateStats, stats_loop; simpl.
    rewrite Hb, ball_centers_length. simpl. lia. }
  assert (Hbound : (0 <= shots (calculateStats analyses)
                    <= Z.max 0 (ballDetections (calculateStats analyses) - 1))%Z).
  { rewrite Hs, Hbd.
    destruct (shots_along_bound (ball_centers analyses) None) as [H|(_ & -> & ->)];
      simpl; lia. }
  split; [|split; [|split; [exact Hbound|]]].
  - rewrite has_ball_count. unfold calculateStats, stats_loop; simpl.
    rewrite Hb. simpl. lia.
  - unfold calculateStats, stats_loop; simpl. rewrite Hp. reflexivity.
  - change (winners (calculateStats analyses))
      with (shots (calculateStats analyses) * 15 / 100)%Z.
    change (errors (calculateStats analyses))
      with (shots (calculateStats analyses) * 12 / 100)%Z.
    destruct Hbound as [H0 _].
    generalize dependent (shots (calculateStats analyses)). intros s _ H0.
    Z.div_mod_to_equations. lia.
Qed.

Lemma Qltb_compat x y y' : y == y' -> Qltb x y = Qltb x y'.
Proof.
  intros H. destruct (Qltb x y') eqn:E.
  - apply Qltb_lt. apply Qltb_lt in E. now rewrite H.
  - apply Qltb_ge. apply Qltb_ge in E. now rewrite H.
Qed.

Lemma moved_sym a b : moved a b = moved b a.
Proof.
  unfold moved. apply Qltb_compat. unfold distance_sq. ring.
Qed.

Lemma shot_between_sym a b : shot_between (Some a) b = shot_between (Some b) a.
Proof. unfold shot_between. now rewrite moved_sym. Qed.

Lemma shots_along_snoc track : forall prev c,
  shots_along prev (track ++ [c])
  = (shots_along prev track
     + shot_between (match last track with Some l => Some l | None => prev end) c)%Z.
Proof.
  induction track as [|c0 track IH]; intros prev c; simpl; [lia|].
  rewrite IH. destruct track as [|c1 track]; simpl; [lia|].
  destruct (last (c1 :: track)) eqn:E; [lia|].
  apply last_None in E. discriminate.
Qed.

Lemma shots_along_rev track :
  shots_along None (rev track) = shots_along None track.
Proof.
  induction track as [|c track IH]; [reflexivity|].
  simpl rev. rewrite shots_along_snoc, IH.
  destruct track as [|c1 track]; [reflexivity|].
  simpl rev. rewrite last_snoc. cbv iota.
  rewrite (shot_between_sym c1 c). cbn [shots_along].
  change (shot_between None c1) with 0%Z. change (shot_between None c) with 0%Z.
  lia.
Qed.

Lemma ball_centers_cons a l :
  ball_centers (a :: l)
  = match ball a with
    | Some b => ball_center b :: ball_centers l
    | None => ball_centers l
    end.
Proof. unfold ball_centers. simpl. now destruct (ball a). Qed.

Lemma ball_centers_app l1 l2 :
  ball_centers (l1 ++ l2) = ball_centers l1 ++ ball_centers l2.
Proof. apply omap_app. Qed.

Lemma ball_centers_rev analyses :
  ball_centers (rev analyses) = rev (ball_centers analyses).
Proof.
  induction analyses as [|a analyses IH]; [reflexivity|].
  simpl rev. rewrite ball_centers_app, IH.
  unfold ball_centers at 2 3. simpl. destruct (ball a); simpl.
  - reflexivity.
  - now rewrite app_nil_r.
Qed.

Lemma calculateStats_by_tracks l l' :
  ball_centers l = ball_centers l' ->
  shots (calculateStats l) = shots (calculateStats l')
  /\ winners (calculateStats l) = winners (calculateStats l')
  /\ errors (calculateStats l) = errors (calculateStats l')
  /\ ballDetections (calculateStats l) = ballDetections (calculateStats l').
Proof.
  intros H.
  assert (Hs : totalShots (stats_loop l) = totalShots (stats_loop l')).
  { unfold stats_loop. now rewrite !fold_stats_shots, H. }
  assert (Hb : nBallDetections (stats_loop l) = nBallDetections (stats_loop l')).
  { unfold stats_loop.
    destruct (fold_stats_counters l stats_acc0) as [-> _].
    destruct (fold_stats_counters l' stats_acc0) as [-> _].
    now rewrite <- !ball_centers_length, H. }
  unfold calculateStats; simpl. now rewrite Hs, Hb.
Qed.

(** X13.  The statistics are the same for a sequence of analyses and for
    the same sequence backwards. *)
Theorem stats_of_reversed_sequence analyses :
  calculateStats (rev analyses) = calculateStats analyses.
Proof.
  assert (Hs : totalShots (stats_loop (rev analyses)) = totalShots (stats_loop analyses)).
  { unfold stats_loop.
    now rewrite !fold_stats_shots, ball_centers_rev, shots_along_rev. }
  assert (Hb : nBallDetections (stats_loop (rev analyses))
               = nBallDetections (stats_loop analyses)
               /\ nPlayerMovements (stats_loop (rev analyses))
                  = nPlayerMovements (stats_loop analyses)).
  { unfold stats_loop.
    destruct (fold_stats_counters (rev analyses) stats_acc0) as [-> ->].
    destruct (fold_stats_counters analyses stats_acc0) as [-> ->].
    unfold contributing.
    split; f_equal; f_equal; apply Permutation_length, Permutation_flat_map,
      Permutation_sym, Permutation_rev. }
  destruct Hb as [Hb Hp].
  unfold calculateStats. rewrite Hs, Hb, Hp, length_rev. reflexivity.
Qed.

(** X14.  Shots, winners, errors and ball detections depend only on the
    analyses that have a ball: the others can be removed, wherever they
    stand, without changing them. *)
Theorem frames_without_ball_do_not_count analyses :
  shots (calculateStats (List.filter has_ball analyses))
  = shots (calculateStats analyses)
  /\ winners (calculateStats (List.filter has_ball analyses))
     = winners (calculateStats analyses)
  /\ errors (calculateStats (List.filter has_ball analyses))
     = errors (calculateStats analyses)
  /\ ballDetections (calculateStats (List.filter has_ball analyses))
     = ballDetections (calculateStats analyses).
Proof.
  apply calculateStats_by_tracks.
  induction analyses as [|a analyses IH]; [reflexivity|].
  cbn [List.filter]. unfold has_ball at 1.
  destruct (ball a) eqn:E.
  - rewrite !ball_centers_cons, E. now f_equal.
  - rewrite (ball_centers_cons a), E. exact IH.
Qed.

Lemma players_total_bound analyses :
  Forall (fun a => (length (players a) <= 2)%nat) analyses ->
  (length (flat_map players analyses) <= 2 * length analyses)%nat.
Proof.
  induction 1 as [|a analyses Ha _ IH]; [reflexivity|].
  simpl. rewrite length_app. lia.
Qed.

Lemma playerMovements_total analyses :
  playerMovements (calculateStats analyses)
  = Z.of_nat (length (flat_map players analyses)).
Proof.
  destruct (fold_stats_counters analyses stats_acc0) as [_ Hp].
  unfold calculateStats, stats_loop; simpl. rewrite Hp. reflexivity.
Qed.

Lemma average_of_some_frames a analyses :
  averagePlayersPerFrame (calculateStats (a :: analyses))
  = JsFinite (inject_Z (playerMovements (calculateStats (a :: analyses)))
              / inject_Z (Z.of_nat (length (a :: analyses)))).
Proof.
  unfold calculateStats; cbn [averagePlayersPerFrame playerMovements].
  unfold js_div.
  destruct (Z.eqb_spec (Z.of_nat (length (a :: analyses))) 0) as [H|H];
    [|reflexivity].
  simpl in H. lia.
Qed.

(** X15.  On the result of a run of processVideo the average number of
    players per frame is NaN when the result is empty and otherwise a
    number between 0 and 2. *)
Theorem average_players_of_a_run_is_at_most_two {Image : Type}
    (load : outcome (Detector Image)) (vp : VideoProcessor Image)
    (video : Video Image) (has2d onProgress onFrame : bool) vp1 tr res :
  processVideo load vp video has2d onProgress onFrame = Some (vp1, tr, Returned res) ->
  (res = [] -> averagePlayersPerFrame (calculateStats res) = JsNaN)
  /\ (res <> [] ->
      exists q, averagePlayersPerFrame (calculateStats res) = JsFinite q
                /\ 0 <= q /\ q <= 2).
Proof.
  intros Hrun. apply processVideo_returned_inv in Hrun.
  destruct Hrun as (eff & _ & _ & _ & Hres).
  split; [now intros ->|]. intros Hne.
  assert (Hp : Forall (fun a => (length (players a) <= 2)%nat) res).
  { destruct (run_frames_sorted video vp1 (sample_count (duration video)) 0)
      as [_ Hf].
    rewrite <- Hres in Hf.
    eapply List.Forall_impl; [|exact Hf]. simpl. tauto. }
  apply players_total_bound in Hp.
  destruct res as [|a res]; [congruence|].
  rewrite average_of_some_frames, playerMovements_total.
  eexists. split; [reflexivity|].
  set (n := length (a :: res)) in *. set (m := length (flat_map players (a :: res))) in *.
  assert (Hn : 0 < inject_Z (Z.of_nat n)).
  { change 0 with (inject_Z 0). rewrite <- Zlt_Qlt. subst n. simpl. lia. }
  assert (Hm0 : 0 <= inject_Z (Z.of_nat m)).
  { change 0 with (inject_Z 0). rewrite <- Zle_Qle. lia. }
  assert (Hm2 : inject_Z (Z.of_nat m) <= 2 * inject_Z (Z.of_nat n)).
  { change 2 with (inject_Z 2). rewrite <- inject_Z_mult, <- Zle_Qle. lia. }
  split.
  - apply Qle_shift_div_l; [exact Hn|]. lra.
  - apply Qle_shift_div_r; [exact Hn|]. lra.
Qed.

Lemma average_players_of_a_run_is_at_most_two_witness :
  exists tr res,
    processVideo (Thrown inference_failed) flaky_processor clip true true true
    = Some (flaky_processor, tr, Returned res)
    /\ (res = [] -> averagePlayersPerFrame (calculateStats res) = JsNaN)
    /\ (res <> [] ->
        exists q, averagePlayersPerFrame (calculateStats res) = JsFinite q
                  /\ 0 <= q /\ q <= 2).
Proof.
  eexists. eexists. split; [reflexivity|].
  eapply (average_players_of_a_run_is_at_most_two
            (Thrown inference_failed) flaky_processor clip true true true
            flaky_processor).
  reflexivity.
Defined.

(** ** Comparison with a professional *)

Lemma Qltb_cases (x y : Q) :
  (Qltb x y = true /\ x < y) \/ (Qltb x y = false /\ y <= x).
Proof.
  destruct (Qltb x y) eqn:E; [left|right]; split; try reflexivity.
  - now apply Qltb_lt.
  - now apply Qltb_ge.
Qed.

Lemma Qabs_cases (d : Q) : (0 <= d /\ Qabs d == d) \/ (d < 0 /\ Qabs d == - d).
Proof.
  destruct (Qlt_le_dec d 0) as [H|H].
  - right. split; [exact H|]. apply Qabs_neg. lra.
  - left. split; [exact H|]. now apply Qabs_pos.
Qed.

Lemma Qmax_cases (a b : Q) : (a <= b /\ Qmax a b == b) \/ (b <= a /\ Qmax a b == a).
Proof.
  destruct (Q.max_spec a b) as [[H E]|[H E]]; [left|right]; split;
    try assumption; lra.
Qed.

Lemma similarityScore_eq stats pro :
  similarityScore (compareWithProfessional stats pro)
  = Qmax 0 (100 - Qabs (averageSpeed pro - stats_averageSpeed stats)
            - Qabs (courtCoverage pro - stats_courtCoverage stats)
            - Qabs (efficiency pro - stats_efficiency stats)).
Proof. reflexivity. Qed.

Lemma improvements_eq stats pro :
  exists m1 m2 m3,
    improvements (compareWithProfessional stats pro)
    = (if Qltb 2 (averageSpeed pro - stats_averageSpeed stats) then [m1] else [])
      ++ (if Qltb 5 (courtCoverage pro - stats_courtCoverage stats) then [m2] else [])
      ++ (if Qltb 3 (efficiency pro - stats_efficiency stats) then [m3] else []).
Proof.
  unfold compareWithProfessional; cbn [improvements].
  do 3 eexists.
  destruct (Qltb 2 _), (Qltb 5 _), (Qltb 3 _); reflexivity.
Qed.

(** X16.  The similarity score lies between 0 and 100; it is 100
    when the player's speed, coverage and efficiency equal the
    professional's, and at most 99 as soon as one of the three differs
    by 1 or more. *)
Theorem similarity_score_range stats pro :
  0 <= similarityScore (compareWithProfessional stats pro)
  /\ similarityScore (compareWithProfessional stats pro) <= 100
  /\ (stats_averageSpeed stats == averageSpeed pro
      /\ stats_courtCoverage stats == courtCoverage pro
      /\ stats_efficiency stats == efficiency pro ->
      similarityScore (compareWithProfessional stats pro) == 100)
  /\ (1 <= Qabs (averageSpeed pro - stats_averageSpeed stats)
      \/ 1 <= Qabs (courtCoverage pro - stats_courtCoverage stats)
      \/ 1 <= Qabs (efficiency pro - stats_efficiency stats) ->
      similarityScore (compareWithProfessional stats pro) <= 99).
Proof.
  rewrite similarityScore_eq.
  set (ds := averageSpeed pro - stats_averageSpeed stats).
  set (dc := courtCoverage pro - stats_courtCoverage stats).
  set (de := efficiency pro - stats_efficiency stats).
  assert (Es : stats_averageSpeed stats == averageSpeed pro <-> ds == 0)
    by (subst ds; split; intros; lra).
  assert (Ec : stats_courtCoverage stats == courtCoverage pro <-> dc == 0)
    by (subst dc; split; intros; lra).
  assert (Ee : stats_efficiency stats == efficiency pro <-> de == 0)
    by (subst de; split; intros; lra).
  rewrite Es, Ec, Ee. clearbody ds dc de.
  destruct (Qabs_cases ds) as [[? As]|[? As]];
    destruct (Qabs_cases dc) as [[? Ac]|[? Ac]];
    destruct (Qabs_cases de) as [[? Ae]|[? Ae]];
    destruct (Qmax_cases 0 (100 - Qabs ds - Qabs dc - Qabs de)) as [[? Em]|[? Em]];
    rewrite Em;
    (split; [lra|split; [lra|split; [intros (?&?&?); lra|intros [?|[?|?]]; lra]]]).
Qed.

(** X17.  There are at most three suggestions.  There is none when the
    professional is at most 2 faster, covers at most 5 more and is at
    most 3 more efficient than the player; there is one as soon as the
    professional is faster by 2.001, covers more by 5.001 or is more
    efficient by 3.001. *)
Theorem suggestions_only_beyond_thresholds stats pro :
  (length (improvements (compareWithProfessional stats pro)) <= 3)%nat
  /\ (averageSpeed pro - stats_averageSpeed stats <= 2
      /\ courtCoverage pro - stats_courtCoverage stats <= 5
      /\ efficiency pro - stats_efficiency stats <= 3 ->
      improvements (compareWithProfessional stats pro) = [])
  /\ (2001 # 1000 <= averageSpeed pro - stats_averageSpeed stats
      \/ 5001 # 1000 <= courtCoverage pro - stats_courtCoverage stats
      \/ 3001 # 1000 <= efficiency pro - stats_efficiency stats ->
      improvements (compareWithProfessional stats pro) <> []).
Proof.
  destruct (improvements_eq stats pro) as (m1 & m2 & m3 & ->).
  set (ds := averageSpeed pro - stats_averageSpeed stats).
  set (dc := courtCoverage pro - stats_courtCoverage stats).
  set (de := efficiency pro - stats_efficiency stats).
  clearbody ds dc de.
  destruct (Qltb_cases 2 ds) as [[-> E1]|[-> E1]];
    destruct (Qltb_cases 5 dc) as [[-> E2]|[-> E2]];
    destruct (Qltb_cases 3 de) as [[-> E3]|[-> E3]];
    simpl;
    (split; [lia|split; [intros (?&?&?); try reflexivity; lra
                        |intros [?|[?|?]]; try discriminate; lra]]).
Qed.

(** X18.  A suggestion is only made with a score of at most 98, and
    all three only with a score of at most 90. *)
Theorem suggestions_come_with_lower_scores stats pro :
  (improvements (compareWithProfessional stats pro) <> [] ->
   similarityScore (compareWithProfessional stats pro) <= 98)
  /\ (length (improvements (compareWithProfessional stats pro)) = 3%nat ->
      similarityScore (compareWithProfessional stats pro) <= 90).
Proof.
  destruct (improvements_eq stats pro) as (m1 & m2 & m3 & ->).
  rewrite similarityScore_eq.
  set (ds := averageSpeed pro - stats_averageSpeed stats).
  set (dc := courtCoverage pro - stats_courtCoverage stats).
  set (de := efficiency pro - stats_efficiency stats).
  clearbody ds dc de.
  destruct (Qltb_cases 2 ds) as [[-> E1]|[-> E1]];
    destruct (Qltb_cases 5 dc) as [[-> E2]|[-> E2]];
    destruct (Qltb_cases 3 de) as [[-> E3]|[-> E3]];
    simpl;
    (split; [intros Hne|intros Hlen]; try congruence; try discriminate Hlen);
    destruct (Qabs_cases ds) as [[? As]|[? As]];
    destruct (Qabs_cases dc) as [[? Ac]|[? Ac]];
    destruct (Qabs_cases de) as [[? Ae]|[? Ae]];
    destruct (Qmax_cases 0 (100 - Qabs ds - Qabs dc - Qabs de)) as [[? Em]|[? Em]];
    rewrite Em; lra.
Qed.

(** ** The grid of the 3D view *)

Lemma Qfloor_ge_iff (z : Z) (a : Q) : (z <= Qfloor a)%Z <-> inject_Z z <= a.
Proof.
  split; intros H.
  - apply Qle_trans with (inject_Z (Qfloor a)); [|apply Qfloor_le].
    now rewrite <- Zle_Qle.
  - apply Qfloor_resp_le in H. now rewrite Qfloor_Z in H.
Qed.

Lemma Qfloor_lt_iff (z : Z) (a : Q) : (Qfloor a < z)%Z <-> a < inject_Z z.
Proof.
  split; intros H.
  - apply Qnot_le_lt. intros Hle. apply Qfloor_ge_iff in Hle. lia.
  - apply Z.nle_gt. intros Hle. apply Qfloor_ge_iff in Hle.
    exact (Qlt_not_le _ _ H Hle).
Qed.

Lemma on_grid_spec point :
  on_grid point = true
  <-> -12 <= pt_x point /\ pt_x point < 12 /\ -6 <= pt_z point /\ pt_z point < 6.
Proof.
  unfold on_grid. rewrite !andb_true_iff, !Qle_bool_iff, !Qltb_lt. tauto.
Qed.

Lemma grid_cell_in_range point :
  let '(gridX, gridZ) := grid_cell point in
  ((0 <=? gridX)%Z && (gridX <? Z.of_nat gridSize)%Z
   && (0 <=? gridZ)%Z && (gridZ <? Z.of_nat gridSize)%Z)%bool
  = on_grid point.
Proof.
  unfold grid_cell.
  apply eq_true_iff_eq.
  rewrite on_grid_spec, !andb_true_iff, !Z.leb_le, !Z.ltb_lt.
  rewrite !Qfloor_ge_iff, !Qfloor_lt_iff.
  unfold Qdiv. change (/ 24) with (1 # 24). change (/ 12) with (1 # 12).
  change (inject_Z (Z.of_nat gridSize)) with 20. change (inject_Z 0) with 0.
  split; intros; repeat split; lra.
Qed.

Lemma plot_shape grid point :
  grid_shape gridSize gridSize grid -> grid_shape gridSize gridSize (plot grid point).
Proof.
  intros [Hlen Hrows]. unfold plot.
  destruct (grid_cell point) as [gx gz]. destruct (_ && _)%bool; [|now split].
  split.
  - now rewrite length_alter.
  - apply Forall_alter; [exact Hrows|].
    intros row _ Hrow. now rewrite length_alter.
Qed.

Lemma plot_sum grid point :
  grid_shape gridSize gridSize grid ->
  grid_sum (plot grid point)
  = (grid_sum grid + (if on_grid point then 1 else 0))%Z.
Proof.
  intros [Hlen Hrows]. pose proof (grid_cell_in_range point) as Hr.
  unfold plot. destruct (grid_cell point) as [gx gz]. rewrite Hr.
  destruct (on_grid point); [|lia].
  rewrite !andb_true_iff, !Z.leb_le, !Z.ltb_lt in Hr.
  destruct (lookup_lt_is_Some_2 grid (Z.to_nat gx)) as [row Hrow]; [lia|].
  assert (Hw : length row = gridSize).
  { rewrite Forall_lookup in Hrows. exact (Hrows _ _ Hrow). }
  destruct (lookup_lt_is_Some_2 row (Z.to_nat gz)) as [v Hv]; [lia|].
  unfold grid_sum. rewrite (total_alter _ _ _ _ _ Hrow).
  unfold row_sum. rewrite (total_alter _ _ _ _ _ Hv). lia.
Qed.

Lemma heatmapData_sum points :
  grid_shape gridSize gridSize (heatmapData points)
  /\ grid_sum (heatmapData points) = count on_grid points.
Proof.
  unfold heatmapData.
  assert (H : forall grid,
             grid_shape gridSize gridSize grid ->
             grid_shape gridSize gridSize (fold_left plot points grid)
             /\ grid_sum (fold_left plot points grid)
                = (grid_sum grid + count on_grid points)%Z).
  { induction points as [|p points IH]; intros grid Hs; simpl.
    - split; [exact Hs|]. unfold count; simpl. lia.
    - destruct (IH (plot grid p) (plot_shape _ _ Hs)) as [Hs' ->].
      split; [exact Hs'|]. rewrite plot_sum, count_cons by exact Hs. lia. }
  destruct (H (zero_grid gridSize gridSize) (zero_grid_shape _ _)) as [Hs ->].
  split; [exact Hs|]. rewrite zero_grid_sum. lia.
Qed.

Lemma count_le {A} (f g : A -> bool) l :
  (forall a, f a = true -> g a = true) -> (count f l <= count g l)%Z.
Proof.
  intros H. induction l as [|a l IH]; [reflexivity|].
  rewrite !count_cons. specialize (H a).
  destruct (f a); [rewrite H by reflexivity; lia|].
  destruct (g a); lia.
Qed.

(** X19.  The grid of the 3D view has 20 rows of 20 cells.  Its cells
    count no point outside the box -12 <= x < 12, -6 <= z < 6, and
    they count every point with -12 <= x <= 11.99 and
    -6 <= z <= 5.99. *)
Theorem view_grid_counts_points_in_the_box points :
  length (heatmapData points) = 20%nat
  /\ Forall (fun row => length row = 20%nat) (heatmapData points)
  /\ (grid_sum (heatmapData points)
      <= count (fun p => Qle_bool (-12) (pt_x p) && Qltb (pt_x p) 12
                         && Qle_bool (-6) (pt_z p) && Qltb (pt_z p) 6) points)%Z
  /\ (count (fun p => Qle_bool (-12) (pt_x p) && Qle_bool (pt_x p) (1199 # 100)
                      && Qle_bool (-6) (pt_z p) && Qle_bool (pt_z p) (599 # 100))
        points
      <= grid_sum (heatmapData points))%Z.
Proof.
  destruct (heatmapData_sum points) as [[Hl Hr] Hs].
  split; [exact Hl|]. split; [exact Hr|]. rewrite Hs. split.
  - apply count_le. intros p H. exact H.
  - apply count_le. intros p H. apply on_grid_spec.
    rewrite !andb_true_iff, !Qle_bool_iff in H.
    destruct H as [[[H1 H2] H3] H4]. repeat split; lra.
Qed.

(** ** The table of professionals *)

Lemma count_all {A} (f : A -> bool) l :
  Forall (fun a => f a = true) l -> count f l = Z.of_nat (length l).
Proof.
  induction 1 as [|a l Ha _ IH]; [reflexivity|].
  rewrite count_cons, Ha, IH. simpl length. lia.
Qed.

Lemma track_bounds rnd base xr zr sr s0 :
  (forall k, 0 <= rnd k /\ rnd k < 1) -> 0 < xr -> 0 < zr -> 0 < sr ->
  length (track rnd base xr zr sr s0) = 50%nat
  /\ Forall (fun pt =>
               - (xr * (1 # 2)) <= pt_x pt /\ pt_x pt < xr * (1 # 2)
               /\ pt_y pt = 0
               /\ - (zr * (1 # 2)) <= pt_z pt /\ pt_z pt < zr * (1 # 2)
               /\ s0 <= pt_speed pt /\ pt_speed pt < s0 + sr)
       (track rnd base xr zr sr s0).
Proof.
  intros Hr Hx Hz Hs. unfold track. split.
  - now rewrite length_map, length_seq.
  - apply List.Forall_map, List.Forall_forall. intros i _.
    cbn [pt_x pt_y pt_z pt_speed].
    destruct (Hr (base + 3 * i)%nat), (Hr (base + 3 * i + 1)%nat),
      (Hr (base + 3 * i + 2)%nat).
    repeat split; try reflexivity; nra.
Qed.

(** X20.  Whatever Math.random draws, every professional has a track
    of 50 points on the ground (y = 0) with -11 <= x < 11 and
    -5 <= z < 5 and a speed of at least 20 and at most 35; the grid of the 3D view
    counts all 50 of them. *)
Theorem professional_tracks_stay_on_the_grid rnd p :
  (forall k, 0 <= rnd k /\ rnd k < 1) ->
  In p (professionalPlayers rnd) ->
  length (movement3D p) = 50%nat
  /\ Forall (fun pt => -11 <= pt_x pt /\ pt_x pt < 11 /\ pt_y pt = 0
                       /\ -5 <= pt_z pt /\ pt_z pt < 5
                       /\ 20 <= pt_speed pt /\ pt_speed pt <= 35)
       (movement3D p)
  /\ grid_sum (heatmapData (movement3D p)) = 50%Z.
Proof.
  intros Hr Hp.
  assert (H : length (movement3D p) = 50%nat
              /\ Forall (fun pt => -11 <= pt_x pt /\ pt_x pt < 11 /\ pt_y pt = 0
                                   /\ -5 <= pt_z pt /\ pt_z pt < 5
                                   /\ 20 <= pt_speed pt /\ pt_speed pt <= 35)
                   (movement3D p)).
  { destruct Hp as [<-|[<-|[<-|[]]]]; cbn [movement3D];
      (match goal with
       | |- context [track rnd ?b ?xr ?zr ?sr ?s0] =>
           destruct (track_bounds rnd b xr zr sr s0 Hr) as [Hl Hf];
           try reflexivity
       end);
      (split; [exact Hl|]);
      (eapply List.Forall_impl; [|exact Hf]); cbn beta;
      intros pt (?&?&?&?&?&?&?); repeat split; try assumption; lra. }
  destruct H as [Hl Hf]. split; [exact Hl|]. split; [exact Hf|].
  destruct (heatmapData_sum (movement3D p)) as [_ ->].
  rewrite count_all, Hl; [reflexivity|].
  eapply List.Forall_impl; [|exact Hf]. cbn beta.
  intros pt (?&?&?&?&?&?&?). apply on_grid_spec. repeat split; lra.
Qed.

Lemma professional_tracks_stay_on_the_grid_witness :
  grid_sum (heatmapData (track quarter 0 22 10 10 25)) = 50%Z.
Proof.
  apply (professional_tracks_stay_on_the_grid quarter
           {| name := "Rafael Nadal";
              ranking := 1;
              style := "Baseline Aggressive";
              averageSpeed := 285 # 10;
              courtCoverage := 923 # 10;
              efficiency := 897 # 10;
              strengths := ["Forehand topspin"; "Court coverage";
                            "Defensive positioning"]%string;
              movement3D := track quarter 0 22 10 10 25 |}).
  - intros k. split; [discriminate|reflexivity].
  - left. reflexivity.
Defined.

Lemma random_index_in_range (table : list ProfessionalPlayer) r :
  table <> [] -> 0 <= r -> r < 1 ->
  (0 <= Qfloor (r * inject_Z (Z.of_nat (length table)))
   < Z.of_nat (length table))%Z.
Proof.
  intros Hne H0 H1.
  set (n := Z.of_nat (length table)).
  assert (Hn : (0 < n)%Z) by (subst n; destruct table; [congruence|simpl; lia]).
  assert (Hq : 0 < inject_Z n)
    by (change 0 with (inject_Z 0); now rewrite <- Zlt_Qlt).
  split.
  - apply Qfloor_ge_iff. change (inject_Z 0) with 0. nra.
  - apply Qfloor_lt_iff. nra.
Qed.

Lemma getRandomProfessionalPlayer_defined table r :
  table <> [] -> 0 <= r -> r < 1 ->
  getRandomProfessionalPlayer table r <> None.
Proof.
  intros Hne H0 H1. unfold getRandomProfessionalPlayer.
  pose proof (random_index_in_range table r Hne H0 H1) as [Hlo Hhi].
  destruct (Z.ltb_spec (Qfloor (r * inject_Z (Z.of_nat (length table)))) 0)
    as [?|_]; [lia|].
  intros Hnone. apply lookup_ge_None in Hnone. lia.
Qed.

(** X21.  For a draw r with 0 <= r < 1 and a table that is not empty,
    getRandomProfessionalPlayer yields an entry of the table, never
    undefined. *)
Theorem random_professional_is_in_the_table table r :
  table <> [] -> 0 <= r -> r < 1 ->
  exists p, getRandomProfessionalPlayer table r = Some p /\ In p table.
Proof.
  intros Hne H0 H1. unfold getRandomProfessionalPlayer.
  pose proof (random_index_in_range table r Hne H0 H1) as [Hlo Hhi].
  destruct (Z.ltb_spec (Qfloor (r * inject_Z (Z.of_nat (length table)))) 0)
    as [?|_]; [lia|].
  destruct (lookup_lt_is_Some_2 table
              (Z.to_nat (Qfloor (r * inject_Z (Z.of_nat (length table))))))
    as [p Hp]; [lia|].
  exists p. split; [exact Hp|].
  apply list_elem_of_In. eapply list_elem_of_lookup_2. exact Hp.
Qed.

Lemma random_professional_is_in_the_table_witness :
  exists p, getRandomProfessionalPlayer (professionalPlayers quarter) (1 # 2) = Some p
            /\ In p (professionalPlayers quarter).
Proof.
  apply (random_professional_is_in_the_table (professionalPlayers quarter) (1 # 2)).
  - discriminate.
  - discriminate.
  - reflexivity.
Defined.

(** ** The analyzer component *)

Lemma shown_data_app evs evs' : shown_data (evs ++ evs') = shown_data evs ++ shown_data evs'.
Proof. apply omap_app. Qed.

Lemma error_toasts_app evs evs' :
  error_toasts (evs ++ evs') = error_toasts evs ++ error_toasts evs'.
Proof. apply omap_app. Qed.

Lemma progress_shown_app evs evs' :
  progress_shown (evs ++ evs') = progress_shown evs ++ progress_shown evs'.
Proof. apply omap_app. Qed.

Lemma ui_of_effect_projections tr :
  shown_data (map ui_of_effect tr) = []
  /\ error_toasts (map ui_of_effect tr) = []
  /\ progress_shown (map ui_of_effect tr) = progress_reports tr.
Proof.
  induction tr as [|e tr (IH1 & IH2 & IH3)]; [easy|].
  unfold shown_data, error_toasts, progress_shown, progress_reports in *.
  destruct e; cbn [map omap list_omap ui_of_effect];
    rewrite ?IH1, ?IH2, ?IH3; easy.
Qed.

Lemma processor_projections eff :
  shown_data (map Processor eff) = []
  /\ error_toasts (map Processor eff) = []
  /\ progress_shown (map Processor eff) = [].
Proof.
  induction eff as [|e eff (IH1 & IH2 & IH3)]; [easy|].
  unfold shown_data, error_toasts, progress_shown in *.
  cbn [map omap list_omap]. easy.
Qed.

Section AnalyzerProperties.

Context {Image : Type}.
Variable load1 load2 : outcome (Detector Image).
Variable vp : VideoProcessor Image.
Variable video : Video Image.
Variable has2d : bool.
Variable table : list ProfessionalPlayer.
Variable rnd : nat -> Q.

(** The events of the body of the [try], whatever its outcome. *)
Lemma analysis_events :
  exists vp1 eff1 r1 vp2 tr out,
    initialize load1 vp = (vp1, eff1, r1)
    /\ (exists r, processVideo load2 vp1 video has2d true true = Some (vp2, tr, r)
                  /\ match r, out with
                     | Thrown e, Thrown e' => e = e'
                     | Returned res, Thrown _ =>
                         getRandomProfessionalPlayer table (rnd 273%nat) = None
                     | Returned res, Returned d =>
                         exists pro,
                           getRandomProfessionalPlayer table (rnd 273%nat) = Some pro
                           /\ d = data_of video res rnd pro
                     | Thrown _, Returned _ => False
                     end)
    /\ exists ev,
         analysis load1 load2 vp video has2d table rnd = Some (vp2, ev, out)
         /\ shown_data ev = [] /\ error_toasts ev = []
         /\ progress_shown ev = progress_reports tr.
Proof.
  unfold analysis.
  destruct (initialize load1 vp) as [[vp1 eff1] r1] eqn:Hinit.
  destruct (processVideo_returns load2 vp1 video true true has2d) as [[[vp2 tr] r] Hrun].
  rewrite Hrun.
  destruct (ui_of_effect_projections tr) as (U1 & U2 & U3).
  destruct (processor_projections eff1) as (P1 & P2 & P3).
  assert (Hev : forall tail,
             shown_data tail = [] -> error_toasts tail = [] -> progress_shown tail = [] ->
             shown_data
               ((ToastShown "Inicializando IA"
                   "Carregando modelo de detecção YOLO..." false
                 :: map Processor eff1 ++ tail) ++ map ui_of_effect tr) = []
             /\ error_toasts
                  ((ToastShown "Inicializando IA"
                      "Carregando modelo de detecção YOLO..." false
                    :: map Processor eff1 ++ tail) ++ map ui_of_effect tr) = []
             /\ progress_shown
                  ((ToastShown "Inicializando IA"
                      "Carregando modelo de detecção YOLO..." false
                    :: map Processor eff1 ++ tail) ++ map ui_of_effect tr)
                = progress_reports tr).
  { intros tail T1 T2 T3.
    rewrite shown_data_app, error_toasts_app, progress_shown_app, U1, U2, U3.
    unfold shown_data, error_toasts, progress_shown in *.
    cbn [omap list_omap]. rewrite !omap_app, P1, P2, P3, T1, T2, T3.
    repeat split; try reflexivity. }
  assert (Htail : shown_data match r1 with
                             | Thrown e =>
                                 [ConsoleInfoError
                                    "Usando análise simulada devido a limitações do modelo:" e]
                             | Returned _ => []
                             end = []
                  /\ error_toasts match r1 with
                                  | Thrown e =>
                                      [ConsoleInfoError
                                         "Usando análise simulada devido a limitações do modelo:" e]
                                  | Returned _ => []
                                  end = []
                  /\ progress_shown match r1 with
                                    | Thrown e =>
                                        [ConsoleInfoError
                                           "Usando análise simulada devido a limitações do modelo:" e]
                                    | Returned _ => []
                                    end = []).
  { destruct r1; repeat split; reflexivity. }
  destruct Htail as (T1 & T2 & T3). specialize (Hev _ T1 T2 T3).
  destruct r as [res|e].
  - destruct (getRandomProfessionalPlayer table (rnd 273%nat)) as [pro|] eqn:Hpro.
    + exists vp1, eff1, r1, vp2, tr, (Returned (data_of video res rnd pro)).
      split; [reflexivity|]. split.
      * exists (Returned res). split; [exact Hrun|].
        exists pro. split; reflexivity.
      * eexists. split; [reflexivity|exact Hev].
    + exists vp1, eff1, r1, vp2, tr,
        (Thrown (Error "Cannot read properties of undefined (reading 'averageSpeed')")).
      split; [reflexivity|]. split.
      * exists (Returned res). split; [exact Hrun|reflexivity].
      * eexists. split; [reflexivity|exact Hev].
  - exists vp1, eff1, r1, vp2, tr, (Thrown e).
    split; [reflexivity|]. split.
    + exists (Thrown e). split; [exact Hrun|reflexivity].
    + eexists. split; [reflexivity|exact Hev].
Qed.

End AnalyzerProperties.

Lemma processVideo_progress_bounded {Image : Type}
    (load : outcome (Detector Image)) (vp : VideoProcessor Image)
    (video : Video Image) (has2d onProgress onFrame : bool) vp1 tr r :
  processVideo load vp video has2d onProgress onFrame = Some (vp1, tr, r) ->
  Forall (fun p => 0 <= p /\ p < 100) (progress_reports tr).
Proof.
  intros Hrun. destruct r as [res|e].
  - apply processVideo_returned_inv in Hrun.
    destruct Hrun as (eff & Hinit & -> & -> & ->).
    destruct (ensure_initialized_cases _ _ _ _ _ Hinit) as (_ & He & _ & _).
    rewrite !progress_reports_app, He, run_progress. cbn [progress_reports omap list_omap app].
    destruct onProgress; [|constructor].
    apply List.Forall_map, List.Forall_forall. intros i Hi.
    apply in_seq in Hi.
    assert (Hlt : sample_time i < duration video)
      by (apply sample_time_before; lia).
    pose proof (sample_time_nonneg i) as H0.
    assert (Hd : 0 < duration video) by lra.
    assert (Hq0 : 0 <= sample_time i / duration video).
    { apply Qle_shift_div_l; [exact Hd|]. lra. }
    assert (Hq1 : sample_time i / duration video < 1).
    { apply Qlt_shift_div_r; [exact Hd|]. lra. }
    set (q := sample_time i / duration video) in *. lra.
  - destruct (ensure_initialized load vp) as [[vp0 eff] r0] eqn:Hinit.
    destruct (ensure_initialized_cases _ _ _ _ _ Hinit) as (_ & He & _ & _).
    destruct r0 as [[]|e0].
    + destruct has2d.
      * rewrite (processVideo_run _ _ _ _ _ _ _ Hinit) in Hrun. discriminate Hrun.
      * unfold processVideo in Hrun. rewrite Hinit in Hrun.
        injection Hrun as <- <- <-. rewrite He. constructor.
    + unfold processVideo in Hrun. rewrite Hinit in Hrun.
      injection Hrun as <- <- <-. rewrite He. constructor.
Qed.

Lemma processVideo_returns_iff {Image : Type}
    (load : outcome (Detector Image)) (vp : VideoProcessor Image)
    (video : Video Image) (has2d onProgress onFrame : bool) :
  (exists vp1 tr res,
      processVideo load vp video has2d onProgress onFrame = Some (vp1, tr, Returned res))
  <-> has2d = true /\ (initialized vp = true \/ exists d, load = Returned d).
Proof.
  split.
  - intros (vp1 & tr & res & Hrun). apply processVideo_returned_inv in Hrun.
    destruct Hrun as (eff & Hinit & -> & _). split; [reflexivity|].
    unfold ensure_initialized, initialize in Hinit.
    destruct (initialized vp); [now left|]. simpl in Hinit.
    destruct load as [d|e]; [right; now exists d|discriminate].
  - intros [-> Hready].
    assert (Hinit : exists vp1 eff, ensure_initialized load vp = (vp1, eff, Returned tt)).
    { unfold ensure_initialized, initialize.
      destruct (initialized vp) eqn:Ei; simpl; [now do 2 eexists|].
      destruct Hready as [?|[d ->]]; [discriminate|]. now do 2 eexists. }
    destruct Hinit as (vp1 & eff & Hinit).
    do 3 eexists. exact (processVideo_run _ _ _ _ _ _ _ Hinit).
Qed.

Lemma initialize_initialized {Image : Type}
    (load : outcome (Detector Image)) (vp vp1 : VideoProcessor Image) eff r :
  initialize load vp = (vp1, eff, r) ->
  (initialized vp1 = true <-> initialized vp = true \/ exists d, load = Returned d).
Proof.
  unfold initialize. destruct (initialized vp) eqn:Ei.
  - intros [= <- <- <-]. rewrite Ei. split; auto.
  - destruct load as [d|e]; intros [= <- <- <-]; simpl.
    + split; [intros _; right; now exists d|reflexivity].
    + rewrite Ei. split; [discriminate|]. intros [?|[d ?]]; discriminate.
Qed.

Section AnalyzerTheorems.

Context {Image : Type}.
Variable load1 load2 : outcome (Detector Image).
Variable vp : VideoProcessor Image.
Variable video : Video Image.
Variable has2d : bool.
Variable table : list ProfessionalPlayer.
Variable rnd : nat -> Q.

Lemma analyzeVideo_cases :
  exists vp1 eff1 r1 vp2 tr r evs,
    initialize load1 vp = (vp1, eff1, r1)
    /\ processVideo load2 vp1 video has2d true true = Some (vp2, tr, r)
    /\ analyzeVideo true load1 load2 vp video has2d table rnd = Some (vp2, evs)
    /\ head evs = Some (SetIsAnalyzing true)
    /\ last evs = Some (SetIsAnalyzing false)
    /\ progress_shown evs = 0 :: progress_reports tr
    /\ ((exists res pro,
            r = Returned res
            /\ getRandomProfessionalPlayer table (rnd 273%nat) = Some pro
            /\ shown_data evs = [data_of video res rnd pro]
            /\ error_toasts evs = [])
        \/ ((getRandomProfessionalPlayer table (rnd 273%nat) = None
             \/ exists e, r = Thrown e)
            /\ shown_data evs = []
            /\ error_toasts evs = ["Erro na análise"%string])).
Proof.
  destruct (analysis_events load1 load2 vp video has2d table rnd)
    as (vp1 & eff1 & r1 & vp2 & tr & out & Hinit & (r & Hrun & Hout)
        & ev & Han & S & T & P).
  exists vp1, eff1, r1, vp2, tr, r.
  unfold analyzeVideo. cbn [negb]. rewrite Han.
  destruct out as [d|e].
  - eexists. split; [exact Hinit|]. split; [exact Hrun|]. split; [reflexivity|].
    split; [reflexivity|]. split; [|split].
    + rewrite !last_app. reflexivity.
    + rewrite !progress_shown_app, P. cbn. now rewrite app_nil_r.
    + left. destruct r as [res|e]; [|contradiction].
      destruct Hout as (pro & Hpro & ->). exists res, pro.
      split; [reflexivity|]. split; [exact Hpro|].
      rewrite !shown_data_app, !error_toasts_app, S, T. split; reflexivity.
  - eexists. split; [exact Hinit|]. split; [exact Hrun|]. split; [reflexivity|].
    split; [reflexivity|]. split; [|split].
    + rewrite !last_app. reflexivity.
    + rewrite !progress_shown_app, P. cbn. now rewrite app_nil_r.
    + right. split.
      * destruct r as [res|e']; [now left|right; now exists e'].
      * rewrite !shown_data_app, !error_toasts_app, S, T. split; reflexivity.
Qed.

End AnalyzerTheorems.

Lemma shots_nonneg analyses : (0 <= shots (calculateStats analyses))%Z.
Proof.
  unfold calculateStats, stats_loop; simpl.
  exact (fold_stats_monotone analyses stats_acc0).
Qed.

(** X22.  Without the video or the canvas element analyzeVideo does
    nothing.  Otherwise it sets the analyzing flag first and clears it
    last, and in between either stores the analysis data once and shows
    no error toast, or stores nothing and shows the one error toast
    "Erro na análise"; every progress value it sets is at least 0 and
    below 100. *)
Theorem analyzeVideo_stores_data_or_reports_error {Image : Type}
    (load1 load2 : outcome (Detector Image)) (vp : VideoProcessor Image)
    (video : Video Image) (has2d : bool)
    (table : list ProfessionalPlayer) (rnd : nat -> Q) :
  analyzeVideo false load1 load2 vp video has2d table rnd = Some (vp, [])
  /\ exists vp2 evs,
       analyzeVideo true load1 load2 vp video has2d table rnd = Some (vp2, evs)
       /\ head evs = Some (SetIsAnalyzing true)
       /\ last evs = Some (SetIsAnalyzing false)
       /\ ((exists d, shown_data evs = [d] /\ error_toasts evs = [])
           \/ (shown_data evs = []
               /\ error_toasts evs = ["Erro na análise"%string]))
       /\ Forall (fun p => 0 <= p /\ p < 100) (progress_shown evs).
Proof.
  split; [reflexivity|].
  destruct (analyzeVideo_cases load1 load2 vp video has2d table rnd)
    as (vp1 & eff1 & r1 & vp2 & tr & r & evs & _ & Hrun & Han & Hh & Hl & Hp & Hc).
  exists vp2, evs. split; [exact Han|]. split; [exact Hh|]. split; [exact Hl|].
  split.
  - destruct Hc as [(res & pro & _ & _ & Hs & He)|(_ & Hs & He)].
    + left. eexists. split; [exact Hs|exact He].
    + right. split; [exact Hs|exact He].
  - rewrite Hp. constructor; [split; [apply Qle_refl|reflexivity]|].
    exact (processVideo_progress_bounded _ _ _ _ _ _ _ _ _ Hrun).
Qed.

(** X23.  With a table that is not empty and a draw below 1, the
    analysis data is stored exactly when the canvas has a drawing
    context and the processor is initialized or one of the two attempts
    to load the model succeeds.  In particular, when loading fails both
    times no analysis is stored, although the first failure is caught. *)
Theorem analyzeVideo_stores_data_iff_detector_loads {Image : Type}
    (load1 load2 : outcome (Detector Image)) (vp : VideoProcessor Image)
    (video : Video Image) (has2d : bool)
    (table : list ProfessionalPlayer) (rnd : nat -> Q) :
  table <> [] -> 0 <= rnd 273%nat -> rnd 273%nat < 1 ->
  exists vp2 evs,
    analyzeVideo true load1 load2 vp video has2d table rnd = Some (vp2, evs)
    /\ (shown_data evs <> []
        <-> has2d = true
            /\ (initialized vp = true
                \/ (exists d, load1 = Returned d)
                \/ (exists d, load2 = Returned d))).
Proof.
  intros Hne H0 H1.
  pose proof (getRandomProfessionalPlayer_defined table (rnd 273%nat) Hne H0 H1)
    as Hdef.
  destruct (analyzeVideo_cases load1 load2 vp video has2d table rnd)
    as (vp1 & eff1 & r1 & vp2 & tr & r & evs & Hinit & Hrun & Han & _ & _ & _ & Hc).
  exists vp2, evs. split; [exact Han|].
  pose proof (initialize_initialized _ _ _ _ _ Hinit) as Hi.
  pose proof (processVideo_returns_iff load2 vp1 video has2d true true) as Hiff.
  destruct Hc as [(res & pro & -> & _ & Hs & _)|([Hnone|[e ->]] & Hs & _)].
  - rewrite Hs. split; [intros _|discriminate].
    destruct Hiff as [Hiff _].
    destruct Hiff as [-> Hready]; [now exists vp2, tr, res|].
    split; [reflexivity|]. rewrite Hi in Hready. tauto.
  - congruence.
  - rewrite Hs. split; [congruence|]. intros [H2d Hready].
    destruct Hiff as [_ Hiff].
    destruct Hiff as (vp2' & tr' & res' & Hrun').
    + split; [exact H2d|]. rewrite Hi. tauto.
    + congruence.
Qed.

Lemma analyzeVideo_stores_data_iff_detector_loads_witness :
  exists vp2 evs,
    analyzeVideo true (Thrown inference_failed) (Thrown inference_failed)
      new_VideoProcessor clip true (professionalPlayers quarter) quarter
    = Some (vp2, evs)
    /\ (shown_data evs <> []
        <-> true = true
            /\ (initialized (@new_VideoProcessor Q) = true
                \/ (exists d, @Thrown (Detector Q) inference_failed = Returned d)
                \/ (exists d, @Thrown (Detector Q) inference_failed = Returned d))).
Proof.
  apply (analyzeVideo_stores_data_iff_detector_loads
           (Thrown inference_failed) (Thrown inference_failed)
           new_VideoProcessor clip true (professionalPlayers quarter) quarter).
  - discriminate.
  - discriminate.
  - reflexivity.
Defined.

(** X24.  The shot, winner and error counts stored by analyzeVideo are
    never below 25, 8 and 3; stored shots of 25 come with 8 winners and
    3 errors; more than 8 winners are only stored with 60 shots or
    more, more than 3 errors only with 34 shots or more.  Both stored
    heat maps have the video's height as number of rows and its width
    as row length. *)
Theorem stored_counts_have_floors {Image : Type}
    (load1 load2 : outcome (Detector Image)) (vp : VideoProcessor Image)
    (video : Video Image) (has2d : bool)
    (table : list ProfessionalPlayer) (rnd : nat -> Q) vp2 evs d :
  analyzeVideo true load1 load2 vp video has2d table rnd = Some (vp2, evs) ->
  In d (shown_data evs) ->
  (25 <= data_shots d /\ 8 <= data_winners d /\ 3 <= data_errors d)%Z
  /\ (data_shots d = 25%Z -> data_winners d = 8%Z /\ data_errors d = 3%Z)
  /\ (8 < data_winners d -> 60 <= data_shots d)%Z
  /\ (3 < data_errors d -> 34 <= data_shots d)%Z
  /\ grid_shape (videoWidth video) (videoHeight video) (playerHeatmap d)
  /\ grid_shape (videoWidth video) (videoHeight video) (ballHeatmap d).
Proof.
  intros Han Hd.
  destruct (analyzeVideo_cases load1 load2 vp video has2d table rnd)
    as (vp1 & eff1 & r1 & vp2' & tr & r & evs' & _ & _ & Han' & _ & _ & _ & Hc).
  rewrite Han in Han'. injection Han' as <- <-.
  destruct Hc as [(res & pro & _ & _ & Hs & _)|(_ & Hs & _)];
    rewrite Hs in Hd; [|destruct Hd].
  destruct Hd as [<-|[]].
  cbn [data_of data_shots data_winners data_errors playerHeatmap ballHeatmap].
  change (winners (calculateStats res)) with (shots (calculateStats res) * 15 / 100)%Z.
  change (errors (calculateStats res)) with (shots (calculateStats res) * 12 / 100)%Z.
  pose proof (shots_nonneg res) as H0.
  split; [|split; [|split; [|split; [|split]]]];
    try apply generateHeatmap_shape;
    generalize dependent (shots (calculateStats res)); intros s H0;
    Z.div_mod_to_equations; lia.
Qed.

Lemma stored_counts_have_floors_witness :
  exists vp2 evs d,
    analyzeVideo true (Thrown inference_failed) (Thrown inference_failed)
      flaky_processor clip true (professionalPlayers quarter) quarter
    = Some (vp2, evs)
    /\ In d (shown_data evs)
    /\ (25 <= data_shots d /\ 8 <= data_winners d /\ 3 <= data_errors d)%Z.
Proof.
  do 3 eexists. split; [reflexivity|]. split; [left; reflexivity|].
  eapply (stored_counts_have_floors
            (Thrown inference_failed) (Thrown inference_failed)
            flaky_processor clip true (professionalPlayers quarter) quarter).
  - reflexivity.
  - left. reflexivity.
Defined.

Lemma getRandomProfessionalPlayer_in table r p :
  getRandomProfessionalPlayer table r = Some p -> In p table.
Proof.
  unfold getRandomProfessionalPlayer.
  destruct (_ <? 0)%Z; [discriminate|]. intros H.
  apply list_elem_of_In. eapply list_elem_of_lookup_2. exact H.
Qed.

Lemma analyzeVideo_stored {Image : Type}
    (load1 load2 : outcome (Detector Image)) (vp : VideoProcessor Image)
    (video : Video Image) (has2d : bool)
    (table : list ProfessionalPlayer) (rnd : nat -> Q) vp2 evs d :
  analyzeVideo true load1 load2 vp video has2d table rnd = Some (vp2, evs) ->
  In d (shown_data evs) ->
  exists res pro, In pro table /\ d = data_of video res rnd pro.
Proof.
  intros Han Hd.
  destruct (analyzeVideo_cases load1 load2 vp video has2d table rnd)
    as (vp1 & eff1 & r1 & vp2' & tr & r & evs' & _ & _ & Han' & _ & _ & _ & Hc).
  rewrite Han in Han'. injection Han' as <- <-.
  destruct Hc as [(res & pro & _ & Hpro & Hs & _)|(_ & Hs & _)];
    rewrite Hs in Hd; [|destruct Hd].
  destruct Hd as [<-|[]]. exists res, pro.
  split; [|reflexivity]. eapply getRandomProfessionalPlayer_in. exact Hpro.
Qed.

Lemma ball_track_bounds rnd base :
  (forall k, 0 <= rnd k /\ rnd k < 1) ->
  length (ball_track rnd base) = 30%nat
  /\ Forall (fun pt => -11 <= pt_x pt /\ pt_x pt < 11
                       /\ 1 # 2 <= pt_y pt /\ pt_y pt < 7 # 2
                       /\ -5 <= pt_z pt /\ pt_z pt < 5
                       /\ 30 <= pt_speed pt /\ pt_speed pt < 80)
       (ball_track rnd base).
Proof.
  intros Hr. unfold ball_track. split.
  - now rewrite length_map, length_seq.
  - apply List.Forall_map, List.Forall_forall. intros i _.
    cbn [pt_x pt_y pt_z pt_speed].
    destruct (Hr (base + 4 * i)%nat), (Hr (base + 4 * i + 1)%nat),
      (Hr (base + 4 * i + 2)%nat), (Hr (base + 4 * i + 3)%nat).
    repeat split; lra.
Qed.

Lemma random_rallies_bounds n rnd base :
  (forall k, 0 <= rnd k /\ rnd k < 1) ->
  length (random_rallies n rnd base) = n
  /\ Forall (fun r => 5 <= rally_duration r /\ rally_duration r < 35
                      /\ (3 <= rally_shots r <= 22)%Z
                      /\ rally_winner r <> rally_error)
       (random_rallies n rnd base).
Proof.
  intros Hr. unfold random_rallies. split.
  - now rewrite length_map, length_seq.
  - apply List.Forall_map, List.Forall_forall. intros i _.
    cbn [rally_duration rally_shots rally_winner].
    destruct (Hr (base + 3 * i)%nat), (Hr (base + 3 * i + 1)%nat).
    assert (Hlo : (0 <= Qfloor (rnd (base + 3 * i + 1)%nat * 20))%Z).
    { apply Qfloor_ge_iff. change (inject_Z 0) with 0. lra. }
    assert (Hhi : (Qfloor (rnd (base + 3 * i + 1)%nat * 20) < 20)%Z).
    { apply Qfloor_lt_iff. change (inject_Z 20) with 20. lra. }
    repeat split; try lra; try lia.
    destruct (Qltb _ _); discriminate.
Qed.

(** X25.  With draws from 0 up to 1, the demonstration data stored by
    analyzeVideo stays in range: the 50 movement points all fall in the
    grid of the 3D view; the ball trajectory has 30 points with
    -11 <= x < 11, 0.5 <= y <= 3.5, -5 <= z < 5 and a speed from 30 to
    80; there are 8 rallies of 5 to 35 seconds and 3 to 22 shots, none
    won by 'error'; the insights are a speed from 20 to 30, a coverage
    from 70 to 90 and an efficiency from 80 to 95. *)
Theorem stored_demonstration_data_is_in_range {Image : Type}
    (load1 load2 : outcome (Detector Image)) (vp : VideoProcessor Image)
    (video : Video Image) (has2d : bool)
    (table : list ProfessionalPlayer) (rnd : nat -> Q) vp2 evs d :
  (forall k, 0 <= rnd k /\ rnd k < 1) ->
  analyzeVideo true load1 load2 vp video has2d table rnd = Some (vp2, evs) ->
  In d (shown_data evs) ->
  grid_sum (heatmapData (data_movement3D d)) = 50%Z
  /\ length (ballTrajectory3D d) = 30%nat
  /\ Forall (fun pt => -11 <= pt_x pt /\ pt_x pt < 11
                       /\ 1 # 2 <= pt_y pt /\ pt_y pt <= 7 # 2
                       /\ -5 <= pt_z pt /\ pt_z pt < 5
                       /\ 30 <= pt_speed pt /\ pt_speed pt <= 80)
       (ballTrajectory3D d)
  /\ length (rallies d) = 8%nat
  /\ Forall (fun r => 5 <= rally_duration r /\ rally_duration r <= 35
                      /\ (3 <= rally_shots r <= 22)%Z
                      /\ rally_winner r <> rally_error)
       (rallies d)
  /\ 20 <= stats_averageSpeed (insights3D d) /\ stats_averageSpeed (insights3D d) <= 30
  /\ 70 <= stats_courtCoverage (insights3D d) /\ stats_courtCoverage (insights3D d) <= 90
  /\ 80 <= stats_efficiency (insights3D d) /\ stats_efficiency (insights3D d) <= 95.
Proof.
  intros Hr Han Hd.
  destruct (analyzeVideo_stored _ _ _ _ _ _ _ _ _ _ Han Hd) as (res & pro & _ & ->).
  cbn [data_of data_movement3D ballTrajectory3D rallies insights3D
         stats_averageSpeed stats_courtCoverage stats_efficiency].
  destruct (ball_track_bounds rnd 150 Hr) as [Hbl Hbf].
  destruct (random_rallies_bounds 8 rnd 274 Hr) as [Hrl Hrf].
  destruct (Hr 270%nat), (Hr 271%nat), (Hr 272%nat).
  split; [|split; [exact Hbl|split; [|split; [exact Hrl|split]]]].
  - destruct (heatmapData_sum (track rnd 0 20 10 30 10)) as [_ ->].
    destruct (track_bounds rnd 0 20 10 30 10 Hr) as [Hl Hf]; try reflexivity.
    rewrite count_all, Hl; [reflexivity|].
    eapply List.Forall_impl; [|exact Hf]. cbn beta.
    intros pt (?&?&?&?&?&?&?). apply on_grid_spec. repeat split; lra.
  - eapply List.Forall_impl; [|exact Hbf]. cbn beta.
    intros pt (?&?&?&?&?&?&?&?). repeat split; try assumption; lra.
  - eapply List.Forall_impl; [|exact Hrf]. cbn beta.
    intros r (?&?&?&?). repeat split; try assumption; try lra; lia.
  - repeat split; lra.
Qed.

(** X26.  With draws from 0 up to 1 and the built-in table of
    professionals, the stored comparison is with one of the listed
    professionals and its similarity score is at least 59: the score
    is never cut off at 0. *)
Theorem stored_similarity_is_at_least_59 {Image : Type}
    (load1 load2 : outcome (Detector Image)) (vp : VideoProcessor Image)
    (video : Video Image) (has2d : bool) (rnd' rnd : nat -> Q) vp2 evs d :
  (forall k, 0 <= rnd k /\ rnd k < 1) ->
  analyzeVideo true load1 load2 vp video has2d (professionalPlayers rnd') rnd
  = Some (vp2, evs) ->
  In d (shown_data evs) ->
  exists c,
    professionalComparison d = Some c
    /\ In (professional c) (professionalPlayers rnd')
    /\ 59 <= similarityScore c.
Proof.
  intros Hr Han Hd.
  destruct (analyzeVideo_stored _ _ _ _ _ _ _ _ _ _ Han Hd) as (res & pro & Hpro & ->).
  eexists. split; [reflexivity|]. split; [exact Hpro|].
  rewrite similarityScore_eq.
  cbn [stats_averageSpeed stats_courtCoverage stats_efficiency].
  destruct (Hr 270%nat), (Hr 271%nat), (Hr 272%nat).
  apply Qle_trans with (100 - Qabs (averageSpeed pro - (rnd 270%nat * 10 + 20))
                        - Qabs (courtCoverage pro - (rnd 271%nat * 20 + 70))
                        - Qabs (efficiency pro - (rnd 272%nat * 15 + 80)));
    [|apply Q.le_max_r].
  destruct Hpro as [<-|[<-|[<-|[]]]];
    cbn [averageSpeed courtCoverage efficiency];
    match goal with
    | |- _ <= 100 - Qabs ?a - Qabs ?b - Qabs ?c =>
        destruct (Qabs_cases a) as [[? ->]|[? ->]];
        destruct (Qabs_cases b) as [[? ->]|[? ->]];
        destruct (Qabs_cases c) as [[? ->]|[? ->]]
    end; lra.
Qed.

Example suggestions_for_a_slow_player :
  improvements (compareWithProfessional slow_player nadal)
  = ["Aumente a velocidade de movimento em 8.5 km/h como Rafael Nadal";
     "Melhore a cobertura da quadra em 12.3% seguindo o estilo Baseline Aggressive";
     "Aumente a eficiência em 4.7% focando em: Forehand topspin, Court coverage, Defensive positioning"]%string.
Proof. reflexivity. Qed.

Lemma similarity_score_range_witness :
  similarityScore (compareWithProfessional nadal_like nadal) == 100
  /\ similarityScore (compareWithProfessional slow_player nadal) <= 99.
Proof.
  destruct (similarity_score_range nadal_like nadal) as (_ & _ & Hsame & _).
  destruct (similarity_score_range slow_player nadal) as (_ & _ & _ & Hfar).
  split.
  - apply Hsame. repeat split; reflexivity.
  - apply Hfar. left. vm_compute. discriminate.
Defined.

Lemma suggestions_only_beyond_thresholds_witness :
  improvements (compareWithProfessional nadal_like nadal) = []
  /\ improvements (compareWithProfessional slow_player nadal) <> [].
Proof.
  destruct (suggestions_only_beyond_thresholds nadal_like nadal) as (_ & Hnone & _).
  destruct (suggestions_only_beyond_thresholds slow_player nadal) as (_ & _ & Hsome).
  split.
  - apply Hnone. repeat split; discriminate.
  - apply Hsome. left. vm_compute. discriminate.
Defined.

Lemma suggestions_come_with_lower_scores_witness :
  similarityScore (compareWithProfessional slow_player nadal) <= 90.
Proof.
  apply (suggestions_come_with_lower_scores slow_player nadal). reflexivity.
Defined.

Lemma stored_demonstration_data_is_in_range_witness :
  exists vp2 evs d,
    analyzeVideo true (Thrown inference_failed) (Thrown inference_failed)
      flaky_processor clip true (professionalPlayers quarter) quarter
    = Some (vp2, evs)
    /\ In d (shown_data evs)
    /\ grid_sum (heatmapData (data_movement3D d)) = 50%Z.
Proof.
  do 3 eexists. split; [reflexivity|]. split; [left; reflexivity|].
  eapply (stored_demonstration_data_is_in_range
            (Thrown inference_failed) (Thrown inference_failed)
            flaky_processor clip true (professionalPlayers quarter) quarter).
  - intros k. split; [discriminate|reflexivity].
  - reflexivity.
  - left. reflexivity.
Defined.

Lemma stored_similarity_is_at_least_59_witness :
  exists vp2 evs d,
    analyzeVideo true (Thrown inference_failed) (Thrown inference_failed)
      flaky_processor clip true (professionalPlayers quarter) quarter
    = Some (vp2, evs)
    /\ In d (shown_data evs)
    /\ exists c,
         professionalComparison d = Some c
         /\ In (professional c) (professionalPlayers quarter)
         /\ 59 <= similarityScore c.
Proof.
  do 3 eexists. split; [reflexivity|]. split; [left; reflexivity|].
  eapply (stored_similarity_is_at_least_59
            (Thrown inference_failed) (Thrown inference_failed)
            flaky_processor clip true quarter quarter).
  - intros k. split; [discriminate|reflexivity].
  - reflexivity.
  - left. reflexivity.
Defined.

(** ** The check of the address *)

Lemma append_cons a p q : (String a p ++ q)%string = String a (p ++ q)%string.
Proof. reflexivity. Qed.

Lemma append_nil q : ("" ++ q)%string = q.
Proof. reflexivity. Qed.

Lemma prefix_spec p : forall s,
  String.prefix p s = true <-> exists post, s = (p ++ post)%string.
Proof.
  induction p as [|a p IH]; intros s.
  - split; [intros _; now exists s|]. intros _. now destruct s.
  - destruct s as [|b s]; cbn [String.prefix].
    + split; [discriminate|]. intros [post H].
      rewrite append_cons in H. discriminate.
    + destruct (Ascii.ascii_dec a b) as [->|Hne].
      * rewrite IH. split; intros [post H]; exists post.
        -- rewrite append_cons. now rewrite H.
        -- rewrite append_cons in H. now injection H.
      * split; [discriminate|]. intros [post H].
        rewrite append_cons in H. congruence.
Qed.

Lemma includes_spec sub : forall s,
  includes s sub = true <-> exists pre post, s = (pre ++ sub ++ post)%string.
Proof.
  induction s as [|b s IH].
  - cbn [includes]. destruct (String.prefix sub "") eqn:E.
    + split; [intros _|reflexivity]. apply prefix_spec in E.
      destruct E as [post E]. now exists ""%string, post.
    + split; [discriminate|]. intros (pre & post & H).
      destruct pre as [|c pre].
      * rewrite append_nil in H.
        assert (String.prefix sub "" = true) by (apply prefix_spec; now exists post).
        congruence.
      * rewrite append_cons in H. discriminate.
  - cbn [includes]. destruct (String.prefix sub (String b s)) eqn:E.
    + split; [intros _|reflexivity]. apply prefix_spec in E.
      destruct E as [post E]. now exists ""%string, post.
    + rewrite IH. split.
      * intros (pre & post & ->). exists (String b pre), post.
        now rewrite append_cons.
      * intros (pre & post & H). destruct pre as [|c pre].
        -- rewrite append_nil in H.
           assert (String.prefix sub (String b s) = true)
             by (apply prefix_spec; now exists post).
           congruence.
        -- rewrite append_cons in H. injection H as -> ->. now exists pre, post.
Qed.

(** X27.  handleSubmit stops with the toast "URL inválida" exactly when
    the address contains neither "youtube.com" nor "youtu.be"; an
    address that has one of them anywhere, with any text before and
    after, goes on to the download. *)
Theorem address_check_is_a_substring_test youtubeUrl proceed :
  (handleSubmit youtubeUrl proceed = proceed
   \/ handleSubmit youtubeUrl proceed
      = [ToastShown "URL inválida" "Por favor, insira um link válido do YouTube" true])
  /\ ((exists pre post,
          youtubeUrl = (pre ++ "youtube.com" ++ post)%string
          \/ youtubeUrl = (pre ++ "youtu.be" ++ post)%string) ->
      handleSubmit youtubeUrl proceed = proceed)
  /\ ((forall pre post,
          youtubeUrl <> (pre ++ "youtube.com" ++ post)%string
          /\ youtubeUrl <> (pre ++ "youtu.be" ++ post)%string) ->
      handleSubmit youtubeUrl proceed
      = [ToastShown "URL inválida" "Por favor, insira um link válido do YouTube" true]).
Proof.
  unfold handleSubmit.
  destruct (includes youtubeUrl "youtube.com") eqn:E1;
    destruct (includes youtubeUrl "youtu.be") eqn:E2; cbn [negb andb];
    (split; [auto|split]); try reflexivity.
  - intros H. apply includes_spec in E1. destruct E1 as (pre & post & E1).
    destruct (H pre post) as [H1 _]. contradiction.
  - intros H. apply includes_spec in E1. destruct E1 as (pre & post & E1).
    destruct (H pre post) as [H1 _]. contradiction.
  - intros H. apply includes_spec in E2. destruct E2 as (pre & post & E2).
    destruct (H pre post) as [_ H2]. contradiction.
  - intros (pre & post & [H|H]).
    + assert (includes youtubeUrl "youtube.com" = true)
        by (apply includes_spec; now exists pre, post).
      congruence.
    + assert (includes youtubeUrl "youtu.be" = true)
        by (apply includes_spec; now exists pre, post).
      congruence.
Qed.

Lemma address_check_is_a_substring_test_witness :
  handleSubmit "https://example.org/?next=youtu.be" [SetIsAnalyzing true]
  = [SetIsAnalyzing true].
Proof.
  apply (address_check_is_a_substring_test "https://example.org/?next=youtu.be"
           [SetIsAnalyzing true]).
  exists "https://example.org/?next="%string, ""%string. right. reflexivity.
Defined.

(** ** The simulated analysis of the earlier component *)

Lemma inject_ten i : inject_Z (Z.of_nat (10 * i)) == 10 * inject_Z (Z.of_nat i).
Proof. now rewrite Nat2Z.inj_mul, inject_Z_mult. Qed.

Lemma sim_frames_before T i :
  (i < sim_steps T)%nat -> inject_Z (Z.of_nat (10 * i)) < T.
Proof.
  unfold sim_steps. intros Hi.
  pose proof (Qceiling_lt (T / 10)) as Hc.
  assert (Hz : (Z.of_nat i <= Qceiling (T / 10) - 1)%Z) by lia.
  rewrite Zle_Qle in Hz. rewrite inject_ten.
  unfold Qdiv in *. change (/ 10) with (1 # 10) in *. lra.
Qed.

Lemma sim_frames_end T : T <= inject_Z (Z.of_nat (10 * sim_steps T)).
Proof.
  unfold sim_steps.
  pose proof (Qle_ceiling (T / 10)) as Hc. rewrite inject_ten.
  unfold Qdiv in *. change (/ 10) with (1 # 10) in *.
  destruct (Z.le_gt_cases 0 (Qceiling (T * (1 # 10)))) as [Hpos|Hneg].
  - rewrite Z2Nat.id by exact Hpos. lra.
  - replace (Z.to_nat (Qceiling (T * (1 # 10)))) with 0%nat by lia.
    assert (Hz : (Qceiling (T * (1 # 10)) <= 0)%Z) by lia.
    rewrite Zle_Qle in Hz. change (inject_Z (Z.of_nat 0)) with 0.
    change (inject_Z 0) with 0 in Hz. lra.
Qed.

Lemma sim_loop_run T m : forall k st fuel,
  sim_frame st = (10 * k)%nat ->
  (forall i, (k <= i < k + m)%nat -> inject_Z (Z.of_nat (10 * i)) < T) ->
  T <= inject_Z (Z.of_nat (10 * (k + m))) ->
  (m < fuel)%nat ->
  sim_loop T fuel st
  = Some {| sim_frame := (10 * (k + m))%nat;
            sim_events := sim_events st ++ concat (map (sim_step_events T) (seq k m)) |}.
Proof.
  induction m as [|m IH]; intros k st fuel Hf Hlt Hge Hfuel.
  - destruct fuel as [|fuel]; [lia|]. cbn [sim_loop].
    rewrite Nat.add_0_r in *.
    replace (Qltb (inject_Z (Z.of_nat (sim_frame st))) T) with false.
    + cbn [seq map concat]. rewrite app_nil_r. destruct st; simpl in *.
      now rewrite Hf.
    + symmetry. apply Qltb_ge. now rewrite Hf.
  - destruct fuel as [|fuel]; [lia|]. cbn [sim_loop].
    replace (Qltb (inject_Z (Z.of_nat (sim_frame st))) T) with true.
    + rewrite (IH (S k)).
      * replace (S k + m)%nat with (k + S m)%nat by lia.
        f_equal. f_equal. unfold sim_body; cbn [sim_events].
        rewrite <- app_assoc. f_equal.
        change (seq k (S m)) with (k :: seq (S k) m). cbn [map concat].
        unfold sim_step_events at 2. rewrite Hf. reflexivity.
      * unfold sim_body; cbn [sim_frame]. lia.
      * intros i Hi. apply Hlt. lia.
      * now replace (S k + m)%nat with (k + S m)%nat by lia.
      * lia.
    + symmetry. apply Qltb_lt. rewrite Hf. apply Hlt. lia.
Qed.

Lemma sim_steps_projections T l :
  shown_data (concat (map (sim_step_events T) l)) = []
  /\ error_toasts (concat (map (sim_step_events T) l)) = []
  /\ video_seeks (concat (map (sim_step_events T) l))
     = map (fun i => inject_Z (Z.of_nat (10 * i)) / fps) l
  /\ progress_shown (concat (map (sim_step_events T) l))
     = map (fun i => inject_Z (Z.of_nat (10 * i)) / T * 100) l.
Proof.
  induction l as [|i l (IH1 & IH2 & IH3 & IH4)]; [easy|].
  unfold shown_data, error_toasts, video_seeks, progress_shown in *.
  cbn [map concat sim_step_events app omap list_omap].
  rewrite IH1, IH2, IH3, IH4. easy.
Qed.

Lemma analyzeVideo_simulated_ext {Image : Type} (video video' : Video Image)
    (has2d : bool) (rnd : nat -> Q) :
  duration video' = duration video ->
  videoWidth video' = videoWidth video ->
  videoHeight video' = videoHeight video ->
  analyzeVideo_simulated true video' has2d rnd
  = analyzeVideo_simulated true video has2d rnd.
Proof.
  intros Hd Hw Hh. unfold analyzeVideo_simulated. now rewrite Hd, Hw, Hh.
Qed.

(** X28.  The analyzeVideo of the earlier component never looks at the
    frames: what it does depends on the duration and the size of the
    video only.  It reports one progress value at the start and one
    per seek, all from 0 up to 100, and fails only for want of a
    drawing context.  The data it stores has two blank heat maps of the
    video's size, fixed insights and no comparison; with draws from 0
    up to 1 it shows 50 to 149 shots, 10 to 29 winners and 5 to 19
    errors. *)
Theorem simulated_analysis_ignores_the_video {Image : Type}
    (video : Video Image) (has2d : bool) (rnd : nat -> Q) :
  exists evs,
    analyzeVideo_simulated true video has2d rnd = Some evs
    /\ (forall video' : Video Image,
          duration video' = duration video ->
          videoWidth video' = videoWidth video ->
          videoHeight video' = videoHeight video ->
          analyzeVideo_simulated true video' has2d rnd = Some evs)
    /\ last evs = Some (SetIsAnalyzing false)
    /\ Forall (fun p => 0 <= p /\ p < 100) (progress_shown evs)
    /\ (has2d = false ->
        shown_data evs = [] /\ error_toasts evs = ["Erro na análise"%string]
        /\ video_seeks evs = [])
    /\ (has2d = true ->
        length (progress_shown evs) = S (length (video_seeks evs))
        /\ error_toasts evs = []
        /\ exists d,
             shown_data evs = [d]
             /\ playerHeatmap d = zero_grid (videoWidth video) (videoHeight video)
             /\ ballHeatmap d = zero_grid (videoWidth video) (videoHeight video)
             /\ insights3D d = {| stats_averageSpeed := 245 # 10;
                                  stats_courtCoverage := 783 # 10;
                                  stats_efficiency := 857 # 10 |}
             /\ professionalComparison d = None
             /\ ((forall k, 0 <= rnd k /\ rnd k < 1) ->
                 (50 <= data_shots d <= 149)%Z
                 /\ (10 <= data_winners d <= 29)%Z
                 /\ (5 <= data_errors d <= 19)%Z)).
Proof.
  cut (exists evs,
          analyzeVideo_simulated true video has2d rnd = Some evs
          /\ last evs = Some (SetIsAnalyzing false)
    /\ Forall (fun p => 0 <= p /\ p < 100) (progress_shown evs)
    /\ (has2d = false ->
        shown_data evs = [] /\ error_toasts evs = ["Erro na análise"%string]
        /\ video_seeks evs = [])
    /\ (has2d = true ->
        length (progress_shown evs) = S (length (video_seeks evs))
        /\ error_toasts evs = []
        /\ exists d,
             shown_data evs = [d]
             /\ playerHeatmap d = zero_grid (videoWidth video) (videoHeight video)
             /\ ballHeatmap d = zero_grid (videoWidth video) (videoHeight video)
             /\ insights3D d = {| stats_averageSpeed := 245 # 10;
                                  stats_courtCoverage := 783 # 10;
                                  stats_efficiency := 857 # 10 |}
             /\ professionalComparison d = None
             /\ ((forall k, 0 <= rnd k /\ rnd k < 1) ->
                 (50 <= data_shots d <= 149)%Z
                 /\ (10 <= data_winners d <= 29)%Z
                 /\ (5 <= data_errors d <= 19)%Z))).
  { intros (evs & Hrun & Hrest). exists evs. split; [exact Hrun|].
    split; [|exact Hrest].
    intros video' Hd Hw Hh.
    now rewrite (analyzeVideo_simulated_ext video video' has2d rnd Hd Hw Hh). }
  unfold analyzeVideo_simulated. cbn [negb].
  destruct has2d; cbn [negb].
  - set (T := duration video * fps).
    rewrite (sim_loop_run T (sim_steps T) 0); cbn [sim_frame sim_events];
      try reflexivity; try lia.
    2: { intros i Hi. apply sim_frames_before. lia. }
    2: { apply sim_frames_end. }
    destruct (sim_steps_projections T (seq 0 (sim_steps T))) as (S1 & S2 & S3 & S4).
    eexists. split; [reflexivity|]. split; [|split; [|split; [discriminate|]]].
    + rewrite !last_app. reflexivity.
    + rewrite !progress_shown_app, S4.
      cbn [progress_shown omap list_omap app]. rewrite app_nil_r.
      constructor; [split; [apply Qle_refl|reflexivity]|].
      apply List.Forall_map, List.Forall_forall. intros i Hi. apply in_seq in Hi.
      assert (Hlt : inject_Z (Z.of_nat (10 * i)) < T)
        by (apply sim_frames_before; lia).
      assert (H0 : 0 <= inject_Z (Z.of_nat (10 * i))).
      { change 0 with (inject_Z 0). rewrite <- Zle_Qle. lia. }
      assert (HT : 0 < T) by lra.
      assert (Hq0 : 0 <= inject_Z (Z.of_nat (10 * i)) / T).
      { apply Qle_shift_div_l; [exact HT|]. lra. }
      assert (Hq1 : inject_Z (Z.of_nat (10 * i)) / T < 1).
      { apply Qlt_shift_div_r; [exact HT|]. lra. }
      set (q := inject_Z (Z.of_nat (10 * i)) / T) in *. lra.
    + intros _. split; [|split].
      * rewrite !progress_shown_app, S4.
        unfold video_seeks in *. rewrite !omap_app, S3.
        cbn [progress_shown omap list_omap app]. rewrite !app_nil_r.
        cbn [length]. now rewrite !length_map.
      * rewrite !error_toasts_app, S2. reflexivity.
      * eexists. split.
        { rewrite !shown_data_app, S1. reflexivity. }
        split; [reflexivity|]. split; [reflexivity|]. split; [reflexivity|].
        split; [reflexivity|]. intros Hr.
        cbn [data_shots data_winners data_errors].
        destruct (Hr 270%nat), (Hr 271%nat), (Hr 272%nat).
        assert (A1 : (0 <= Qfloor (rnd 270%nat * 100) < 100)%Z).
        { split; [apply Qfloor_ge_iff|apply Qfloor_lt_iff];
            [change (inject_Z 0) with 0|change (inject_Z 100) with 100]; lra. }
        assert (A2 : (0 <= Qfloor (rnd 271%nat * 20) < 20)%Z).
        { split; [apply Qfloor_ge_iff|apply Qfloor_lt_iff];
            [change (inject_Z 0) with 0|change (inject_Z 20) with 20]; lra. }
        assert (A3 : (0 <= Qfloor (rnd 272%nat * 15) < 15)%Z).
        { split; [apply Qfloor_ge_iff|apply Qfloor_lt_iff];
            [change (inject_Z 0) with 0|change (inject_Z 15) with 15]; lra. }
        lia.
  - eexists. split; [reflexivity|]. split; [reflexivity|]. split.
    + constructor; [split; [apply Qle_refl|reflexivity]|constructor].
    + split; [intros _; now repeat split|discriminate].
Qed.

Lemma simulated_analysis_ignores_the_video_witness :
  exists evs,
    analyzeVideo_simulated true clip true quarter = Some evs
    /\ analyzeVideo_simulated true still_third true quarter = Some evs
    /\ length (progress_shown evs) = S (length (video_seeks evs))
    /\ error_toasts evs = [].
Proof.
  destruct (simulated_analysis_ignores_the_video clip true quarter)
    as (evs & Hev & Hany & _ & _ & _ & Hyes).
  exists evs. split; [exact Hev|].
  split; [apply Hany; reflexivity|].
  destruct (Hyes eq_refl) as (Hlen & Herr & _).
  split; [exact Hlen|exact Herr].
Defined.

(** ** The animated ball *)

Lemma Qfloor_add_int (a : Q) (z : Z) : Qfloor (a + inject_Z z) = (Qfloor a + z)%Z.
Proof.
  apply Z.le_antisymm.
  - assert (H : (Qfloor (a + inject_Z z) < Qfloor a + z + 1)%Z); [|lia].
    apply Qfloor_lt_iff. pose proof (Qlt_floor a) as Hlt.
    rewrite !inject_Z_plus in *. lra.
  - apply Qfloor_ge_iff. pose proof (Qfloor_le a) as Hle.
    rewrite inject_Z_plus. lra.
Qed.

(** X29.  At any elapsed time that is not negative, the ball of the 3D
    view is put on a point of a trajectory that is not empty (never on
    an undefined one): on point k during the k-th half second, and
    again one full round of half seconds later. *)
Theorem animated_ball_cycles_through_the_trajectory points time :
  0 <= time -> points <> [] ->
  (exists p, ball_point points time = Some p /\ In p points)
  /\ (forall k, (k < length points)%nat ->
        inject_Z (Z.of_nat k) * (1 # 2) <= time ->
        time < inject_Z (Z.of_nat (S k)) * (1 # 2) ->
        ball_point points time = points !! k)
  /\ ball_point points (time + inject_Z (Z.of_nat (length points)) * (1 # 2))
     = ball_point points time.
Proof.
  intros Ht Hne. unfold ball_point.
  set (n := length points).
  assert (Hn : (0 < n)%nat) by (subst n; destruct points; [congruence|simpl; lia]).
  replace (0 <? n)%nat with true by (symmetry; apply Nat.ltb_lt; exact Hn).
  assert (Hf : (0 <= Qfloor (time * 2))%Z).
  { apply Qfloor_ge_iff. change (inject_Z 0) with 0. lra. }
  rewrite !Z.rem_mod_nonneg by lia.
  assert (Hm : (0 <= Qfloor (time * 2) mod Z.of_nat n < Z.of_nat n)%Z)
    by (apply Z.mod_pos_bound; lia).
  split; [|split].
  - destruct (Z.ltb_spec (Qfloor (time * 2) mod Z.of_nat n) 0) as [?|_]; [lia|].
    destruct (lookup_lt_is_Some_2 points (Z.to_nat (Qfloor (time * 2) mod Z.of_nat n)))
      as [p Hp]; [fold n; lia|].
    exists p. split; [exact Hp|].
    apply list_elem_of_In. eapply list_elem_of_lookup_2. exact Hp.
  - intros k Hk Hlo Hhi.
    assert (Hfk : Qfloor (time * 2) = Z.of_nat k).
    { apply Z.le_antisymm.
      - assert (H : (Qfloor (time * 2) < Z.of_nat k + 1)%Z); [|lia].
        apply Qfloor_lt_iff. rewrite Nat2Z.inj_succ in Hhi. unfold Z.succ in Hhi.
        lra.
      - apply Qfloor_ge_iff. lra. }
    rewrite Hfk, Z.mod_small by lia.
    destruct (Z.ltb_spec (Z.of_nat k) 0) as [?|_]; [lia|].
    now rewrite Nat2Z.id.
  - assert (Hq : (time + inject_Z (Z.of_nat n) * (1 # 2)) * 2
                 == time * 2 + inject_Z (Z.of_nat n)) by ring.
    rewrite (Qfloor_comp _ _ Hq), Qfloor_add_int.
    rewrite Z.rem_mod_nonneg by lia.
    replace ((Qfloor (time * 2) + Z.of_nat n) mod Z.of_nat n)%Z
      with (Qfloor (time * 2) mod Z.of_nat n)%Z; [reflexivity|].
    rewrite <- (Z.mod_add (Qfloor (time * 2)) 1 (Z.of_nat n)) by lia.
    f_equal. lia.
Qed.

Lemma animated_ball_cycles_through_the_trajectory_witness :
  exists p, ball_point (ball_track quarter 0) (7 # 2) = Some p
            /\ In p (ball_track quarter 0).
Proof.
  apply (animated_ball_cycles_through_the_trajectory (ball_track quarter 0) (7 # 2)).
  - discriminate.
  - discriminate.
Defined.

(** * Properties of the methods over doubles *)

Section DoubleNumbers.

Import Double.

(** ** The order of the numbers *)

Lemma compare_cont_Eq_spec m1 m2 :
  CompareSpec (m1 = m2) (Pos.lt m1 m2) (Pos.lt m2 m1) (Pos.compare_cont Eq m1 m2).
Proof.
  change (Pos.compare_cont Eq m1 m2) with (Pos.compare m1 m2).
  apply Pos.compare_spec.
Qed.

End DoubleNumbers.

(** Case analysis on the numbers of a goal about [flt] and [feq]. *)
Ltac float_order :=
  unfold Double.flt, Double.feq, SFltb, SFeqb, SFcompare, Double.is_nan;
  repeat match goal with
  | x : Double.number |- _ => destruct x as [[]|[]| |[] ? ?]
  | x : spec_float |- _ => destruct x as [[]|[]| |[] ? ?]
  end;
  try discriminate; try reflexivity;
  repeat match goal with
  | |- context [Z.compare ?a ?b] => destruct (Z.compare_spec a b)
  | |- context [Pos.compare_cont Eq ?a ?b] => destruct (compare_cont_Eq_spec a b)
  end; simpl; intros; try discriminate; try reflexivity; try lia.

Section DoubleOrder.

Import Double.

Lemma flt_irrefl (x : number) : flt x x = false.
Proof. float_order. Qed.

Lemma flt_asym (x y : number) : flt x y = true -> flt y x = false.
Proof. float_order. Qed.

Lemma flt_trans (x y z : number) :
  flt x y = true -> flt y z = true -> flt x z = true.
Proof. float_order. Qed.

(** For numbers other than NaN, "not above" followed by "below" is
    "below". *)
Lemma fle_flt_trans (x y z : number) :
  is_nan x = false -> is_nan y = false ->
  flt y x = false -> flt y z = true -> flt x z = true.
Proof. float_order. Qed.

Lemma flt_antisym (x y : number) :
  is_nan x = false -> is_nan y = false ->
  flt x y = false -> flt y x = false -> feq x y = true.
Proof. float_order. Qed.

End DoubleOrder.

Section DoubleClassification.

Import Double.

(** ** Classification of a frame *)

Lemma dbl_classify_step_ball acc d :
  acc_ball (classify_step acc d)
  = if is_ball d then select (acc_ball acc) d else acc_ball acc.
Proof.
  unfold classify_step, is_ball, ball_shaped, confident, select.
  destruct (flt (raw_score d) (literal 5 10)); simpl; [reflexivity|].
  destruct (String.eqb (raw_label d) "person"); simpl; [reflexivity|].
  destruct (_ || _); simpl.
  - destruct (replaces _ _); reflexivity.
  - destruct (isCourtLike _); [destruct (replaces _ _)|]; reflexivity.
Qed.

Lemma dbl_classify_step_court acc d :
  acc_court (classify_step acc d)
  = if is_court d then select (acc_court acc) d else acc_court acc.
Proof.
  unfold classify_step, is_court, ball_shaped, confident, select.
  destruct (flt (raw_score d) (literal 5 10)); simpl; [reflexivity|].
  destruct (String.eqb (raw_label d) "person"); simpl; [reflexivity|].
  destruct (_ || _); simpl.
  - destruct (replaces _ _); reflexivity.
  - destruct (isCourtLike _); [destruct (replaces _ _)|]; reflexivity.
Qed.

Lemma dbl_fold_classify_ball dets : forall acc,
  acc_ball (fold_left classify_step dets acc)
  = select_all (List.filter is_ball dets) (acc_ball acc).
Proof.
  induction dets as [|d dets IH]; intros acc; simpl; [reflexivity|].
  rewrite IH, dbl_classify_step_ball.
  destruct (is_ball d); reflexivity.
Qed.

Lemma dbl_fold_classify_court dets : forall acc,
  acc_court (fold_left classify_step dets acc)
  = select_all (List.filter is_court dets) (acc_court acc).
Proof.
  induction dets as [|d dets IH]; intros acc; simpl; [reflexivity|].
  rewrite IH, dbl_classify_step_court.
  destruct (is_court d); reflexivity.
Qed.

(** ** Selection of the ball and court candidates *)

Lemma dbl_select_twice cand d : select (select cand d) d = select cand d.
Proof.
  unfold select at 2 3.
  destruct (replaces cand (raw_score d)) eqn:E.
  - unfold select, replaces. cbn [score to_result]. now rewrite flt_irrefl.
  - unfold select. now rewrite E.
Qed.

Lemma dbl_select_all_some l : forall c,
  is_nan (score c) = false -> Forall scored l ->
  exists b, select_all l (Some c) = Some b
    /\ ((b = c /\ Forall (fun x => flt (score c) (raw_score x) = false) l)
        \/ (exists d, b = to_result d /\ flt (score c) (raw_score d) = true
                      /\ first_best l d)).
Proof.
  induction l as [|d0 l IH]; intros c Hc Hl.
  - exists c. split; [reflexivity|]. left. split; [reflexivity|constructor].
  - apply Forall_cons in Hl. destruct Hl as [Hd0 Hl].
    unfold select_all; simpl. fold (select_all l (select (Some c) d0)).
    unfold select at 1, replaces.
    destruct (flt (score c) (raw_score d0)) eqn:E.
    + destruct (IH (to_result d0) Hd0 Hl)
        as (b & Hb & [[-> Hall] | (d & -> & Hd & l1 & l2 & -> & H1 & H2)]).
      * exists (to_result d0). split; [exact Hb|]. right.
        exists d0. split; [reflexivity|]. split; [exact E|].
        exists [], l. split; [reflexivity|]. split; [constructor|exact Hall].
      * exists (to_result d). split; [exact Hb|]. right.
        exists d. split; [reflexivity|]. cbn [score to_result] in Hd.
        split; [eapply flt_trans; eassumption|].
        exists (d0 :: l1), l2. split; [reflexivity|].
        split; [constructor; assumption|exact H2].
    + destruct (IH c Hc Hl)
        as (b & Hb & [[-> Hall] | (d & -> & Hd & l1 & l2 & -> & H1 & H2)]).
      * exists c. split; [exact Hb|]. left. split; [reflexivity|].
        constructor; assumption.
      * exists (to_result d). split; [exact Hb|]. right.
        exists d. split; [reflexivity|]. split; [exact Hd|].
        exists (d0 :: l1), l2. split; [reflexivity|].
        split; [|exact H2].
        constructor; [|exact H1].
        exact (fle_flt_trans _ _ _ Hd0 Hc E Hd).
Qed.

Lemma dbl_select_all_first_best l b :
  Forall scored l ->
  select_all l None = Some b -> exists d, b = to_result d /\ first_best l d.
Proof.
  destruct l as [|d0 l]; [discriminate|]. intros Hl.
  apply Forall_cons in Hl. destruct Hl as [Hd0 Hl].
  unfold select_all; simpl. fold (select_all l (select None d0)).
  change (select None d0) with (Some (to_result d0)).
  destruct (dbl_select_all_some l (to_result d0) Hd0 Hl)
    as (b' & Hb & [[-> Hall] | (d & -> & Hd & l1 & l2 & -> & H1 & H2)]);
    rewrite Hb; intros [= <-].
  - exists d0. split; [reflexivity|].
    exists [], l. split; [reflexivity|]. split; [constructor|exact Hall].
  - exists d. split; [reflexivity|].
    exists (d0 :: l1), l2. split; [reflexivity|].
    split; [constructor; assumption|exact H2].
Qed.

Lemma dbl_select_all_defined l : forall c, select_all l (Some c) <> None.
Proof.
  induction l as [|d l IH]; intros c; [discriminate|].
  unfold select_all; simpl. fold (select_all l (select (Some c) d)).
  unfold select at 1. destruct (replaces _ _); apply IH.
Qed.

Lemma dbl_select_all_none l : select_all l None = None <-> l = [].
Proof.
  split; [|intros ->; reflexivity].
  destruct l as [|d0 l]; [reflexivity|].
  unfold select_all; simpl. fold (select_all l (select None d0)).
  change (select None d0) with (Some (to_result d0)).
  intros H. now apply dbl_select_all_defined in H.
Qed.

Lemma dbl_first_best_in l d : first_best l d -> In d l.
Proof.
  intros (l1 & l2 & -> & _). apply in_or_app. right. left. reflexivity.
Qed.

Lemma dbl_first_best_bound l d x :
  first_best l d -> In x l -> flt (raw_score d) (raw_score x) = false.
Proof.
  intros (l1 & l2 & -> & H1 & H2) Hin.
  apply in_app_or in Hin. destruct Hin as [Hin|[<-|Hin]].
  - apply flt_asym. rewrite List.Forall_forall in H1. now apply H1.
  - apply flt_irrefl.
  - rewrite List.Forall_forall in H2. now apply H2.
Qed.

Lemma dbl_select_all_perm f l l' :
  Forall scored l -> Permutation l l' ->
  same_score (select_all (List.filter f l) None) (select_all (List.filter f l') None).
Proof.
  intros Hl HP.
  assert (Hl' : Forall scored l').
  { apply List.Forall_forall. intros x Hx. rewrite List.Forall_forall in Hl.
    apply Hl. eapply Permutation_in; [apply Permutation_sym|]; eassumption. }
  assert (Hf : forall k, Forall scored k -> Forall scored (List.filter f k)).
  { intros k Hk. apply List.Forall_forall. intros x Hx.
    apply filter_In in Hx. rewrite List.Forall_forall in Hk. now apply Hk. }
  assert (Hin : forall x, In x (List.filter f l) <-> In x (List.filter f l')).
  { intros x. rewrite !filter_In. split; intros [H ?]; split; try assumption.
    - eapply Permutation_in; eassumption.
    - eapply Permutation_in; [apply Permutation_sym|]; eassumption. }
  destruct (select_all (List.filter f l) None) as [b|] eqn:E;
    destruct (select_all (List.filter f l') None) as [b'|] eqn:E'; simpl.
  - apply dbl_select_all_first_best in E, E'; try now apply Hf.
    destruct E as (d & -> & Hd), E' as (d' & -> & Hd'). cbn [score to_result].
    assert (Sd : scored d).
    { rewrite List.Forall_forall in Hl. apply Hl.
      apply dbl_first_best_in in Hd. now apply filter_In in Hd. }
    assert (Sd' : scored d').
    { rewrite List.Forall_forall in Hl'. apply Hl'.
      apply dbl_first_best_in in Hd'. now apply filter_In in Hd'. }
    apply flt_antisym; try assumption.
    + eapply dbl_first_best_bound; [exact Hd|]. apply Hin.
      now apply dbl_first_best_in.
    + eapply dbl_first_best_bound; [exact Hd'|]. apply Hin.
      now apply dbl_first_best_in.
  - apply dbl_select_all_none in E'.
    apply dbl_select_all_first_best in E; [|now apply Hf].
    destruct E as (d & _ & Hd).
    apply dbl_first_best_in, Hin in Hd. rewrite E' in Hd. destruct Hd.
  - apply dbl_select_all_none in E.
    apply dbl_select_all_first_best in E'; [|now apply Hf].
    destruct E' as (d & _ & Hd).
    apply dbl_first_best_in, Hin in Hd. rewrite E in Hd. destruct Hd.
  - exact I.
Qed.

End DoubleClassification.
Section DoubleSelection.

Import Double.

(** C6 as stated does not hold: [ball_a] and [ball_c] have the same
    score, and of the two the one that comes first is selected, so
    reordering detections of equal score changes the selection. *)
Lemma reordering_equal_scores_changes_the_selection :
  raw_score ball_a = raw_score ball_c
  /\ Permutation [ball_a; ball_c] [ball_c; ball_a]
  /\ ball (classify [ball_a; ball_c] 0 (of_int 0)) = Some (to_result ball_a)
  /\ ball (classify [ball_c; ball_a] 0 (of_int 0)) = Some (to_result ball_c)
  /\ to_result ball_a <> to_result ball_c.
Proof.
  split; [reflexivity|]. split; [apply perm_swap|].
  split; [vm_compute; reflexivity|]. split; [vm_compute; reflexivity|].
  intros H. vm_compute in H. discriminate H.
Qed.

(** C6, amended.  For the ball and for the court candidate alike: a
    later detection of the class replaces the candidate exactly when
    its score is strictly higher, and on an equal or lower score the
    earlier candidate stays.  If no score is NaN, the candidate of a
    frame is therefore the first detection of its class with the
    highest score, and reordering the detections leaves the selected
    score unchanged (not the selected detection).  Offering a detection
    a second time changes nothing. *)
Theorem candidate_selection_first_best_wins :
  (forall acc d c,
      is_ball d = true -> acc_ball acc = Some c ->
      acc_ball (classify_step acc d)
      = Some (if flt (score c) (raw_score d) then to_result d else c))
  /\ (forall acc d c,
        is_court d = true -> acc_court acc = Some c ->
        acc_court (classify_step acc d)
        = Some (if flt (score c) (raw_score d) then to_result d else c))
  /\ (forall dets n t,
        Forall scored dets ->
        match ball (classify dets n t) with
        | Some b => exists d, b = to_result d /\ first_best (List.filter is_ball dets) d
        | None => List.filter is_ball dets = []
        end)
  /\ (forall dets n t,
        Forall scored dets ->
        match court (classify dets n t) with
        | Some b => exists d, b = to_result d /\ first_best (List.filter is_court dets) d
        | None => List.filter is_court dets = []
        end)
  /\ (forall dets dets' n t,
        Forall scored dets -> Permutation dets dets' ->
        same_score (ball (classify dets n t)) (ball (classify dets' n t))
        /\ same_score (court (classify dets n t)) (court (classify dets' n t)))
  /\ (forall acc d,
        acc_ball (classify_step (classify_step acc d) d) = acc_ball (classify_step acc d)
        /\ acc_court (classify_step (classify_step acc d) d)
           = acc_court (classify_step acc d)).
Proof.
  assert (Hfilter : forall (f : RawDetection -> bool) k,
             Forall scored k -> Forall scored (List.filter f k)).
  { intros f k Hk. apply List.Forall_forall. intros x Hx.
    apply filter_In in Hx. rewrite List.Forall_forall in Hk. now apply Hk. }
  repeat apply conj.
  - intros acc d c Hd Hc. rewrite dbl_classify_step_ball, Hd, Hc.
    unfold select, replaces. now destruct (flt _ _).
  - intros acc d c Hd Hc. rewrite dbl_classify_step_court, Hd, Hc.
    unfold select, replaces. now destruct (flt _ _).
  - intros dets n t Hs. unfold classify, classify_loop; simpl.
    rewrite dbl_fold_classify_ball; simpl.
    destruct (select_all _ None) eqn:E.
    + apply dbl_select_all_first_best; [now apply Hfilter|exact E].
    + now apply dbl_select_all_none.
  - intros dets n t Hs. unfold classify, classify_loop; simpl.
    rewrite dbl_fold_classify_court; simpl.
    destruct (select_all _ None) eqn:E.
    + apply dbl_select_all_first_best; [now apply Hfilter|exact E].
    + now apply dbl_select_all_none.
  - intros dets dets' n t Hs HP. unfold classify, classify_loop; simpl.
    rewrite !dbl_fold_classify_ball, !dbl_fold_classify_court; simpl.
    split; now apply dbl_select_all_perm.
  - intros acc d. split.
    + rewrite !dbl_classify_step_ball.
      destruct (is_ball d); [apply dbl_select_twice|reflexivity].
    + rewrite !dbl_classify_step_court.
      destruct (is_court d); [apply dbl_select_twice|reflexivity].
Qed.

Lemma candidate_selection_first_best_wins_witness :
  acc_ball (classify_step (classify_step frame_acc0 ball_a) ball_b)
  = Some (to_result ball_b)
  /\ acc_ball (classify_step (classify_step frame_acc0 ball_a) ball_c)
     = Some (to_result ball_a)
  /\ (exists d, ball (classify [ball_a; ball_b; ball_c] 0 (of_int 0)) = Some (to_result d)
                /\ first_best (List.filter is_ball [ball_a; ball_b; ball_c]) d)
  /\ same_score (ball (classify [ball_a; ball_b] 0 (of_int 0)))
                (ball (classify [ball_b; ball_a] 0 (of_int 0))).
Proof.
  destruct candidate_selection_first_best_wins as (Hstep & _ & Hbest & _ & Hperm & _).
  assert (Hs : Forall scored [ball_a; ball_b; ball_c]).
  { repeat (apply List.Forall_cons; [vm_compute; reflexivity|]).
    apply List.Forall_nil. }
  assert (Hs2 : Forall scored [ball_a; ball_b]).
  { repeat (apply List.Forall_cons; [vm_compute; reflexivity|]).
    apply List.Forall_nil. }
  assert (E : ball (classify [ball_a; ball_b; ball_c] 0 (of_int 0))
              = Some (to_result ball_b)) by (vm_compute; reflexivity).
  split; [|split; [|split]].
  - rewrite (Hstep (classify_step frame_acc0 ball_a) ball_b (to_result ball_a))
      by (vm_compute; reflexivity).
    vm_compute. reflexivity.
  - rewrite (Hstep (classify_step frame_acc0 ball_a) ball_c (to_result ball_a))
      by (vm_compute; reflexivity).
    vm_compute. reflexivity.
  - pose proof (Hbest [ball_a; ball_b; ball_c] 0%nat (of_int 0) Hs) as H.
    rewrite E in H. destruct H as (d & Hd & Hfb).
    exists d. split; [now rewrite E, Hd|exact Hfb].
  - destruct (Hperm [ball_a; ball_b] [ball_b; ball_a] 0%nat (of_int 0) Hs2
                (perm_swap ball_b ball_a [])) as [H _].
    exact H.
Defined.

End DoubleSelection.
Section DoubleHeatmap.

Import Double.

(** ** Heat maps *)

Lemma dbl_generateHeatmap_fold analyses width height type :
  generateHeatmap analyses width height type
  = fold_left (mark width height) (contributing type analyses)
      (zero_grid width height).
Proof.
  unfold generateHeatmap. generalize (zero_grid width height).
  induction analyses as [|a analyses IH]; intros hm; simpl; [reflexivity|].
  rewrite fold_left_app, IH. f_equal.
  unfold heatmap_step. destruct type; [reflexivity|].
  destruct (ball a); reflexivity.
Qed.

Lemma dbl_in_grid_spec width height c :
  in_grid width height c = true
  <-> exists cx cy,
        c = (Some cx, Some cy)
        /\ (0 <= cx < Z.of_nat width)%Z /\ (0 <= cy < Z.of_nat height)%Z.
Proof.
  unfold in_grid. destruct c as [[cx|] [cy|]].
  - rewrite !andb_true_iff, !Z.leb_le, !Z.ltb_lt. split.
    + intros H. exists cx, cy. split; [reflexivity|lia].
    + intros (x & y & [= -> ->] & H). lia.
  - split; [discriminate|]. intros (x & y & H & _). discriminate H.
  - split; [discriminate|]. intros (x & y & H & _). discriminate H.
  - split; [discriminate|]. intros (x & y & H & _). discriminate H.
Qed.

Lemma dbl_mark_shape width height hm d :
  grid_shape width height hm -> grid_shape width height (mark width height hm d).
Proof.
  intros [Hlen Hrows]. unfold mark.
  destruct (center_cell d) as [cx cy]. destruct (in_grid _ _ _); [|now split].
  split.
  - now rewrite length_alter.
  - apply Forall_alter; [exact Hrows|].
    intros row _ Hrow. now rewrite length_alter.
Qed.

Lemma dbl_mark_nonneg width height hm d :
  grid_nonneg hm -> grid_nonneg (mark width height hm d).
Proof.
  intros H. unfold mark.
  destruct (center_cell d) as [cx cy]. destruct (in_grid _ _ _); [|exact H].
  apply Forall_alter; [exact H|].
  intros row _ Hrow. apply Forall_alter; [exact Hrow|].
  intros v _ Hv. lia.
Qed.

Lemma dbl_mark_sum width height hm d :
  grid_shape width height hm ->
  grid_sum (mark width height hm d)
  = (grid_sum hm + (if in_bounds width height d then 1 else 0))%Z.
Proof.
  intros [Hlen Hrows]. unfold mark, in_bounds.
  destruct (center_cell d) as [ox oy].
  destruct (in_grid _ _ _) eqn:E; [|lia].
  apply dbl_in_grid_spec in E. destruct E as (cx & cy & [= -> ->] & Hx & Hy).
  cbn [index].
  destruct (lookup_lt_is_Some_2 hm (Z.to_nat cy)) as [row Hrow]; [lia|].
  assert (Hw : length row = width).
  { rewrite Forall_lookup in Hrows. exact (Hrows _ _ Hrow). }
  destruct (lookup_lt_is_Some_2 row (Z.to_nat cx)) as [v Hv]; [lia|].
  unfold grid_sum. rewrite (total_alter _ _ _ _ _ Hrow).
  unfold row_sum. rewrite (total_alter _ _ _ _ _ Hv). lia.
Qed.

Lemma dbl_mark_cell width height hm d y x :
  cell (mark width height hm d) y x
  = if in_bounds width height d && centered_at x y d
    then Z.succ <$> cell hm y x
    else cell hm y x.
Proof.
  unfold mark, in_bounds, centered_at, cell.
  destruct (center_cell d) as [ox oy].
  destruct (in_grid width height (ox, oy)) eqn:E; cbn [andb]; [|reflexivity].
  apply dbl_in_grid_spec in E. destruct E as (cx & cy & [= -> ->] & Hx & Hy).
  cbn [index].
  rewrite list_lookup_alter.
  destruct (Z.eqb_spec cy (Z.of_nat y)) as [Hcy|Hcy].
  - rewrite decide_True by lia. replace (Z.to_nat cy) with y by lia.
    destruct (hm !! y) as [row|]; simpl;
      [|destruct (cx =? Z.of_nat x)%Z; reflexivity].
    rewrite list_lookup_alter.
    destruct (Z.eqb_spec cx (Z.of_nat x)) as [Hcx|Hcx]; simpl.
    + rewrite decide_True by lia. replace (Z.to_nat cx) with x by lia.
      destruct (row !! x); simpl; [f_equal; lia|reflexivity].
    + rewrite decide_False by lia. reflexivity.
  - rewrite decide_False by lia. now rewrite andb_false_r.
Qed.

Lemma dbl_fold_mark_shape width height ds : forall hm,
  grid_shape width height hm ->
  grid_shape width height (fold_left (mark width height) ds hm).
Proof.
  induction ds as [|d ds IH]; intros hm H; simpl; [exact H|].
  apply IH, dbl_mark_shape, H.
Qed.

Lemma dbl_fold_mark_nonneg width height ds : forall hm,
  grid_nonneg hm -> grid_nonneg (fold_left (mark width height) ds hm).
Proof.
  induction ds as [|d ds IH]; intros hm H; simpl; [exact H|].
  apply IH, dbl_mark_nonneg, H.
Qed.

Lemma dbl_fold_mark_sum width height ds : forall hm,
  grid_shape width height hm ->
  grid_sum (fold_left (mark width height) ds hm)
  = (grid_sum hm + count (in_bounds width height) ds)%Z.
Proof.
  induction ds as [|d ds IH]; intros hm H; simpl.
  - unfold count; simpl. lia.
  - rewrite IH by now apply dbl_mark_shape.
    rewrite dbl_mark_sum by exact H. rewrite count_cons. lia.
Qed.

Lemma dbl_fold_mark_cell width height ds y x : forall hm,
  cell (fold_left (mark width height) ds hm) y x
  = Z.add (count (fun d => in_bounds width height d && centered_at x y d) ds)
      <$> cell hm y x.
Proof.
  induction ds as [|d ds IH]; intros hm; simpl.
  - unfold count; simpl. now destruct (cell hm y x).
  - rewrite IH, dbl_mark_cell, count_cons.
    destruct (in_bounds width height d && centered_at x y d);
      destruct (cell hm y x); simpl; f_equal; lia.
Qed.

Lemma dbl_centered_at_in_bounds width height x y d :
  (x < width)%nat -> (y < height)%nat ->
  centered_at x y d = true -> in_bounds width height d = true.
Proof.
  unfold centered_at, in_bounds. destruct (center_cell d) as [[cx|] [cy|]];
    try discriminate.
  intros Hx Hy H. apply andb_true_iff in H. destruct H as [H1 H2].
  apply Z.eqb_eq in H1, H2. apply dbl_in_grid_spec.
  exists cx, cy. split; [reflexivity|lia].
Qed.

Lemma dbl_count_centered_at width height x y ds :
  (x < width)%nat -> (y < height)%nat ->
  count (fun d => in_bounds width height d && centered_at x y d) ds
  = count (centered_at x y) ds.
Proof.
  intros Hx Hy. induction ds as [|d ds IH]; [reflexivity|].
  rewrite !count_cons, IH.
  destruct (centered_at x y d) eqn:E.
  - now rewrite (dbl_centered_at_in_bounds _ _ _ _ _ Hx Hy E).
  - now rewrite andb_false_r.
Qed.

Lemma dbl_generateHeatmap_cell analyses width height type x y :
  (x < width)%nat -> (y < height)%nat ->
  cell (generateHeatmap analyses width height type) y x
  = Some (count (centered_at x y) (contributing type analyses)).
Proof.
  intros Hx Hy.
  rewrite dbl_generateHeatmap_fold, dbl_fold_mark_cell, zero_grid_cell by assumption.
  rewrite (dbl_count_centered_at _ _ _ _ _ Hx Hy). simpl. f_equal. lia.
Qed.

(** The sum [x1 + x2] is rounded before it is halved and floored: for
    the doubles [x1 = 1 - 2^-53] and [x2 = 1] it rounds to 2 and the
    center falls in column 1, not 0; for [x1 = 4 - 2^-51] and [x2 = 4]
    it rounds to 8 and the center falls in column 4, outside a grid of
    width 4. *)
Example center_is_floored_after_rounding :
  center_cell (boxed below_one (of_int 0) (of_int 1) (of_int 1)) = (Some 1%Z, Some 0%Z)
  /\ center_cell (boxed below_four (of_int 0) (of_int 4) (of_int 1)) = (Some 4%Z, Some 0%Z)
  /\ in_bounds 4 3 (boxed below_four (of_int 0) (of_int 4) (of_int 1)) = false.
Proof. repeat split; vm_compute; reflexivity. Qed.

(** C3.  The cells of a heat map add up to the number of contributing
    detections whose center, computed and floored as the code does, lies
    in the grid; cell [y][x] holds the number of those centered there;
    marking an in-bounds detection adds 1 to the sum and to its own
    cell only, marking an out-of-bounds one changes nothing; for no
    analyses every cell is 0. *)
Theorem heatmap_sum_counts_in_bounds_centers analyses width height type :
  grid_sum (generateHeatmap analyses width height type)
  = count (in_bounds width height) (contributing type analyses)
  /\ (forall x y, (x < width)%nat -> (y < height)%nat ->
        cell (generateHeatmap analyses width height type) y x
        = Some (count (centered_at x y) (contributing type analyses)))
  /\ (forall hm d,
        grid_shape width height hm -> in_bounds width height d = true ->
        grid_sum (mark width height hm d) = (grid_sum hm + 1)%Z
        /\ forall x y,
             cell (mark width height hm d) y x
             = if centered_at x y d then Z.succ <$> cell hm y x else cell hm y x)
  /\ (forall hm d,
        in_bounds width height d = false -> mark width height hm d = hm)
  /\ (forall x y, (x < width)%nat -> (y < height)%nat ->
        cell (generateHeatmap [] width height type) y x = Some 0%Z).
Proof.
  repeat apply conj.
  - rewrite dbl_generateHeatmap_fold, dbl_fold_mark_sum by apply zero_grid_shape.
    rewrite zero_grid_sum. lia.
  - intros x y. apply dbl_generateHeatmap_cell.
  - intros hm d Hs Hd. split.
    + rewrite dbl_mark_sum by exact Hs. now rewrite Hd.
    + intros x y. rewrite dbl_mark_cell, Hd. reflexivity.
  - intros hm d Hd. unfold mark. unfold in_bounds in Hd.
    destruct (center_cell d) as [cx cy]. now rewrite Hd.
  - intros x y Hx Hy. now apply zero_grid_cell.
Qed.

Lemma heatmap_sum_counts_in_bounds_centers_witness :
  cell (generateHeatmap [one_player_frame] 4 3 Players) 2 1 = Some 1%Z
  /\ mark 4 3 (zero_grid 4 3) (boxed below_four (of_int 0) (of_int 4) (of_int 1))
     = zero_grid 4 3
  /\ grid_sum (mark 4 3 (zero_grid 4 3) (boxed below_one (of_int 0) (of_int 1) (of_int 1)))
     = 1%Z
  /\ cell (mark 4 3 (zero_grid 4 3) (boxed below_one (of_int 0) (of_int 1) (of_int 1))) 0 1
     = Some 1%Z.
Proof.
  destruct (heatmap_sum_counts_in_bounds_centers [one_player_frame] 4 3 Players)
    as (_ & Hcell & Hin & Hout & _).
  split; [|split; [|split]].
  - rewrite (Hcell 1%nat 2%nat) by lia. vm_compute. reflexivity.
  - apply Hout. vm_compute. reflexivity.
  - destruct (Hin (zero_grid 4 3)
                (boxed below_one (of_int 0) (of_int 1) (of_int 1))) as [Hsum _].
    + apply zero_grid_shape.
    + vm_compute. reflexivity.
    + rewrite Hsum. reflexivity.
  - destruct (Hin (zero_grid 4 3)
                (boxed below_one (of_int 0) (of_int 1) (of_int 1))) as [_ Hc].
    + apply zero_grid_shape.
    + vm_compute. reflexivity.
    + rewrite (Hc 1%nat 0%nat). vm_compute. reflexivity.
Defined.

(** C10.  A heat map has [height] rows of [width] cells each, no cell
    is negative, and the cell in row [y], column [x] counts the
    detections whose center, computed and floored as the code does, has
    vertical coordinate [y] and horizontal coordinate [x]. *)
Theorem heatmap_rows_by_height_columns_by_width analyses width height type :
  length (generateHeatmap analyses width height type) = height
  /\ Forall (fun row => length row = width)
       (generateHeatmap analyses width height type)
  /\ Forall (Forall (fun v => (0 <= v)%Z))
       (generateHeatmap analyses width height type)
  /\ (forall x y, (x < width)%nat -> (y < height)%nat ->
        generateHeatmap analyses width height type !! y ≫= (.!! x)
        = Some (count (fun d => bool_decide (snd (center_cell d) = Some (Z.of_nat y))
                                && bool_decide (fst (center_cell d) = Some (Z.of_nat x)))
                  (contributing type analyses))).
Proof.
  assert (Hs : grid_shape width height (generateHeatmap analyses width height type)).
  { rewrite dbl_generateHeatmap_fold. apply dbl_fold_mark_shape, zero_grid_shape. }
  destruct Hs as [Hlen Hrows].
  split; [exact Hlen|]. split; [exact Hrows|]. split.
  - rewrite dbl_generateHeatmap_fold. apply dbl_fold_mark_nonneg, zero_grid_nonneg.
  - intros x y Hx Hy.
    change (_ !! y ≫= _) with (cell (generateHeatmap analyses width height type) y x).
    rewrite (dbl_generateHeatmap_cell _ _ _ _ _ _ Hx Hy). f_equal.
    unfold count. f_equal. f_equal. apply filter_ext.
    intros d. unfold centered_at.
    destruct (center_cell d) as [[cx|] [cy|]]; cbn [fst snd].
    + destruct (Z.eqb_spec cx (Z.of_nat x)) as [->|Hx'],
               (Z.eqb_spec cy (Z.of_nat y)) as [->|Hy'];
        repeat (rewrite bool_decide_true by congruence);
        repeat (rewrite bool_decide_false by congruence); reflexivity.
    + rewrite (bool_decide_false (None = _)) by discriminate. reflexivity.
    + rewrite (bool_decide_false (None = _)) by discriminate.
      now rewrite andb_false_r.
    + rewrite (bool_decide_false (None = _)) by discriminate. reflexivity.
Qed.

Lemma heatmap_rows_by_height_columns_by_width_witness :
  generateHeatmap [one_player_frame] 4 3 Players !! 2%nat ≫= (.!! 1%nat) = Some 1%Z.
Proof.
  destruct (heatmap_rows_by_height_columns_by_width [one_player_frame] 4 3 Players)
    as (_ & _ & _ & Hcell).
  rewrite (Hcell 1%nat 2%nat) by lia. vm_compute. reflexivity.
Defined.

End DoubleHeatmap.
Section DoubleStatistics.

Import Double.

(** ** Statistics *)

Lemma dbl_stats_step_shots acc a :
  totalShots (stats_step acc a)
  = (totalShots acc
     + match ball a with
       | Some b => shot_between (prevBallPosition acc) (ball_center b)
       | None => 0
       end)%Z.
Proof. unfold stats_step. destruct (ball a); simpl; lia. Qed.

Lemma dbl_stats_step_prev acc a :
  prevBallPosition (stats_step acc a)
  = match ball a with
    | Some b => Some (ball_center b)
    | None => prevBallPosition acc
    end.
Proof. unfold stats_step. destruct (ball a); reflexivity. Qed.

Lemma dbl_stats_loop_snoc analyses a :
  stats_loop (analyses ++ [a]) = stats_step (stats_loop analyses) a.
Proof. unfold stats_loop. now rewrite fold_left_app. Qed.

Lemma dbl_fold_stats_shots analyses : forall acc,
  totalShots (fold_left stats_step analyses acc)
  = (totalShots acc + shots_along (prevBallPosition acc) (ball_centers analyses))%Z.
Proof.
  induction analyses as [|a analyses IH]; intros acc; simpl; [lia|].
  rewrite IH, dbl_stats_step_shots, dbl_stats_step_prev.
  unfold ball_centers; simpl. destruct (ball a); simpl; lia.
Qed.

Lemma dbl_stats_loop_prev analyses :
  prevBallPosition (stats_loop analyses) = last (ball_centers analyses).
Proof.
  induction analyses as [|a analyses IH] using rev_ind; [reflexivity|].
  rewrite dbl_stats_loop_snoc, dbl_stats_step_prev, IH.
  unfold ball_centers. rewrite omap_app, last_app; simpl.
  destruct (ball a); reflexivity.
Qed.

Lemma dbl_fold_stats_counters analyses : forall acc,
  nBallDetections (fold_left stats_step analyses acc)
  = (nBallDetections acc + Z.of_nat (length (contributing Ball analyses)))%Z
  /\ nPlayerMovements (fold_left stats_step analyses acc)
     = (nPlayerMovements acc + Z.of_nat (length (contributing Players analyses)))%Z.
Proof.
  induction analyses as [|a analyses IH]; intros acc; simpl; [lia|].
  destruct (IH (stats_step acc a)) as [-> ->].
  rewrite !length_app. unfold stats_step.
  destruct (ball a); simpl; lia.
Qed.

Lemma dbl_shots_after_pair analyses a1 a2 b1 b2 :
  ball a1 = Some b1 -> ball a2 = Some b2 ->
  shots (calculateStats (analyses ++ [a1; a2]))
  = (shots (calculateStats (analyses ++ [a1]))
     + if moved (ball_center b2) (ball_center b1) then 1 else 0)%Z.
Proof.
  intros H1 H2. unfold calculateStats; simpl.
  change [a1; a2] with ([a1] ++ [a2]). rewrite app_assoc.
  rewrite (dbl_stats_loop_snoc (analyses ++ [a1]) a2), dbl_stats_step_shots, H2.
  rewrite (dbl_stats_loop_snoc analyses a1), dbl_stats_step_prev, H1. reflexivity.
Qed.

(** The distance is rounded before it is compared with 50: from (0, 0)
    to (14.000000000000002, 48) the sum of the squares rounds to 2500
    and no shot is counted, although the exact distance exceeds 50; a
    distance of exactly 50, as from (0, 0) to (30, 40), counts no shot
    either, one of 51 does, in whichever direction. *)
Example distance_is_rounded_before_the_test :
  moved (above_fourteen, of_int 48) (of_int 0, of_int 0) = false
  /\ moved (of_int 30, of_int 40) (of_int 0, of_int 0) = false
  /\ moved (of_int 0, of_int 51) (of_int 0, of_int 0) = true
  /\ moved (of_int 0, of_int 0) (of_int 36, of_int (-36)) = true
  /\ distance (of_int 3, of_int 4) (of_int 0, of_int 0) = of_int 5.
Proof. repeat split; vm_compute; reflexivity. Qed.

(** C4.  The shot count is a fold over the ball-bearing analyses in
    order, with a previous position that starts unset: an analysis with
    a ball adds one shot exactly when a previous position exists and the
    distance from it to the current center, computed as the code
    computes it, exceeds 50, and it then becomes the previous position;
    an analysis without a ball changes neither the count nor the
    previous position.  Two consecutive balls at (0,0) and (100,0) add
    one shot, at (0,0) and (10,0) none. *)
Theorem shots_count_large_ball_moves :
  (forall analyses,
      shots (calculateStats analyses) = shots_along None (ball_centers analyses)
      /\ prevBallPosition (stats_loop analyses) = last (ball_centers analyses))
  /\ (forall analyses a,
        shots (calculateStats (analyses ++ [a]))
        = (shots (calculateStats analyses)
           + match ball a with
             | Some b => shot_between (prevBallPosition (stats_loop analyses))
                           (ball_center b)
             | None => 0
             end)%Z
        /\ prevBallPosition (stats_loop (analyses ++ [a]))
           = match ball a with
             | Some b => Some (ball_center b)
             | None => prevBallPosition (stats_loop analyses)
             end)
  /\ (forall prev cur,
        (shot_between prev cur = 1%Z
         <-> exists p, prev = Some p /\ flt (of_int 50) (distance cur p) = true)
        /\ (shot_between prev cur = 1%Z \/ shot_between prev cur = 0%Z))
  /\ (forall analyses a1 a2 b1 b2,
        ball a1 = Some b1 -> ball a2 = Some b2 ->
        ball_center b1 = (of_int 0, of_int 0) ->
        ball_center b2 = (of_int 100, of_int 0) ->
        shots (calculateStats (analyses ++ [a1; a2]))
        = (shots (calculateStats (analyses ++ [a1])) + 1)%Z)
  /\ (forall analyses a1 a2 b1 b2,
        ball a1 = Some b1 -> ball a2 = Some b2 ->
        ball_center b1 = (of_int 0, of_int 0) ->
        ball_center b2 = (of_int 10, of_int 0) ->
        shots (calculateStats (analyses ++ [a1; a2]))
        = shots (calculateStats (analyses ++ [a1]))).
Proof.
  repeat apply conj.
  - intros analyses. split; [|apply dbl_stats_loop_prev].
    unfold calculateStats, stats_loop; simpl.
    now rewrite dbl_fold_stats_shots.
  - intros analyses a. unfold calculateStats; simpl.
    rewrite dbl_stats_loop_snoc, dbl_stats_step_shots, dbl_stats_step_prev. now split.
  - intros prev cur. split.
    + unfold shot_between, moved. destruct prev as [p|].
      * destruct (flt (of_int 50) (distance cur p)) eqn:E.
        -- split; [|reflexivity]. intros _. now exists p.
        -- split; [discriminate|]. intros (p' & [= <-] & H). congruence.
      * split; [discriminate|]. intros (p & H & _). discriminate.
    + unfold shot_between. destruct prev; [destruct (moved _ _)|]; auto.
  - intros analyses a1 a2 b1 b2 H1 H2 C1 C2.
    rewrite (dbl_shots_after_pair _ _ _ _ _ H1 H2), C1, C2.
    replace (moved (of_int 100, of_int 0) (of_int 0, of_int 0)) with true
      by (vm_compute; reflexivity).
    reflexivity.
  - intros analyses a1 a2 b1 b2 H1 H2 C1 C2.
    rewrite (dbl_shots_after_pair _ _ _ _ _ H1 H2), C1, C2.
    replace (moved (of_int 10, of_int 0) (of_int 0, of_int 0)) with false
      by (vm_compute; reflexivity).
    lia.
Qed.

Lemma shots_count_large_ball_moves_witness :
  shots (calculateStats
           [ball_frame 0 (of_int (-5)) (of_int (-5)) (of_int 5) (of_int 5);
            ball_frame 1 (of_int 95) (of_int (-5)) (of_int 105) (of_int 5)]) = 1%Z
  /\ shots (calculateStats
              [ball_frame 0 (of_int (-5)) (of_int (-5)) (of_int 5) (of_int 5);
               ball_frame 1 (of_int 5) (of_int (-5)) (of_int 15) (of_int 5)]) = 0%Z
  /\ shot_between (Some (of_int 0, of_int 0)) (of_int 0, of_int 51) = 1%Z
  /\ shot_between (Some (of_int 0, of_int 0)) (above_fourteen, of_int 48) <> 1%Z.
Proof.
  destruct shots_count_large_ball_moves as (_ & _ & Hiff & Hfar & Hnear).
  set (f0 := ball_frame 0 (of_int (-5)) (of_int (-5)) (of_int 5) (of_int 5)).
  set (f1 := ball_frame 1 (of_int 95) (of_int (-5)) (of_int 105) (of_int 5)).
  set (f2 := ball_frame 1 (of_int 5) (of_int (-5)) (of_int 15) (of_int 5)).
  split; [|split; [|split]].
  - assert (H : shots (calculateStats ([] ++ [f0; f1]))
                = (shots (calculateStats ([] ++ [f0])) + 1)%Z).
    { apply (Hfar [] f0 f1 _ _ eq_refl eq_refl); vm_compute; reflexivity. }
    cbn [app] in H. rewrite H. vm_compute. reflexivity.
  - assert (H : shots (calculateStats ([] ++ [f0; f2]))
                = shots (calculateStats ([] ++ [f0]))).
    { apply (Hnear [] f0 f2 _ _ eq_refl eq_refl); vm_compute; reflexivity. }
    cbn [app] in H. rewrite H. vm_compute. reflexivity.
  - apply (Hiff (Some (of_int 0, of_int 0)) (of_int 0, of_int 51)).
    exists (of_int 0, of_int 0). split; [reflexivity|vm_compute; reflexivity].
  - intros H.
    apply (Hiff (Some (of_int 0, of_int 0)) (above_fourteen, of_int 48)) in H.
    destruct H as (p & [= <-] & H). vm_compute in H. discriminate H.
Defined.

(** X12.  Every player counted by calculateStats is either in the
    players heat map or has its computed center outside the grid, and
    likewise every ball detection for the ball heat map: heat-map sum
    plus out-of-bounds count is the counter. *)
Theorem heatmap_and_stats_count_the_same_detections analyses width height :
  (grid_sum (generateHeatmap analyses width height Players)
   + count (out_of_bounds width height) (contributing Players analyses))%Z
  = playerMovements (calculateStats analyses)
  /\ (grid_sum (generateHeatmap analyses width height Ball)
      + count (out_of_bounds width height) (contributing Ball analyses))%Z
     = ballDetections (calculateStats analyses).
Proof.
  assert (Hsplit : forall l : list DetectionResult,
             (count (in_bounds width height) l + count (out_of_bounds width height) l)%Z
             = Z.of_nat (length l)).
  { induction l as [|d l IH]; [reflexivity|].
    rewrite !count_cons. unfold out_of_bounds at 1. cbn [length].
    destruct (in_bounds width height d); simpl; lia. }
  destruct (dbl_fold_stats_counters analyses stats_acc0) as [Hb Hp].
  unfold calculateStats, stats_loop; cbn [playerMovements ballDetections].
  rewrite Hb, Hp. cbn [stats_acc0 nBallDetections nPlayerMovements].
  split.
  - rewrite dbl_generateHeatmap_fold, dbl_fold_mark_sum by apply zero_grid_shape.
    rewrite zero_grid_sum. specialize (Hsplit (contributing Players analyses)). lia.
  - rewrite dbl_generateHeatmap_fold, dbl_fold_mark_sum by apply zero_grid_shape.
    rewrite zero_grid_sum. specialize (Hsplit (contributing Ball analyses)). lia.
Qed.

End DoubleStatistics.
Section DoubleRun.

Import Double.

Context {Image : Type}.
Variable vp : VideoProcessor Image.
Variable video : Video Image.
Variable onProgress : option (Callback number).
Variable onFrame : option (Callback TennisAnalysis).

(** ** The loop of processVideo *)

Lemma dbl_loop_body_sample i st :
  currentTime st = sample_time i -> frameNumber st = i ->
  loop_body vp video onProgress onFrame st
  = (match progress_throws video onProgress i with
     | None => after_samples vp video onProgress onFrame st i 1
     | Some _ => stopped_in vp video onProgress onFrame st i 0
     end,
     progress_throws video onProgress i).
Proof.
  intros Ht Hn.
  unfold loop_body, try_frame, after_samples, stopped_in, frame_effects,
    frame_result, frame_call, progress_throws, progress_at.
  rewrite Ht, Hn. cbn [seq map concat omap list_omap].
  rewrite ?Nat.add_0_r, ?Nat.add_1_r, ?app_nil_r.
  destruct (processFrame vp _ i (sample_time i)) as [eff [a|e]]; cbn [fst snd];
    destruct onProgress as [g|];
    try destruct (g _) as [e'|];
    rewrite ?app_nil_r, <- ?app_assoc; reflexivity.
Qed.

Lemma dbl_after_samples_S st k m :
  after_samples vp video onProgress onFrame
    (after_samples vp video onProgress onFrame st k 1) (S k) m
  = after_samples vp video onProgress onFrame st k (S m).
Proof.
  unfold after_samples; cbn [currentTime frameNumber results trace].
  change (seq k (S m)) with (k :: seq (S k) m).
  change (seq k 1) with [k].
  cbn [map concat omap list_omap]. rewrite app_nil_r.
  replace (S k + m)%nat with (k + S m)%nat by lia.
  f_equal; rewrite <- app_assoc; [|reflexivity].
  f_equal. now destruct (frame_result vp video k).
Qed.

Lemma dbl_stopped_in_S st k m :
  stopped_in vp video onProgress onFrame
    (after_samples vp video onProgress onFrame st k 1) (S k) m
  = stopped_in vp video onProgress onFrame st k (S m).
Proof.
  unfold stopped_in, after_samples; cbn [currentTime frameNumber results trace].
  change (seq k (S (S m))) with (k :: seq (S k) (S m)).
  change (seq k 1) with [k].
  cbn [map concat omap list_omap]. rewrite app_nil_r.
  replace (S k + m)%nat with (k + S m)%nat by lia.
  f_equal; rewrite <- app_assoc; [|reflexivity].
  f_equal. now destruct (frame_result vp video k).
Qed.

(** What the loop does is fixed by the clock and by what [onProgress]
    throws: while the clock is below the duration and [onProgress]
    returns, it goes on. *)
Lemma dbl_sample_loop_inv fuel : forall k st st' r,
  currentTime st = sample_time k -> frameNumber st = k ->
  sample_loop vp video onProgress onFrame fuel st = Some (st', r) ->
  exists m,
    (m < fuel)%nat
    /\ (forall i, (k <= i < k + m)%nat ->
          flt (sample_time i) (duration video) = true
          /\ progress_throws video onProgress i = None)
    /\ match r with
       | None =>
           flt (sample_time (k + m)) (duration video) = false
           /\ st' = after_samples vp video onProgress onFrame st k m
       | Some e =>
           flt (sample_time (k + m)) (duration video) = true
           /\ progress_throws video onProgress (k + m) = Some e
           /\ st' = stopped_in vp video onProgress onFrame st k m
       end.
Proof.
  induction fuel as [|fuel IH]; intros k st st' r Ht Hn Hrun; [discriminate|].
  cbn [sample_loop] in Hrun.
  destruct (flt (currentTime st) (duration video)) eqn:Elt.
  - rewrite (dbl_loop_body_sample k st Ht Hn) in Hrun. rewrite Ht in Elt.
    destruct (progress_throws video onProgress k) as [e|] eqn:Ep.
    + injection Hrun as <- <-. exists 0%nat.
      split; [lia|]. split; [intros i Hi; lia|].
      rewrite Nat.add_0_r. now repeat split.
    + apply (IH (S k)) in Hrun; [|unfold after_samples; cbn [currentTime]; f_equal; lia
                                  |unfold after_samples; cbn [frameNumber]; lia].
      destruct Hrun as (m & Hm & Hall & Hr). exists (S m).
      split; [lia|]. split.
      * intros i Hi. destruct (Nat.eq_dec i k) as [->|Hne]; [now split|].
        apply Hall. lia.
      * replace (k + S m)%nat with (S k + m)%nat by lia.
        destruct r as [e|].
        -- destruct Hr as (H1 & H2 & ->). split; [exact H1|]. split; [exact H2|].
           apply dbl_stopped_in_S.
        -- destruct Hr as (H1 & ->). split; [exact H1|].
           apply dbl_after_samples_S.
  - injection Hrun as <- <-. exists 0%nat.
    split; [lia|]. split; [intros i Hi; lia|].
    rewrite Nat.add_0_r, <- Ht. split; [exact Elt|].
    unfold after_samples. cbn [seq map concat omap list_omap].
    rewrite !app_nil_r, Nat.add_0_r, <- Ht, <- Hn. now destruct st.
Qed.

(** With [m] samples ahead and a progress callback that returns for
    each of them, the loop ends after [m] iterations, given fuel for
    [m + 1] tests. *)
Lemma dbl_sample_loop_run m : forall k st fuel,
  currentTime st = sample_time k -> frameNumber st = k ->
  (forall i, (k <= i < k + m)%nat ->
     flt (sample_time i) (duration video) = true
     /\ progress_throws video onProgress i = None) ->
  flt (sample_time (k + m)) (duration video) = false ->
  (m < fuel)%nat ->
  sample_loop vp video onProgress onFrame fuel st
  = Some (after_samples vp video onProgress onFrame st k m, None).
Proof.
  induction m as [|m IH]; intros k st fuel Ht Hn Hall Hend Hfuel.
  - destruct fuel as [|fuel]; [lia|]. cbn [sample_loop].
    rewrite Nat.add_0_r in Hend. rewrite Ht, Hend.
    unfold after_samples. cbn [seq map concat omap list_omap].
    rewrite !app_nil_r, Nat.add_0_r, <- Ht, <- Hn. now destruct st.
  - destruct fuel as [|fuel]; [lia|]. cbn [sample_loop].
    destruct (Hall k) as [Hlt Hp]; [lia|].
    rewrite Ht, Hlt, (dbl_loop_body_sample k st Ht Hn), Hp.
    rewrite (IH (S k)).
    + now rewrite dbl_after_samples_S.
    + unfold after_samples; cbn [currentTime]. f_equal. lia.
    + unfold after_samples; cbn [frameNumber]. lia.
    + intros i Hi. apply Hall. lia.
    + now replace (S k + m)%nat with (k + S m)%nat by lia.
    + lia.
Qed.

(** As long as the clock is below the duration and [onProgress]
    returns, the loop has not ended. *)
Lemma dbl_sample_loop_short fuel : forall k st,
  currentTime st = sample_time k -> frameNumber st = k ->
  (forall i, (k <= i < k + fuel)%nat ->
     flt (sample_time i) (duration video) = true
     /\ progress_throws video onProgress i = None) ->
  sample_loop vp video onProgress onFrame fuel st = None.
Proof.
  induction fuel as [|fuel IH]; intros k st Ht Hn Hall; [reflexivity|].
  cbn [sample_loop].
  destruct (Hall k) as [Hlt Hp]; [lia|].
  rewrite Ht, Hlt, (dbl_loop_body_sample k st Ht Hn), Hp.
  apply (IH (S k)).
  - unfold after_samples; cbn [currentTime]. f_equal. lia.
  - unfold after_samples; cbn [frameNumber]. lia.
  - intros i Hi. apply Hall. lia.
Qed.

End DoubleRun.
Section DoubleRunProperties.

Import Double.

Context {Image : Type}.
Variable load : outcome (Detector Image).
Variable vp : VideoProcessor Image.
Variable video : Video Image.
Variable onProgress : option (Callback number).
Variable onFrame : option (Callback TennisAnalysis).

Lemma dbl_seeks_app tr tr' : seeks (tr ++ tr') = seeks tr ++ seeks tr'.
Proof. apply omap_app. Qed.


Lemma dbl_ensure_initialized_cases vp1 eff r :
  ensure_initialized load vp = (vp1, eff, r) ->
  seeks eff = [] /\ frame_errors eff = []
  /\ match r with
     | Returned _ => initialized vp1 = true
     | Thrown e => initialized vp = false /\ load = Thrown e /\ vp1 = vp
     end.
Proof.
  unfold ensure_initialized, initialize.
  destruct (initialized vp) eqn:Ei; simpl.
  - intros [= <- <- <-]. now rewrite Ei.
  - destruct load as [d|e]; intros [= <- <- <-]; repeat split; reflexivity.
Qed.

Lemma dbl_processFrame_console (p : VideoProcessor Image) img i t :
  seeks (fst (processFrame p img i t)) = []
  /\ frame_errors (fst (processFrame p img i t)) = [].
Proof.
  unfold processFrame. destruct (initialized p); simpl; [|now split].
  destruct (objectDetector p) as [detect|]; [|now split].
  destruct (detect img); now split.
Qed.

Lemma dbl_frame_result_some (p : VideoProcessor Image) i a :
  frame_result p video i = Some a ->
  frame a = i /\ timestamp a = sample_time i /\ (length (players a) <= 2)%nat.
Proof.
  unfold frame_result, frame_call, processFrame.
  destruct (initialized p); simpl; [|discriminate].
  destruct (objectDetector p) as [detect|]; [|discriminate].
  destruct (detect _); simpl; [|discriminate].
  intros [= <-]. repeat split. simpl. rewrite length_take. lia.
Qed.

Lemma dbl_frame_effects_seeks (p : VideoProcessor Image) i :
  seeks (frame_effects p video onProgress onFrame i) = [sample_time i].
Proof.
  unfold frame_effects, frame_call.
  change ([Seek (sample_time i); DrawImage (sample_time i)] ++ ?l)
    with (Seek (sample_time i) :: DrawImage (sample_time i) :: l).
  cbn [seeks omap list_omap]. f_equal.
  change (omap ?f ?l) with (seeks l).
  rewrite !dbl_seeks_app.
  destruct (dbl_processFrame_console p (frameAt video (sample_time i)) i (sample_time i))
    as [-> _].
  destruct (snd (processFrame _ _ _ _)) as [a|e];
    destruct onFrame as [f|], onProgress as [g|];
    try destruct (f a); reflexivity.
Qed.


Lemma dbl_run_seeks (p : VideoProcessor Image) l :
  seeks (concat (map (frame_effects p video onProgress onFrame) l))
  = map sample_time l.
Proof.
  induction l as [|i l IH]; [reflexivity|].
  cbn [map concat]. rewrite dbl_seeks_app, dbl_frame_effects_seeks, IH. reflexivity.
Qed.




(** Every result of processVideo: a throw before sampling, or the loop
    run for [m] iterations and ended by the clock or by [onProgress]. *)
Lemma dbl_processVideo_inv fuel has2d vp1 tr out :
  processVideo fuel load vp video has2d onProgress onFrame = Some (vp1, tr, out) ->
  (exists e, out = Thrown e /\ ensure_initialized load vp = (vp1, tr, Thrown e))
  \/ (exists u, has2d = false /\ out = Thrown (Error "Canvas context not available")
                /\ ensure_initialized load vp = (vp1, tr, Returned u))
  \/ (exists eff u m,
        has2d = true
        /\ ensure_initialized load vp = (vp1, eff, Returned u)
        /\ (m < fuel)%nat
        /\ (forall i, (i < m)%nat ->
              flt (sample_time i) (duration video) = true
              /\ progress_throws video onProgress i = None)
        /\ match out with
           | Returned res =>
               flt (sample_time m) (duration video) = false
               /\ res = omap (frame_result vp1 video) (seq 0 m)
               /\ tr = (eff ++ [SetCanvasSize (videoWidth video) (videoHeight video)])
                       ++ concat (map (frame_effects vp1 video onProgress onFrame)
                                    (seq 0 m))
           | Thrown e =>
               flt (sample_time m) (duration video) = true
               /\ progress_throws video onProgress m = Some e
               /\ tr = (eff ++ [SetCanvasSize (videoWidth video) (videoHeight video)])
                       ++ concat (map (frame_effects vp1 video onProgress onFrame)
                                    (seq 0 (S m)))
           end).
Proof.
  unfold processVideo.
  destruct (ensure_initialized load vp) as [[vp0 eff] [u|e]] eqn:Hinit.
  - destruct has2d; cbn [negb].
    + destruct (sample_loop _ _ _ _ _ _) as [[st' r]|] eqn:Hloop; [|discriminate].
      apply (dbl_sample_loop_inv vp0 video onProgress onFrame fuel 0) in Hloop;
        [|reflexivity|reflexivity].
      destruct Hloop as (m & Hm & Hall & Hr).
      intros H. right. right. exists eff, u, m.
      destruct r as [e|].
      * destruct Hr as (H1 & H2 & ->). injection H as <- <- <-.
        repeat split; try assumption; try reflexivity; apply Hall; lia.
      * destruct Hr as (H1 & ->). injection H as <- <- <-.
        repeat split; try assumption; try reflexivity; apply Hall; lia.
    + intros [= <- <- <-]. right. left. exists u. now repeat split.
  - intros [= <- <- <-]. left. exists e. now split.
Qed.

End DoubleRunProperties.
Section DoubleRunTheorems.

Import Double.

Context {Image : Type}.

Lemma dbl_never_throws_progress (video : Video Image)
    (onProgress : option (Callback number)) i :
  never_throws onProgress -> progress_throws video onProgress i = None.
Proof.
  unfold never_throws, progress_throws. intros H.
  destruct onProgress as [g|]; [|reflexivity]. now apply (H g).
Qed.

Lemma dbl_processVideo_run (load : outcome (Detector Image))
    (vp : VideoProcessor Image) (video : Video Image)
    (onProgress : option (Callback number))
    (onFrame : option (Callback TennisAnalysis)) vp1 eff n fuel :
  ensure_initialized load vp = (vp1, eff, Returned tt) ->
  (forall i, (i < n)%nat ->
     flt (sample_time i) (duration video) = true
     /\ progress_throws video onProgress i = None) ->
  flt (sample_time n) (duration video) = false ->
  (n < fuel)%nat ->
  processVideo fuel load vp video true onProgress onFrame
  = Some (vp1,
          (eff ++ [SetCanvasSize (videoWidth video) (videoHeight video)])
          ++ concat (map (frame_effects vp1 video onProgress onFrame) (seq 0 n)),
          Returned (omap (frame_result vp1 video) (seq 0 n))).
Proof.
  intros Hinit Hall Hend Hfuel. unfold processVideo. rewrite Hinit. cbn [negb].
  rewrite (dbl_sample_loop_run vp1 video onProgress onFrame n 0%nat);
    try reflexivity; try assumption.
  intros i Hi. apply Hall. lia.
Qed.

Lemma dbl_processVideo_short (load : outcome (Detector Image))
    (vp : VideoProcessor Image) (video : Video Image)
    (onProgress : option (Callback number))
    (onFrame : option (Callback TennisAnalysis)) vp1 eff fuel :
  ensure_initialized load vp = (vp1, eff, Returned tt) ->
  (forall i, (i < fuel)%nat ->
     flt (sample_time i) (duration video) = true
     /\ progress_throws video onProgress i = None) ->
  processVideo fuel load vp video true onProgress onFrame = None.
Proof.
  intros Hinit Hall. unfold processVideo. rewrite Hinit. cbn [negb].
  rewrite (dbl_sample_loop_short vp1 video onProgress onFrame fuel 0%nat);
    try reflexivity.
  intros i Hi. apply Hall. lia.
Qed.

(** ** The run of processVideo *)

(** The seventh clock value is the double just below 1, so that one
    second of video is sampled seven times. *)
Example one_second_has_seven_samples :
  sample_time 6 = below_one /\ samples 7 (of_int 1).
Proof.
  split; [vm_compute; reflexivity|]. split.
  - intros i Hi. do 7 (destruct i as [|i]; [vm_compute; reflexivity|]). lia.
  - vm_compute. reflexivity.
Qed.

(** C9.  The clock starts at 0 and advances by (1/30) * 5, the double
    nearest to 5/30, each sum rounded to a double.  With a processor and a drawing context and a
    progress callback that does not throw, the run seeks the video to
    the clock values below the duration, one after the other, and
    returns when the clock is no longer below the duration; if that
    takes [n] iterations, the seeks are the first [n] clock values.  As
    long as the clock stays below the duration the run has not
    returned.  For a duration that 0 is not below (0, a negative
    number, NaN) nothing is sought and the result is empty. *)
Theorem sampling_is_arithmetic_until_duration
    (load : outcome (Detector Image)) (vp : VideoProcessor Image)
    (video : Video Image) (onProgress : option (Callback number))
    (onFrame : option (Callback TennisAnalysis))
    (vp1 : VideoProcessor Image) (eff : list Effect) :
  ensure_initialized load vp = (vp1, eff, Returned tt) ->
  never_throws onProgress ->
  (forall n, samples n (duration video) ->
     exists tr res,
       (forall fuel, (n < fuel)%nat ->
          processVideo fuel load vp video true onProgress onFrame
          = Some (vp1, tr, Returned res))
       /\ seeks tr = map sample_time (seq 0 n)
       /\ res = omap (frame_result vp1 video) (seq 0 n))
  /\ (forall fuel,
        (forall i, (i < fuel)%nat -> flt (sample_time i) (duration video) = true) ->
        processVideo fuel load vp video true onProgress onFrame = None)
  /\ (flt (of_int 0) (duration video) = false ->
      exists tr,
        (forall fuel, (0 < fuel)%nat ->
           processVideo fuel load vp video true onProgress onFrame
           = Some (vp1, tr, Returned []))
        /\ seeks tr = [])
  /\ sample_time 0 = of_int 0
  /\ (forall i, sample_time (S i)
                = fadd (sample_time i) (fmul (fdiv (of_int 1) (of_int 30)) (of_int 5)))
  /\ fmul (fdiv (of_int 1) (of_int 30)) (of_int 5) = literal 5 30.
Proof.
  intros Hinit Hp.
  assert (He : seeks eff = []).
  { now destruct (dbl_ensure_initialized_cases load vp _ _ _ Hinit) as [-> _]. }
  assert (Hrun : forall n, samples n (duration video) ->
            exists tr res,
              (forall fuel, (n < fuel)%nat ->
                 processVideo fuel load vp video true onProgress onFrame
                 = Some (vp1, tr, Returned res))
              /\ seeks tr = map sample_time (seq 0 n)
              /\ res = omap (frame_result vp1 video) (seq 0 n)).
  { intros n [Hlt Hend]. eexists. eexists. split; [|split; [|reflexivity]].
    - intros fuel Hfuel.
      apply (dbl_processVideo_run load vp video onProgress onFrame vp1 eff n fuel);
        try assumption.
      intros i Hi. split; [now apply Hlt|now apply dbl_never_throws_progress].
    - rewrite !dbl_seeks_app, He, dbl_run_seeks. reflexivity. }
  split; [exact Hrun|].
  split; [|split; [|split; [reflexivity|split; [reflexivity|vm_compute; reflexivity]]]].
  - intros fuel Hlt.
    apply (dbl_processVideo_short load vp video onProgress onFrame vp1 eff fuel);
      [exact Hinit|].
    intros i Hi. split; [now apply Hlt|now apply dbl_never_throws_progress].
  - intros H0.
    destruct (Hrun 0%nat) as (tr & res & Hfuel & Hs & ->).
    { split; [intros i Hi; lia|exact H0]. }
    exists tr. split; [exact Hfuel|exact Hs].
Qed.

(** C1, amended.  With a processor, a drawing context, a progress
    callback that does not throw and a clock that leaves the duration
    behind after [n] iterations, the run returns whatever happens to
    single frames.  A frame whose detection fails is logged and left
    out of the result (no entry bears its number); every other sampled
    frame is in the result, in sampling order. *)
Theorem failed_frame_is_skipped_and_run_continues
    (load : outcome (Detector Image)) (vp : VideoProcessor Image)
    (video : Video Image) (onProgress : option (Callback number))
    (onFrame : option (Callback TennisAnalysis))
    (vp1 : VideoProcessor Image) (eff : list Effect) (n : nat) :
  ensure_initialized load vp = (vp1, eff, Returned tt) ->
  never_throws onProgress ->
  samples n (duration video) ->
  exists tr res,
    (forall fuel, (n < fuel)%nat ->
       processVideo fuel load vp video true onProgress onFrame
       = Some (vp1, tr, Returned res))
    /\ res = omap (frame_result vp1 video) (seq 0 n)
    /\ forall i, (i < n)%nat ->
         match snd (processFrame vp1 (frameAt video (sample_time i)) i
                      (sample_time i)) with
         | Thrown e =>
             In (ConsoleFrameError i e) tr
             /\ forall a, In a res -> frame a <> i
         | Returned a => In a res /\ frame a = i
         end.
Proof.
  intros Hinit Hp [Hlt Hend]. eexists. eexists.
  split; [|split; [reflexivity|]].
  - intros fuel Hfuel.
    apply (dbl_processVideo_run load vp video onProgress onFrame vp1 eff n fuel);
      try assumption.
    intros i Hi. split; [now apply Hlt|now apply dbl_never_throws_progress].
  - intros i Hi.
    assert (Hseq : In i (seq 0 n)) by (apply in_seq; lia).
    destruct (snd (processFrame vp1 (frameAt video (sample_time i)) i (sample_time i)))
      as [a|e] eqn:E.
    + assert (Hr : frame_result vp1 video i = Some a).
      { unfold frame_result, frame_call. now rewrite E. }
      split; [|exact (proj1 (dbl_frame_result_some video vp1 i a Hr))].
      apply list_elem_of_In, list_elem_of_omap. exists i.
      split; [now apply list_elem_of_In|exact Hr].
    + split.
      * apply in_or_app. right. apply in_concat.
        exists (frame_effects vp1 video onProgress onFrame i).
        split; [now apply in_map|].
        unfold frame_effects, frame_call. rewrite E.
        apply in_or_app. right. apply in_or_app. right.
        apply in_or_app. left. left. reflexivity.
      * intros a Ha Hfa.
        apply list_elem_of_In, list_elem_of_omap in Ha.
        destruct Ha as (j & _ & Hj).
        pose proof (proj1 (dbl_frame_result_some video vp1 j a Hj)) as Hf.
        rewrite Hfa in Hf. subst j.
        unfold frame_result, frame_call in Hj. rewrite E in Hj. discriminate.
Qed.

(** X5.  processVideo throws either before sampling starts - the
    processor was not initialized and loading the model failed, or
    there is no drawing context - and then no frame was sought, or
    because the progress callback threw, and then the report that
    threw is the last thing the run did.  What the frame callback
    throws never ends the run. *)
Theorem processVideo_throws_before_sampling_or_from_onProgress
    (fuel : nat) (load : outcome (Detector Image)) (vp : VideoProcessor Image)
    (video : Video Image) (has2d : bool) (onProgress : option (Callback number))
    (onFrame : option (Callback TennisAnalysis)) vp1 tr e :
  processVideo fuel load vp video has2d onProgress onFrame = Some (vp1, tr, Thrown e) ->
  (seeks tr = [] /\ frame_errors tr = []
   /\ ((initialized vp = false /\ load = Thrown e /\ vp1 = vp)
       \/ (has2d = false /\ e = Error "Canvas context not available"
           /\ initialized vp1 = true)))
  \/ (exists g p,
        onProgress = Some g /\ g p = Some e
        /\ last tr = Some (OnProgress p) /\ seeks tr <> []
        /\ initialized vp1 = true).
Proof.
  intros Hrun. apply dbl_processVideo_inv in Hrun.
  destruct Hrun as [(e' & [= <-] & Hinit)
                   |[(u & -> & [= ->] & Hinit)
                    |(eff & u & m & -> & Hinit & Hm & Hall & Hlt & Hthrow & ->)]].
  - left. destruct (dbl_ensure_initialized_cases _ _ _ _ _ Hinit) as (Hs & Hf & Hc).
    split; [exact Hs|]. split; [exact Hf|]. left. exact Hc.
  - left. destruct (dbl_ensure_initialized_cases _ _ _ _ _ Hinit) as (Hs & Hf & Hc).
    split; [exact Hs|]. split; [exact Hf|]. right. now repeat split.
  - right. destruct (dbl_ensure_initialized_cases _ _ _ _ _ Hinit) as (Hs & Hf & Hc).
    unfold progress_throws in Hthrow.
    destruct onProgress as [g|]; [|discriminate].
    exists g, (progress_at video m).
    split; [reflexivity|]. split; [exact Hthrow|]. split; [|split; [|exact Hc]].
    + rewrite seq_S, map_app, concat_app. cbn [map concat].
      rewrite app_nil_r. unfold frame_effects at 2.
      rewrite !app_assoc. apply last_snoc.
    + rewrite !dbl_seeks_app, dbl_run_seeks, seq_S, map_app.
      intros H. apply app_eq_nil in H. destruct H as [_ H].
      apply app_eq_nil in H. destruct H as [_ H]. discriminate H.
Qed.


End DoubleRunTheorems.
Section DoubleRunWitnesses.

Import Double.

Lemma sampling_is_arithmetic_until_duration_witness :
  (exists tr res,
     (forall fuel, (7 < fuel)%nat ->
        processVideo fuel (Thrown inference_failed) flaky_processor second true
          None None
        = Some (flaky_processor, tr, Returned res))
     /\ seeks tr = map sample_time (seq 0 7)
     /\ res = omap (frame_result flaky_processor second) (seq 0 7))
  /\ processVideo 50 (Thrown inference_failed) flaky_processor endless true None None
     = None
  /\ (exists tr,
        (forall fuel, (0 < fuel)%nat ->
           processVideo fuel (Thrown inference_failed) flaky_processor unloaded true
             None None
           = Some (flaky_processor, tr, Returned []))
        /\ seeks tr = []).
Proof.
  assert (Hnt : never_throws (@None (Callback number)))
    by (intros f a H; discriminate H).
  split; [|split].
  - destruct (sampling_is_arithmetic_until_duration
                (Thrown inference_failed) flaky_processor second None None
                flaky_processor [] eq_refl Hnt) as (Hrun & _).
    apply Hrun. split.
    + intros i Hi. do 7 (destruct i as [|i]; [vm_compute; reflexivity|]). lia.
    + vm_compute. reflexivity.
  - destruct (sampling_is_arithmetic_until_duration
                (Thrown inference_failed) flaky_processor endless None None
                flaky_processor [] eq_refl Hnt) as (_ & Hshort & _).
    apply Hshort.
    intros i Hi. do 50 (destruct i as [|i]; [vm_compute; reflexivity|]). lia.
  - destruct (sampling_is_arithmetic_until_duration
                (Thrown inference_failed) flaky_processor unloaded None None
                flaky_processor [] eq_refl Hnt) as (_ & _ & Hempty & _).
    apply Hempty. vm_compute. reflexivity.
Defined.

Lemma failed_frame_is_skipped_and_run_continues_witness :
  exists tr res,
    (forall fuel, (7 < fuel)%nat ->
       processVideo fuel (Thrown inference_failed) flaky_processor second true
         None None
       = Some (flaky_processor, tr, Returned res))
    /\ res = omap (frame_result flaky_processor second) (seq 0 7)
    /\ forall i, (i < 7)%nat ->
         match snd (processFrame flaky_processor (frameAt second (sample_time i)) i
                      (sample_time i)) with
         | Thrown e =>
             In (ConsoleFrameError i e) tr
             /\ forall a, In a res -> frame a <> i
         | Returned a => In a res /\ frame a = i
         end.
Proof.
  apply (failed_frame_is_skipped_and_run_continues
           (Thrown inference_failed) flaky_processor second None None
           flaky_processor [] 7 eq_refl).
  - intros f a H. discriminate H.
  - split.
    + intros i Hi. do 7 (destruct i as [|i]; [vm_compute; reflexivity|]). lia.
    + vm_compute. reflexivity.
Defined.

Lemma processVideo_throws_before_sampling_or_from_onProgress_witness :
  exists tr,
    processVideo 10 (Thrown inference_failed) flaky_processor second true
      (Some onProgress_faulty) (Some onFrame_faulty)
    = Some (flaky_processor, tr, Thrown faulty)
    /\ ((seeks tr = [] /\ frame_errors tr = []
         /\ ((initialized flaky_processor = false
              /\ @Thrown (Detector number) inference_failed = Thrown faulty
              /\ flaky_processor = flaky_processor)
             \/ (true = false /\ faulty = Error "Canvas context not available"
                 /\ initialized flaky_processor = true)))
        \/ (exists g p,
              Some onProgress_faulty = Some g /\ g p = Some faulty
              /\ last tr = Some (OnProgress p) /\ seeks tr <> []
              /\ initialized flaky_processor = true)).
Proof.
  assert (Hrun : exists tr,
             processVideo 10 (Thrown inference_failed) flaky_processor second true
               (Some onProgress_faulty) (Some onFrame_faulty)
             = Some (flaky_processor, tr, Thrown faulty)).
  { vm_compute. eexists. reflexivity. }
  destruct Hrun as [tr Hrun]. exists tr. split; [exact Hrun|].
  exact (processVideo_throws_before_sampling_or_from_onProgress
           10 (Thrown inference_failed) flaky_processor second true
           (Some onProgress_faulty) (Some onFrame_faulty) flaky_processor tr faulty
           Hrun).
Defined.


End DoubleRunWitnesses.
